(** * paperetl / cord19: a shallow embedding of [execute.py] and [section.py]

    The development follows the two Python modules of the CORD-19 loader,
    and the Elasticsearch database of the package:

    - [Py]      : the few pieces of the Python runtime the code relies on
                  (string methods, truthiness, [hashlib.sha1]);
    - [Json]    : the values produced by [json.load];
    - [Section_] : [paperetl/cord19/section.py];
    - [Multiprocessing] : what the iterator of [Pool.imap] hands to its caller;
    - [Execute] : [paperetl/cord19/execute.py];
    - [Pool]    : the workers behind [Pool.imap], finishing in any order;
    - [Elastic] : [paperetl/elastic.py];
    - [Gathered] : what one file adds to the lists of [Section.parse].

    Representation of text.  A Python [str] is represented by the string of
    the bytes of its UTF-8 encoding, and [Py.chars] gives its characters as
    code points.  Cutting at a delimiter, looking for a fragment and hashing
    are exact on the bytes.  The tests of [getDate] and the keyword search
    of [getTags] work on the characters: what Python says of a character
    outside ASCII (is it a digit, is it alphanumeric, what is the text in
    lower case) is read from the character database of the interpreter,
    which stands among the collaborators below.  [Py.lower], [Py.upper] and
    [Py.strip] act on the bytes and are those of Python on ASCII text. *)

From Stdlib Require Import ZArith List Ascii String Bool Lia.
From stdpp Require Import base gmap sets list strings.
Import ListNotations.

Set Warnings "-clear-no-such-hyp".

Local Open Scope Z_scope.

(* ===================================================================== *)
(** * Python runtime *)
(* ===================================================================== *)

Module Py.

(** Truthiness of a [str]: only the empty string is falsy. *)
Definition truthy (s : string) : bool :=
  match s with
  | EmptyString => false
  | String _ _ => true
  end.

(** [sub in text] for two strings. *)
Fixpoint contains (sub text : string) : bool :=
  String.prefix sub text ||
  match text with
  | EmptyString => false
  | String _ rest => contains sub rest
  end.

Fixpoint rev_string (acc s : string) : string :=
  match s with
  | EmptyString => acc
  | String c rest => rev_string (String c acc) rest
  end.

(** [s.split(sep)] for a non-empty separator: the scan goes left to right,
    [skip] counts the characters of a separator already matched and [acc]
    holds the current piece in reverse. *)
Fixpoint split_aux (sep : string) (skip : nat) (acc s : string) : list string :=
  match s with
  | EmptyString => [rev_string EmptyString acc]
  | String c rest =>
      match skip with
      | S k => split_aux sep k acc rest
      | O =>
          if String.prefix sep s
          then rev_string EmptyString acc
                 :: split_aux sep (Nat.pred (String.length sep)) EmptyString rest
          else split_aux sep O (String c acc) rest
      end
  end.

Definition split (sep s : string) : list string :=
  split_aux sep O EmptyString s.

(** [sep.join(l)] *)
Fixpoint join (sep : string) (l : list string) : string :=
  match l with
  | [] => EmptyString
  | [x] => x
  | x :: rest => String.append x (String.append sep (join sep rest))
  end.

Definition code (c : ascii) : Z := Z.of_N (N_of_ascii c).

Definition is_digit (c : ascii) : bool := (48 <=? code c) && (code c <=? 57).
Definition is_upper (c : ascii) : bool := (65 <=? code c) && (code c <=? 90).
Definition is_lower (c : ascii) : bool := (97 <=? code c) && (code c <=? 122).

(** White space as [str.isspace] sees it on ASCII: TAB..CR, FS..US, SPACE. *)
Definition is_space (c : ascii) : bool :=
  ((9 <=? code c) && (code c <=? 13)) || ((28 <=? code c) && (code c <=? 32)).

Definition lower_char (c : ascii) : ascii :=
  if is_upper c then ascii_of_N (Z.to_N (code c + 32)) else c.

Definition upper_char (c : ascii) : ascii :=
  if is_lower c then ascii_of_N (Z.to_N (code c - 32)) else c.

Fixpoint map_string (f : ascii -> ascii) (s : string) : string :=
  match s with
  | EmptyString => EmptyString
  | String c rest => String (f c) (map_string f rest)
  end.

(** [s.lower()] and [s.upper()] on ASCII text: the letters, one for one. *)
Definition lower : string -> string := map_string lower_char.
Definition upper : string -> string := map_string upper_char.

Fixpoint forall_string (p : ascii -> bool) (s : string) : bool :=
  match s with
  | EmptyString => true
  | String c rest => p c && forall_string p rest
  end.

Fixpoint lstrip (s : string) : string :=
  match s with
  | EmptyString => EmptyString
  | String c rest => if is_space c then lstrip rest else s
  end.

(** [s.strip()] on ASCII text *)
Definition strip (s : string) : string :=
  rev_string EmptyString (lstrip (rev_string EmptyString (lstrip s))).

(** [s.replace(a, b)] for single characters [a] and [b]. *)
Definition replace_char (a b : ascii) : string -> string :=
  map_string (fun c => if Ascii.eqb c a then b else c).

(** [os.path.join(directory, path)] *)
Definition path_join (directory path : string) : string :=
  if String.prefix "/" path then path
  else if negb (truthy directory) then path
  else if String.prefix "/" (rev_string EmptyString directory)
       then String.append directory path
       else String.append directory (String.append "/" path).

(** [int(s)] on a string of the digits 0 to 9. *)
Fixpoint int_aux (acc : Z) (s : string) : Z :=
  match s with
  | EmptyString => acc
  | String c rest => int_aux (10 * acc + (code c - 48)) rest
  end.

Definition int (s : string) : Z := int_aux 0 s.

(** ** [hashlib.sha1(data).hexdigest()] (FIPS 180-4) *)

Definition w32 (x : Z) : Z := x mod 2 ^ 32.
Definition add32 (x y : Z) : Z := w32 (x + y).
Definition rotl (n x : Z) : Z := w32 (Z.lor (Z.shiftl x n) (Z.shiftr x (32 - n))).
Definition not32 (x : Z) : Z := Z.lxor x (2 ^ 32 - 1).

(** Big-endian bytes of a [n]-byte unsigned number. *)
Fixpoint be_bytes (n : nat) (x : Z) : list Z :=
  match n with
  | O => []
  | S k => be_bytes k (Z.shiftr x 8) ++ [Z.land x 255]
  end.

(** The message followed by 0x80, zeros up to 56 mod 64, and the bit length. *)
Definition pad (msg : list Z) : list Z :=
  let len := Z.of_nat (length msg) in
  let zeros := Z.to_nat ((55 - len) mod 64) in
  msg ++ [128] ++ repeat 0 zeros ++ be_bytes 8 (8 * len).

Fixpoint be_words (fuel : nat) (bs : list Z) : list Z :=
  match fuel, bs with
  | S k, b0 :: b1 :: b2 :: b3 :: rest =>
      (Z.shiftl b0 24 + Z.shiftl b1 16 + Z.shiftl b2 8 + b3) :: be_words k rest
  | _, _ => []
  end.

(** The message schedule, most recent word first. *)
Fixpoint schedule (n : nat) (rw : list Z) : list Z :=
  match n with
  | O => rw
  | S k =>
      let x := Z.lxor (Z.lxor (nth 2 rw 0) (nth 7 rw 0))
                      (Z.lxor (nth 13 rw 0) (nth 15 rw 0)) in
      schedule k (rotl 1 x :: rw)
  end.

Definition round_f (t : nat) (b c d : Z) : Z :=
  if (t <? 20)%nat then Z.lor (Z.land b c) (Z.land (not32 b) d)
  else if (t <? 40)%nat then Z.lxor (Z.lxor b c) d
  else if (t <? 60)%nat then Z.lor (Z.lor (Z.land b c) (Z.land b d)) (Z.land c d)
  else Z.lxor (Z.lxor b c) d.

Definition round_k (t : nat) : Z :=
  if (t <? 20)%nat then 0x5a827999
  else if (t <? 40)%nat then 0x6ed9eba1
  else if (t <? 60)%nat then 0x8f1bbcdc
  else 0xca62c1d6.

Definition hstate : Type := Z * Z * Z * Z * Z.

Fixpoint rounds (t : nat) (ws : list Z) (st : hstate) : hstate :=
  match ws with
  | [] => st
  | wt :: rest =>
      let '(a, b, c, d, e) := st in
      let tmp := add32 (add32 (add32 (add32 (rotl 5 a) (round_f t b c d)) e)
                              (round_k t)) wt in
      rounds (S t) rest (tmp, a, rotl 30 b, c, d)
  end.

Definition compress (h : hstate) (block : list Z) : hstate :=
  let ws := rev (schedule 64 (rev (be_words 16 block))) in
  let '(a, b, c, d, e) := rounds 0 ws h in
  let '(h0, h1, h2, h3, h4) := h in
  (add32 h0 a, add32 h1 b, add32 h2 c, add32 h3 d, add32 h4 e).

Fixpoint blocks (fuel : nat) (h : hstate) (bs : list Z) : hstate :=
  match fuel with
  | O => h
  | S k =>
      match bs with
      | [] => h
      | _ => blocks k (compress h (firstn 64 bs)) (skipn 64 bs)
      end
  end.

Definition hex_digit (x : Z) : ascii :=
  ascii_of_N (Z.to_N (if x <? 10 then 48 + x else 87 + x)).

Fixpoint hex (n : nat) (x : Z) (acc : string) : string :=
  match n with
  | O => acc
  | S k => hex k (Z.shiftr x 4) (String (hex_digit (Z.land x 15)) acc)
  end.

Definition sha1_init : hstate :=
  (0x67452301, 0xefcdab89, 0x98badcfe, 0x10325476, 0xc3d2e1f0).

Definition sha1_hexdigest (msg : list Z) : string :=
  let bs := pad msg in
  let '(h0, h1, h2, h3, h4) := blocks (length bs) sha1_init bs in
  hex 8 h0 (hex 8 h1 (hex 8 h2 (hex 8 h3 (hex 8 h4 EmptyString)))).

(** [s.encode("utf-8")]: the bytes of the string. *)
Definition encode_utf8 (s : string) : list Z := map code (list_ascii_of_string s).

(** ** Characters *)

(** The code points that a sequence of UTF-8 bytes encodes: [need] bytes of
    the character under way are still to come and [acc] holds its bits. *)
Fixpoint decode_utf8 (need : nat) (acc : Z) (bytes : list Z) : list Z :=
  match bytes with
  | [] => []
  | b :: rest =>
      match need with
      | S O => (64 * acc + b mod 64) :: decode_utf8 O 0 rest
      | S k => decode_utf8 k (64 * acc + b mod 64) rest
      | O =>
          if b <? 128 then b :: decode_utf8 O 0 rest
          else if b <? 224 then decode_utf8 1 (b mod 32) rest
          else if b <? 240 then decode_utf8 2 (b mod 16) rest
          else decode_utf8 3 (b mod 8) rest
      end
  end.

(** The characters of a [str], as code points. *)
Definition chars (s : string) : list Z := decode_utf8 O 0 (encode_utf8 s).

(** [len(s)] *)
Definition len (s : string) : nat := length (chars s).

(** [s.isdigit()]: at least one character and all of them digits; [digit]
    answers for the characters outside ASCII. *)
Definition isdigit (digit : Z -> bool) (s : string) : bool :=
  match chars s with
  | [] => false
  | cs => forallb (fun c => if c <? 128 then (48 <=? c) && (c <=? 57) else digit c) cs
  end.

(** [c.isspace()] for a character [c]; the class [\s] of [re] on a [str]
    holds the same characters. *)
Definition isspace_char (c : Z) : bool :=
  ((9 <=? c) && (c <=? 13)) || ((28 <=? c) && (c <=? 32))
  || (c =? 0x85) || (c =? 0xa0) || (c =? 0x1680)
  || ((0x2000 <=? c) && (c <=? 0x200a))
  || (c =? 0x2028) || (c =? 0x2029) || (c =? 0x202f) || (c =? 0x205f) || (c =? 0x3000).

(** A word character of [re] on a [str], as [\b] needs it: [c.isalnum()] or
    an underscore; [alnum] answers outside ASCII. *)
Definition isword_char (alnum : Z -> bool) (c : Z) : bool :=
  if c <? 128
  then ((48 <=? c) && (c <=? 57)) || ((65 <=? c) && (c <=? 90))
       || ((97 <=? c) && (c <=? 122)) || (c =? 95)
  else alnum c.

(** [s.lower()] on the characters of [s]: in a text of ASCII characters the
    capital letters are replaced, one for one; [lower] answers for a text
    that holds a character outside ASCII (there the result may depend on
    the neighbours of a character and may be longer than the text). *)
Definition lower_chars (lower : list Z -> list Z) (cs : list Z) : list Z :=
  if forallb (fun c => c <? 128) cs
  then map (fun c => if (65 <=? c) && (c <=? 90) then c + 32 else c) cs
  else lower cs.

End Py.

(** ** Exceptions *)

Inductive exn : Type :=
  | KeyError | TypeError | AttributeError | IndexError | ValueError | OSError.

Inductive result (A : Type) : Type :=
  | Ok (a : A)
  | Raise (e : exn).

Arguments Ok {A} a.
Arguments Raise {A} e.

#[global] Instance result_bind : MBind result :=
  fun A B k r =>
    match r with
    | Ok a => k a
    | Raise e => Raise e
    end.

#[global] Instance result_ret : MRet result := @Ok.

Fixpoint rmap {A B} (f : A -> result B) (l : list A) : result (list B) :=
  match l with
  | [] => Ok []
  | x :: rest => y ← f x; ys ← rmap f rest; Ok (y :: ys)
  end.

(** ** Hashable values: what a [set] or a [Counter] can hold

    Equal keys are identified, as [set] and [dict] do ([True == 1]). *)

Inductive key : Type :=
  | KNone
  | KInt (n : Z)
  | KStr (s : string).

#[global] Instance key_eq_dec : EqDecision key.
Proof. solve_decision. Defined.

#[global] Instance key_countable : Countable key.
Proof.
  refine (inj_countable'
    (fun k => match k with
              | KNone => inl tt
              | KInt n => inr (inl n)
              | KStr s => inr (inr s)
              end)
    (fun x => match x with
              | inl _ => KNone
              | inr (inl n) => KInt n
              | inr (inr s) => KStr s
              end) _).
  intros []; reflexivity.
Defined.

(* ===================================================================== *)
(** * Values read by [json.load] *)
(* ===================================================================== *)

Module Json.

(** A value as [json.load] builds it.  Numbers are the integers; an object
    lists its members in the order of the file, each key once. *)
#[warnings="-register-all"]
Inductive t : Type :=
  | Null
  | Bool (b : bool)
  | Num (n : Z)
  | Str (s : string)
  | Arr (l : list t)
  | Obj (kvs : list (string * t)).

(** Truthiness of a value. *)
Definition truthy (v : t) : bool :=
  match v with
  | Null => false
  | Bool b => b
  | Num n => negb (n =? 0)
  | Str s => Py.truthy s
  | Arr l => match l with [] => false | _ => true end
  | Obj kvs => match kvs with [] => false | _ => true end
  end.

Fixpoint lookup (k : string) (kvs : list (string * t)) : option t :=
  match kvs with
  | [] => None
  | (k', v) :: rest => if String.eqb k k' then Some v else lookup k rest
  end.

(** [v[k]] for a string [k]: only a dict can be indexed this way. *)
Definition getitem (v : t) (k : string) : result t :=
  match v with
  | Obj kvs => match lookup k kvs with Some x => Ok x | None => Raise KeyError end
  | _ => Raise TypeError
  end.

(** The values a [for] loop over [v] goes through. *)
Definition iter (v : t) : result (list t) :=
  match v with
  | Arr l => Ok l
  | Obj kvs => Ok (map (fun kv => Str (fst kv)) kvs)
  | Str s => Ok (map (fun c => Str (String c EmptyString)) (list_ascii_of_string s))
  | _ => Raise TypeError
  end.

(** [v.items()] and [v.values()] exist on dicts only. *)
Definition items (v : t) : result (list (string * t)) :=
  match v with
  | Obj kvs => Ok kvs
  | _ => Raise AttributeError
  end.

Definition values (v : t) : result (list t) :=
  kvs ← items v; Ok (map snd kvs).

(** A [str] method is called on [v]. *)
Definition as_str (v : t) : result string :=
  match v with
  | Str s => Ok s
  | _ => Raise AttributeError
  end.

Definition is_str (s : string) (v : t) : bool :=
  match v with
  | Str s' => String.eqb s s'
  | _ => false
  end.

(** [k in v] for a string [k]. *)
Definition contains (k : string) (v : t) : result bool :=
  match v with
  | Obj kvs => Ok (match lookup k kvs with Some _ => true | None => false end)
  | Arr l => Ok (existsb (is_str k) l)
  | Str s => Ok (Py.contains k s)
  | _ => Raise TypeError
  end.

(** [hash(v)]: lists and dicts are not hashable. *)
Definition hash_key (v : t) : result key :=
  match v with
  | Null => Ok KNone
  | Bool b => Ok (KInt (if b then 1 else 0))
  | Num n => Ok (KInt n)
  | Str s => Ok (KStr s)
  | Arr _ | Obj _ => Raise TypeError
  end.

End Json.

(* ===================================================================== *)
(** * Rows, dates and external collaborators *)
(* ===================================================================== *)

(** A row of [metadata.csv] as [csv.DictReader] yields it: every column the
    code reads holds a string, empty when the cell is. *)
Module Row.
Record t : Type := mk {
  cord_uid : string;
  sha : string;
  source_x : string;
  title : string;
  doi : string;
  abstract : string;
  publish_time : string;
  authors : string;
  journal : string;
  pdf_json_files : string;
  pmc_json_files : string;
  url : string
}.
End Row.

(** [datetime.datetime]: the calendar fields and the offset of an aware value. *)
Record datetime : Type := mk_datetime {
  year : Z; month : Z; day : Z;
  hour : Z; minute : Z; second : Z; microsecond : Z;
  tzinfo : option Z
}.

(** [datetime(y, m, d)] *)
Definition date_of (y m d : Z) : datetime := mk_datetime y m d 0 0 0 0 None.

Fixpoint lex_ge (a b : list Z) : bool :=
  match a, b with
  | x :: a', y :: b' => (y <? x) || ((x =? y) && lex_ge a' b')
  | _, _ => true
  end.

Definition fields (d : datetime) : list Z :=
  [year d; month d; day d; hour d; minute d; second d; microsecond d].

(** [a >= b] where [b] is naive: comparing an aware value with it raises. *)
Definition datetime_ge (a b : datetime) : result bool :=
  match tzinfo a with
  | None => Ok (lex_ge (fields a) (fields b))
  | Some _ => Raise TypeError
  end.

(** The collaborators whose code lives outside the two modules: the text
    helpers of the package, the sentence splitter, the date parser, the
    grammar and study models, the character database of the interpreter,
    and the files below the input directory.
    The files and the models may raise.  [tokens] are the NLP tokens of a
    section and [annotation] the values the models produce. *)
Class Externals (tokens annotation : Type) : Type := {
  (** [Text.transform(text)] *)
  Text_transform : string -> string;
  (** [nltk.tokenize.sent_tokenize(text)] *)
  sent_tokenize : string -> list string;
  (** [Table.parse(html)] *)
  Table_parse : Json.t -> result (list string);
  (** [with open(path) as jfile: json.load(jfile)] *)
  json_load : string -> result Json.t;
  (** [dateutil.parser.parse(date)] *)
  parser_parse : string -> result datetime;
  (** [os.path.expanduser("~")] *)
  home : string;
  (** [grammar.parse(texts)] and [grammar.label(tokens)] *)
  Grammar_parse : list string -> result (list tokens);
  Grammar_label : tokens -> result (option annotation);
  (** [Study.parse(sections, models)]: design, size, sample, method, labels *)
  Study_parse : list (option string * string * tokens) -> string ->
                result (option annotation * option annotation * option annotation *
                        option annotation * list (option annotation));
  (** The character database of the interpreter, outside ASCII:
      [c.isdigit()] and [c.isalnum()] for a character [c] outside ASCII, and
      [text.lower()] for the characters of a text that holds one. *)
  unicode_isdigit : Z -> bool;
  unicode_isalnum : Z -> bool;
  unicode_lower : list Z -> list Z
}.

(* ===================================================================== *)
(** * [paperetl/cord19/section.py] *)
(* ===================================================================== *)

Module Section_.

(** A text section: [(name, text)]. *)
Abbreviation sec := (option string * string)%type.

Section WithExternals.
Context `{Externals tokens annotation}.

(** What [parse] mutates while it reads the files: its two lists, and the
    lines it prints. *)
Record state : Type := mk_state {
  sections : list sec;
  citations : list Json.t;
  stdout : list (string * exn)
}.

(** Statements that act on the state and may raise. *)
Definition stmt (A : Type) : Type := state -> state * result A.

#[local] Instance stmt_ret : MRet stmt := fun A a st => (st, Ok a).

#[local] Instance stmt_bind : MBind stmt :=
  fun A B k m st =>
    match m st with
    | (st', Ok a) => k a st'
    | (st', Raise e) => (st', Raise e)
    end.

Definition eval {A} (r : result A) : stmt A := fun st => (st, r).

Definition sections_extend (l : list sec) : stmt unit :=
  fun st => (mk_state (sections st ++ l) (citations st) (stdout st), Ok tt).

Definition citations_extend (l : list Json.t) : stmt unit :=
  fun st => (mk_state (sections st) (citations st ++ l) (stdout st), Ok tt).

Definition print (msg : string) (ex : exn) : stmt unit :=
  fun st => (mk_state (sections st) (citations st) (stdout st ++ [(msg, ex)]), Ok tt).

Fixpoint for_ {A} (l : list A) (body : A -> stmt unit) : stmt unit :=
  match l with
  | [] => mret tt
  | x :: rest => body x;; for_ rest body
  end.

(** [try: body / except Exception as ex: handler] *)
Definition try_except (body : stmt unit) (handler : exn -> stmt unit) : stmt unit :=
  fun st =>
    match body st with
    | (st', Ok _) => (st', Ok tt)
    | (st', Raise ex) => handler ex st'
    end.

(** [re.sub(r"^\[", "", text)] *)
Definition strip_open (text : string) : string :=
  match text with
  | String "["%char rest => rest
  | _ => text
  end.

(** [re.sub(r"\]$", "", text)]: [$] also matches before a final newline. *)
Definition strip_close (text : string) : string :=
  match Py.rev_string EmptyString text with
  | String "]"%char rest => Py.rev_string EmptyString rest
  | String "010"%char (String "]"%char rest) =>
      Py.rev_string EmptyString (String "010"%char rest)
  | _ => text
  end.

(** One round of the loop over [["title", "abstract"]]. *)
Definition heading (name text : string) : list sec :=
  if Py.truthy text then
    let text := strip_close (strip_open text) in
    let text := Text_transform text in
    map (fun x => (Some (Py.upper name), x)) (sent_tokenize text)
  else [].

(** [files(row)] *)
Definition files (row : Row.t) : list string :=
  flat_map (fun column : string => if Py.truthy column then Py.split "; " column else [])
           [Row.pdf_json_files row; Row.pmc_json_files row].

Definition boilerplate : list string :=
  ["COVID-19 resource centre"; "permission to make all its COVID"; "WHO COVID database";
   "COVID-19 public health emergency response"]%string.

(** [any([x in text for x in boilerplate])] *)
Definition is_boilerplate (text : string) : bool :=
  existsb (fun x => Py.contains x text) boilerplate.

(** The loop of [filtered]. *)
Fixpoint filtered_loop (sections : list sec) (unique : list sec) (keys : gset string)
  : list sec :=
  match sections with
  | [] => unique
  | (name, text) :: rest =>
      if negb (bool_decide (text ∈ keys)) && negb (is_boilerplate text)
      then filtered_loop rest (unique ++ [(name, text)]) ({[text]} ∪ keys)
      else filtered_loop rest unique keys
  end.

(** [filtered(sections, citations)].  [set(citations)] hashes every title;
    the order of [list(set(...))] is the order in which the set lists its
    elements. *)
Definition filtered (sections : list sec) (citations : list Json.t)
  : result (list sec * list key) :=
  let unique := filtered_loop sections [] ∅ in
  titles ← rmap Json.hash_key citations;
  Ok (unique, elements (list_to_set titles : gset key)).

(** The sections the specification keeps, in their order: a section goes
    when its text is the text of an earlier section ([earlier] lists the
    texts met so far, kept or not) or holds a boilerplate fragment. *)
Fixpoint first_occurrences (earlier : list string) (sections : list sec) : list sec :=
  match sections with
  | [] => []
  | (name, text) :: rest =>
      (if bool_decide (text ∈ earlier) || is_boilerplate text then []
       else [(name, text)])
      ++ first_occurrences (text :: earlier) rest
  end.

(** The body of the loop over the sections of [data["body_text"]]. *)
Definition body_section (section : Json.t) : stmt unit :=
  title ← eval (Json.getitem section "section" ≫= Json.as_str);
  let name := if (0 <? String.length (Py.strip title))%nat
              then Some (Py.upper title) else None in
  text ← eval (Json.getitem section "text" ≫= Json.as_str);
  let text := Py.replace_char "010" " " text in
  let text := Text_transform text in
  sections_extend (map (fun x => (name, x)) (sent_tokenize text)).

(** The body of the loop over [data["ref_entries"].items()]. *)
Definition ref_entry (item : string * Json.t) : stmt unit :=
  let '(name, entry) := item in
  has ← eval (Json.contains "html" entry);
  if has : bool then
    html ← eval (Json.getitem entry "html");
    if Json.truthy html then
      rows ← eval (Table_parse html);
      sections_extend (map (fun x => (Some name, x)) rows)
    else mret tt
  else mret tt.

(** The statements under [try] for one file. *)
Definition text_file (article : string) : stmt unit :=
  data ← eval (json_load article);
  body ← eval (Json.getitem data "body_text" ≫= Json.iter);
  for_ body body_section;;
  refs ← eval (Json.getitem data "ref_entries" ≫= Json.items);
  for_ refs ref_entry;;
  titles ← eval (entries ← Json.getitem data "bib_entries" ≫= Json.values;
                 rmap (fun entry => Json.getitem entry "title") entries);
  citations_extend titles.

(** The body of the loop over [files(row)]. *)
Definition each_file (directory path : string) : stmt unit :=
  let article := Py.path_join directory path in
  try_except (text_file article)
             (fun ex => print (String.append "Error processing text file: " article) ex).

(** The state when the loop over the files is left. *)
Definition read_files (row : Row.t) (directory : string) : state :=
  let sections := heading "title" (Row.title row)
                  ++ heading "abstract" (Row.abstract row) in
  fst (for_ (files row) (each_file directory) (mk_state sections [] [])).

(** The state after the handler of [each_file] has printed its line. *)
Definition logged (directory path : string) (ex : exn) (st : state) : state :=
  mk_state (sections st) (citations st)
           (stdout st ++ [(String.append "Error processing text file: "
                                         (Py.path_join directory path), ex)]).

(** [parse(row, directory)], with the lines printed on the way. *)
Definition parse (row : Row.t) (directory : string)
  : list (string * exn) * result (list sec * list key) :=
  let st := read_files row directory in
  (stdout st, filtered (sections st) (citations st)).

End WithExternals.
End Section_.

(* ===================================================================== *)
(** * Regular expressions of the [re] module, as far as the keywords go *)
(* ===================================================================== *)

Module Re.

(** A pattern over the characters of a [str]. *)
Inductive t : Type :=
  | Chr (c : Z)                      (* a literal character *)
  | Cls (p : Z -> bool)              (* a character class *)
  | Bnd                              (* \b *)
  | Eps
  | Seq (a b : t)
  | Alt (a b : t)
  | Opt (a : t).                     (* a? *)

(** The characters of a literal, in sequence. *)
Definition lit (s : string) : t := fold_right (fun c r => Seq (Chr c) r) Eps (Py.chars s).

Section WithWord.
(** The word characters, between which and the others [\b] finds its
    boundaries. *)
Variable word : Z -> bool.

Definition word_before (prev : option Z) : bool :=
  match prev with
  | Some c => word c
  | None => false
  end.

Definition word_after (s : list Z) : bool :=
  match s with
  | c :: _ => word c
  | [] => false
  end.

(** [matches r prev s k]: [r] matches a prefix of [s], the character before
    [s] being [prev], and [k] accepts what is left. *)
Fixpoint matches (r : t) (prev : option Z) (s : list Z)
    (k : option Z -> list Z -> bool) : bool :=
  match r with
  | Chr c =>
      match s with
      | c' :: rest => (c =? c') && k (Some c') rest
      | [] => false
      end
  | Cls p =>
      match s with
      | c' :: rest => p c' && k (Some c') rest
      | [] => false
      end
  | Bnd => xorb (word_before prev) (word_after s) && k prev s
  | Eps => k prev s
  | Seq a b => matches a prev s (fun prev' s' => matches b prev' s' k)
  | Alt a b => matches a prev s k || matches b prev s k
  | Opt a => matches a prev s k || k prev s
  end.

(** Is there a match of [r] somewhere in [s]?  [re.findall(r, s)] is
    non-empty exactly then. *)
Fixpoint search_from (r : t) (prev : option Z) (s : list Z) : bool :=
  matches r prev s (fun _ _ => true) ||
  match s with
  | [] => false
  | c :: rest => search_from r (Some c) rest
  end.

Definition search (r : t) (s : list Z) : bool := search_from r None s.

End WithWord.

End Re.

(* ===================================================================== *)
(** * [multiprocessing.Pool.imap], as its caller sees it *)
(* ===================================================================== *)

Module Multiprocessing.

(** [Pool._get_tasks(func, it, size)]: the tasks in batches of [size], for a
    [size] of at least 1. *)
Fixpoint get_tasks_aux {A} (fuel size : nat) (l : list A) : list (list A) :=
  match fuel, l with
  | S k, _ :: _ => take size l :: get_tasks_aux k size (drop size l)
  | _, _ => []
  end.

Definition get_tasks {A} (size : nat) (l : list A) : list (list A) :=
  get_tasks_aux (length l) size l.

(** [mapstar((func, batch))], that is [list(map(func, batch))], in a worker:
    the results of the batch, or what the first call that fails raises. *)
Definition mapstar {A B} (func : A -> result B) (batch : list A) : result (list B) :=
  rmap func batch.

(** What the iterator [(item for chunk in result for item in chunk)] hands
    over, in order: the items of the batches one batch after the other; a
    batch in which a call has failed gives the exception in place of all its
    items, and nothing comes after it. *)
Fixpoint yields {A B} (func : A -> result B) (batches : list (list A)) : list (result B) :=
  match batches with
  | [] => []
  | batch :: rest =>
      match mapstar func batch with
      | Ok items => map Ok items ++ yields func rest
      | Raise ex => [Raise ex]
      end
  end.

(** [pool.imap(func, iterable, chunksize)] *)
Definition imap {A B} (func : A -> result B) (iterable : list A) (chunksize : nat)
  : list (result B) :=
  yields func (get_tasks chunksize iterable).

End Multiprocessing.

(* ===================================================================== *)
(** * Articles *)
(* ===================================================================== *)

(** Modelled from the spec: the [Article] class ([paperetl/schema/article.py])
    is not among the sources.  An article holds the metadata tuple and the
    sections; its unique id is the record identifier, the first component of
    the tuple, and its tags are the seventh, in the order in which [process]
    builds the tuple.  The tuple is a record here: its first twelve fields
    are those [process] sets, and [entry] is the component [run] appends. *)
Module Article.
Section WithAnnotation.
Context {annotation : Type}.

Record metadata_t : Type := mk_metadata {
  id : string;
  source : string;
  published : option datetime;
  publication : string;
  authors : string;
  title : string;
  tags_ : option string;
  design : option annotation;
  size : option annotation;
  sample : option annotation;
  method : option annotation;
  reference : string;
  entry : option string
}.

Record t : Type := mk {
  metadata : metadata_t;
  sections : list (option string * string * option annotation)
}.

Definition uid (a : t) : string := id (metadata a).
Definition tags (a : t) : option string := tags_ (metadata a).

(** [metadata + (date,)] *)
Definition append_entry (m : metadata_t) (date : string) : metadata_t :=
  mk_metadata (id m) (source m) (published m) (publication m) (authors m) (title m)
              (tags_ m) (design m) (size m) (sample m) (method m) (reference m)
              (Some date).

End WithAnnotation.

Arguments metadata_t : clear implicits.
Arguments t : clear implicits.

End Article.

(* ===================================================================== *)
(** * [paperetl/cord19/execute.py] *)
(* ===================================================================== *)

Module Execute.

(** What [process] returns: [(sha, article, citations)]. *)
Abbreviation candidate annotation :=
  (string * Article.t annotation * option (list key))%type.

Section WithExternals.
Context `{Externals tokens annotation}.

(** [getHash(row)] *)
Definition getHash (row : Row.t) : string :=
  let sha := if Py.truthy (Row.sha row)
             then Some (hd EmptyString (Py.split "; " (Row.sha row)))
             else None in
  match sha with
  | Some s => if Py.truthy s then s
              else Py.sha1_hexdigest (Py.encode_utf8 (Row.title row))
  | None => Py.sha1_hexdigest (Py.encode_utf8 (Row.title row))
  end.

(** [getHash(row)] on the cells as [csv.DictReader] hands them over: the
    cell of a column that a short line of the file does not reach is [None],
    which is falsy and has no method [encode]. *)
Definition getHash_cells (sha title : option string) : result string :=
  let sha := match sha with
             | Some field => if Py.truthy field
                             then Some (hd EmptyString (Py.split "; " field))
                             else None
             | None => None
             end in
  let digest := match title with
                | Some title => Ok (Py.sha1_hexdigest (Py.encode_utf8 title))
                | None => Raise AttributeError
                end in
  match sha with
  | Some s => if Py.truthy s then Ok s else digest
  | None => digest
  end.

(** [getDate(row)]: [None] stands for Python's [None]; whatever is raised
    under the [try] is caught. *)
Definition getDate (row : Row.t) : option datetime :=
  let date := Row.publish_time row in
  if Py.truthy date then
    let date := if Py.isdigit unicode_isdigit date && (Py.len date =? 4)%nat
                then String.append date "-01-01" else date in
    match parser_parse date with
    | Ok d => Some d
    | Raise _ => None
    end
  else None.

(** What [getDate] relies on from [dateutil]: four of the digits 0 to 9
    followed by [-01-01] are read as the first of January of that year, and
    year 0, which no [datetime] can hold, is refused. *)
Definition parses_new_year : Prop :=
  forall y : string,
    Py.forall_string Py.is_digit y = true -> String.length y = 4%nat ->
    parser_parse (String.append y "-01-01")
    = if 1 <=? Py.int y then Ok (date_of (Py.int y) 1 1) else Raise ValueError.

(** [getUrl(row)] *)
Definition getUrl (row : Row.t) : string :=
  let urls := if Py.truthy (Row.url row)
              then List.filter (fun url => negb (Py.contains "https://api." url))
                          (Py.split "; " (Row.url row))
              else [] in
  match urls with
  | url :: _ => url
  | [] => String.append "https://doi.org/" (Row.doi row)
  end.

(** ** The keyword patterns of [getTags] *)

Definition dash_or_space : Re.t :=
  Re.Cls (fun c => (c =? 45) || Py.isspace_char c).

Definition seq (l : list Re.t) : Re.t := fold_right Re.Seq Re.Eps l.

Definition keywords : list Re.t :=
  [ (* 2019[\-\s]?n[\-\s]?cov *)
    seq [Re.lit "2019"; Re.Opt dash_or_space; Re.lit "n"; Re.Opt dash_or_space;
         Re.lit "cov"];
    (* 2019 novel coronavirus *)
    Re.lit "2019 novel coronavirus";
    (* coronavirus 2(?:019)? *)
    seq [Re.lit "coronavirus 2"; Re.Opt (Re.lit "019")];
    (* coronavirus disease (?:20)?19 *)
    seq [Re.lit "coronavirus disease "; Re.Opt (Re.lit "20"); Re.lit "19"];
    (* covid(?:[\-\s]?(?:20)?19)? *)
    seq [Re.lit "covid";
         Re.Opt (seq [Re.Opt dash_or_space; Re.Opt (Re.lit "20"); Re.lit "19"])];
    (* n\s?cov[\-\s]?2019 *)
    seq [Re.lit "n"; Re.Opt (Re.Cls Py.isspace_char); Re.lit "cov"; Re.Opt dash_or_space;
         Re.lit "2019"];
    (* sars[\-\s]cov-?2 *)
    seq [Re.lit "sars"; dash_or_space; Re.lit "cov"; Re.Opt (Re.lit "-"); Re.lit "2"];
    (* wuhan (?:coronavirus|cov|pneumonia) *)
    seq [Re.lit "wuhan ";
         Re.Alt (Re.lit "coronavirus") (Re.Alt (Re.lit "cov") (Re.lit "pneumonia"))]
  ].

(** ["|".join(["\\b%s\\b" % keyword.lower() for keyword in keywords])]; the
    keywords are in lower case as written. *)
Definition regex : Re.t :=
  fold_right (fun keyword r => Re.Alt (seq [Re.Bnd; keyword; Re.Bnd]) r)
             (Re.Cls (fun _ => false)) keywords.

(** [re.findall(regex, text.lower())] is not empty. *)
Definition keyword_match (text : string) : bool :=
  Re.search (Py.isword_char unicode_isalnum) regex
            (Py.lower_chars unicode_lower (Py.chars text)).

(** The loop of [getTags]: the tag, and the texts it has looked at. *)
Fixpoint scan (sections : list Section_.sec) : option string * list string :=
  match sections with
  | [] => (None, [])
  | (_, text) :: rest =>
      if keyword_match text then (Some "COVID-19"%string, [text])
      else let '(tags, seen) := scan rest in (tags, text :: seen)
  end.

(** [getTags(sections)] *)
Definition getTags (sections : list Section_.sec) : option string := fst (scan sections).

(** [getTags(sections) if not date or date >= datetime(2019, 7, 1) else None],
    with the texts scanned. *)
Definition classify (sections : list Section_.sec) (date : option datetime)
  : result (option string * list string) :=
  match date with
  | None => Ok (scan sections)
  | Some d =>
      recent ← datetime_ge d (date_of 2019 7 1);
      Ok (if recent : bool then scan sections else (None, []))
  end.

(** [stream(indir, models)] over the rows of [metadata.csv] *)
Definition stream (rows : list Row.t) (indir models : string)
  : list (Row.t * string * string) :=
  map (fun row => (row, indir, models)) rows.

Definition index {A} (l : list A) (x : nat) : result A :=
  match l !! x with
  | Some a => Ok a
  | None => Raise IndexError
  end.

Definition enumerate {A} (l : list A) : list (nat * A) := imap (fun x a => (x, a)) l.

(** Truthiness of [tags]: [None] and the empty string are falsy. *)
Definition truthy_tags (tags : option string) : bool :=
  match tags with
  | Some s => Py.truthy s
  | None => false
  end.

(** [process(params)] *)
Definition process (params : Row.t * string * string) : result (candidate annotation) :=
  let '(row, indir, models) := params in
  let sha := getHash row in
  let date := getDate row in
  '(sections, citations) ← snd (Section_.parse row indir);
  '(tags, _) ← classify sections date;
  '(design, size, sample, method, sections, citations) ←
    (if truthy_tags tags then
       tokenslist ← Grammar_parse (map snd sections);
       sections ← rmap (fun '(x, (name, text)) =>
                          tokens ← index tokenslist x; Ok (name, text, tokens))
                       (enumerate sections);
       '(design, size, sample, method, labels) ← Study_parse sections models;
       sections ← rmap (fun '(x, (name, text, tokens)) =>
                          label ← index labels x;
                          label ← match label with
                                  | Some l => Ok (Some l)
                                  | None => Grammar_label tokens
                                  end;
                          Ok (name, text, label))
                       (enumerate sections);
       Ok (design, size, sample, method, sections, Some citations)
     else
       Ok (None, None, None, None,
           map (fun '(name, text) => (name, text, None)) sections, None));
  let metadata := Article.mk_metadata (Row.cord_uid row) (Row.source_x row) date
                    (Row.journal row) (Row.authors row) (Row.title row) tags design size
                    sample method (getUrl row) None in
  Ok (sha, Article.mk metadata sections, citations).

(** [entryDates]: the dict built from the rows [(sha, date)] of the entry file. *)
Definition entryDates (entries : list (string * string)) : gmap string string :=
  fold_left (fun dates row => <[fst row := snd row]> dates) entries ∅.

(** ** [run] *)

(** Calls received by the database. *)
Inductive call : Type :=
  | Save (article : Article.t annotation)
  | Complete (citations : list (key * nat))
  | Close.

(** The objects [run] creates and mutates: the database, the two sets of
    processed keys and the [Counter] of citations. *)
Record state : Type := mk_state {
  db : list call;
  ids : gset string;
  hashes : gset string;
  citations : gmap key nat
}.

Definition init : state := mk_state [] ∅ ∅ ∅.

(** [citations.update(cite)]; [update(None)] leaves the counter as it is. *)
Definition update (citations : gmap key nat) (cite : option (list key)) : gmap key nat :=
  match cite with
  | None => citations
  | Some titles =>
      fold_left (fun c title => <[title := S (default O (c !! title))]> c)
                titles citations
  end.

(** The test of the loop body. *)
Definition accepts (full : bool) (st : state) (c : candidate annotation) : bool :=
  let '(sha, article, _) := c in
  negb (bool_decide (Article.uid article ∈ ids st))
  && negb (bool_decide (sha ∈ hashes st))
  && (full || truthy_tags (Article.tags article)).

(** The body of the loop: the state it leaves and, unless it raises, the
    article as it is when the body ends.  The database is one that returns
    from [save]; [body_on] below takes a database that may raise. *)
Definition body (full : bool) (dates : gmap string string) (st : state) (c : candidate annotation)
  : state * result (Article.t annotation) :=
  let '(sha, article, cite) := c in
  let uid := Article.uid article in
  if accepts full st c then
    match dates !! sha with
    | None => (st, Raise KeyError)
    | Some date =>
        let article := Article.mk (Article.append_entry (Article.metadata article) date)
                                  (Article.sections article) in
        (mk_state (db st ++ [Save article])
                  ({[uid]} ∪ ids st)
                  ({[sha]} ∪ hashes st)
                  (update (citations st) cite),
         Ok article)
    end
  else (st, Ok article).

(** The [for] loop over the results the pool hands over, in their order;  a
    result that is an exception is raised when its turn comes. *)
Fixpoint loop (full : bool) (dates : gmap string string) (st : state)
    (results : list (result (candidate annotation))) : state * result unit :=
  match results with
  | [] => (st, Ok tt)
  | Raise ex :: _ => (st, Raise ex)
  | Ok c :: rest =>
      match body full dates st c with
      | (st', Ok _) => loop full dates st' rest
      | (st', Raise ex) => (st', Raise ex)
      end
  end.

(** The candidates the loop accepts, in the order in which it meets them. *)
Fixpoint accepted (full : bool) (dates : gmap string string) (st : state)
    (results : list (result (candidate annotation))) : list (candidate annotation) :=
  match results with
  | Ok c :: rest =>
      match body full dates st c with
      | (st', Ok _) =>
          (if accepts full st c then [c] else []) ++ accepted full dates st' rest
      | (_, Raise _) => []
      end
  | _ => []
  end.

Definition sha_of (c : candidate annotation) : string := fst (fst c).
Definition uid_of (c : candidate annotation) : string := Article.uid (snd (fst c)).

(** The call the database receives for an accepted candidate. *)
Definition saved_as (dates : gmap string string) (c : candidate annotation) : call :=
  let article := snd (fst c) in
  Save (Article.mk (Article.append_entry (Article.metadata article)
                                         (default EmptyString (dates !! sha_of c)))
                   (Article.sections article)).

(** How often a candidate hands [title] to the counter. *)
Definition mentions (title : key) (c : candidate annotation) : nat :=
  match snd c with
  | Some titles => count_occ key_eq_dec titles title
  | None => O
  end.

(** [citations[title]], which is 0 for a title the counter does not hold. *)
Definition count (citations : gmap key nat) (title : key) : nat :=
  default O (citations !! title).

(** [db.complete(...)] then [db.close()], at a database that returns from
    both. *)
Definition complete (st : state) : state :=
  mk_state (db st ++ [Complete (map_to_list (citations st)); Close])
           (ids st) (hashes st) (citations st).

(** The models directory once the defaults of [run] are set:
    [os.path.join(os.path.expanduser("~"), ".cord19", "models")] when no
    url is given. *)
Definition models_or_default (url models : string) : string :=
  if Py.truthy url then models
  else Py.path_join (Py.path_join home ".cord19") "models".

(** [run(indir, url, models, entryfile, full)], given the rows of
    [metadata.csv] and of the entry file.  The loop receives what the
    iterator of [pool.imap] hands over.  The database is one that returns
    from every call; [run_on] below takes a database that may raise. *)
Definition run (rows : list Row.t) (entries : list (string * string))
    (indir url models : string) (full : bool) : state * result unit :=
  let models := models_or_default url models in
  let dates := entryDates entries in
  match loop full dates init
             (Multiprocessing.imap process (stream rows indir models) 100) with
  | (st, Ok _) => (complete st, Ok tt)
  | (st, Raise ex) => (st, Raise ex)
  end.

(** ** [run] at a database that may raise *)

(** What a call does at the database, given the calls it has received
    before: it returns, or it raises. *)
Definition database : Type := list call -> call -> result unit.

(** A database that returns from every call. *)
Definition reliable : database := fun _ _ => Ok tt.

(** [db.method(...)]: the call is received, then returns or raises. *)
Definition send (base : database) (c : call) (st : state) : state * result unit :=
  (mk_state (db st ++ [c]) (ids st) (hashes st) (citations st), base (db st) c).

(** The body of the loop: the entry date, [citations.update(cite)],
    [db.save(article)], and the two [add] when [save] has returned. *)
Definition body_on (base : database) (full : bool) (dates : gmap string string)
    (st : state) (c : candidate annotation) : state * result (Article.t annotation) :=
  let '(sha, article, cite) := c in
  let uid := Article.uid article in
  if accepts full st c then
    match dates !! sha with
    | None => (st, Raise KeyError)
    | Some date =>
        let article := Article.mk (Article.append_entry (Article.metadata article) date)
                                  (Article.sections article) in
        let st := mk_state (db st) (ids st) (hashes st) (update (citations st) cite) in
        match send base (Save article) st with
        | (st, Raise ex) => (st, Raise ex)
        | (st, Ok _) =>
            (mk_state (db st) ({[uid]} ∪ ids st) ({[sha]} ∪ hashes st) (citations st),
             Ok article)
        end
    end
  else (st, Ok article).

Fixpoint loop_on (base : database) (full : bool) (dates : gmap string string) (st : state)
    (results : list (result (candidate annotation))) : state * result unit :=
  match results with
  | [] => (st, Ok tt)
  | Raise ex :: _ => (st, Raise ex)
  | Ok c :: rest =>
      match body_on base full dates st c with
      | (st', Ok _) => loop_on base full dates st' rest
      | (st', Raise ex) => (st', Raise ex)
      end
  end.

(** [run] at the database [base]: what the loop raises leaves [run] at
    once; [complete] is called when the loop has ended, and [close] when
    [complete] has returned. *)
Definition run_on (base : database) (rows : list Row.t) (entries : list (string * string))
    (indir url models : string) (full : bool) : state * result unit :=
  let models := models_or_default url models in
  let dates := entryDates entries in
  match loop_on base full dates init
                (Multiprocessing.imap process (stream rows indir models) 100) with
  | (st, Raise ex) => (st, Raise ex)
  | (st, Ok _) =>
      match send base (Complete (map_to_list (citations st))) st with
      | (st, Raise ex) => (st, Raise ex)
      | (st, Ok _) => send base Close st
      end
  end.

End WithExternals.

Arguments call : clear implicits.
Arguments state : clear implicits.
Arguments database : clear implicits.

End Execute.

(* ===================================================================== *)
(** * The worker pool behind [pool.imap] *)
(* ===================================================================== *)

Module Pool.
Section WithExternals.
Context `{Externals tokens annotation}.

Inductive status : Type :=
  | Running
  | Raised (ex : exn)
  | Finished.

(** A moment of a run: the results the workers have produced so far, by the
    position of their batch; the position of the batch the iterator fetches
    next; the items of the batch fetched last that the loop of [run] has not
    received yet; the objects of [run]; and whether [run] has ended. *)
Record config : Type := mk_config {
  results : gmap nat (result (list (Execute.candidate annotation)));
  next : nat;
  pending : list (Execute.candidate annotation);
  st : Execute.state annotation;
  stat : status
}.

Definition start : config := mk_config ∅ O [] Execute.init Running.

Section Run.
Variable tasks : list (Row.t * string * string).
Variable chunksize : nat.
Variable full : bool.
Variable dates : gmap string string.

Definition batches : list (list (Row.t * string * string)) :=
  Multiprocessing.get_tasks chunksize tasks.

(** One move of a run.  A worker may finish any batch that has no result
    yet, whatever the other workers and the loop are doing.  The iterator
    fetches the result of the batch at position [next], never another one,
    and raises if a call of that batch has failed; the loop receives the
    items of a fetched batch one by one. *)
Inductive step : config -> config -> Prop :=
  | step_work c i batch :
      batches !! i = Some batch ->
      results c !! i = None ->
      step c (mk_config (<[i := Multiprocessing.mapstar Execute.process batch]> (results c))
                        (next c) (pending c) (st c) (stat c))
  | step_fetch c items :
      stat c = Running ->
      pending c = [] ->
      results c !! next c = Some (Ok items) ->
      step c (mk_config (results c) (S (next c)) items (st c) Running)
  | step_worker_error c ex :
      stat c = Running ->
      pending c = [] ->
      results c !! next c = Some (Raise ex) ->
      step c (mk_config (results c) (next c) [] (st c) (Raised ex))
  | step_accept_or_reject c cand rest st' article :
      stat c = Running ->
      pending c = cand :: rest ->
      Execute.body full dates (st c) cand = (st', Ok article) ->
      step c (mk_config (results c) (next c) rest st' Running)
  | step_lookup_error c cand rest st' ex :
      stat c = Running ->
      pending c = cand :: rest ->
      Execute.body full dates (st c) cand = (st', Raise ex) ->
      step c (mk_config (results c) (next c) rest st' (Raised ex))
  | step_complete c :
      stat c = Running ->
      pending c = [] ->
      next c = length batches ->
      step c (mk_config (results c) (next c) [] (Execute.complete (st c)) Finished).

(** Runs: any number of moves from the start. *)
Definition reaches (c : config) : Prop := rtc step start c.

Definition ended (c : config) : Prop := stat c <> Running.

(** What a run leaves behind. *)
Definition outcome (c : config) : Execute.state annotation * status := (st c, stat c).

(** What the loop of [run] leaves behind when it receives what the iterator
    hands over. *)
Definition batched : Execute.state annotation * status :=
  match Execute.loop full dates Execute.init
          (Multiprocessing.yields Execute.process batches) with
  | (s, Ok _) => (Execute.complete s, Finished)
  | (s, Raise ex) => (s, Raised ex)
  end.

(** The sequential run of the specification: the per-row function is applied
    to the rows in the order of the input file, and the decision to accept
    or reject is folded over the candidates. *)
Definition decide (acc : Execute.state annotation * status)
    (r : result (Execute.candidate annotation)) : Execute.state annotation * status :=
  match acc with
  | (s, Running) =>
      match r with
      | Ok cand =>
          match Execute.body full dates s cand with
          | (s', Ok _) => (s', Running)
          | (s', Raise ex) => (s', Raised ex)
          end
      | Raise ex => (s, Raised ex)
      end
  | _ => acc
  end.

Definition sequential : Execute.state annotation * status :=
  match fold_left decide (map Execute.process tasks) (Execute.init, Running) with
  | (s, Running) => (Execute.complete s, Finished)
  | acc => acc
  end.

(** What holds at every moment of a run: the results at hand are those of
    the workers on their batches, and what is left to do, from the state
    [run] is in, ends as the loop over the whole input ends. *)
Definition consistent (c : config) : Prop :=
  (forall i r, results c !! i = Some r ->
               exists batch, batches !! i = Some batch
                             /\ r = Multiprocessing.mapstar Execute.process batch)
  /\ match stat c with
     | Running =>
         (next c <= length batches)%nat
         /\ Execute.loop full dates (st c)
              (map Ok (pending c)
               ++ Multiprocessing.yields Execute.process (drop (next c) batches))
            = Execute.loop full dates Execute.init
                (Multiprocessing.yields Execute.process batches)
     | Raised ex =>
         Execute.loop full dates Execute.init
           (Multiprocessing.yields Execute.process batches) = (st c, Raise ex)
     | Finished =>
         exists s, Execute.loop full dates Execute.init
                     (Multiprocessing.yields Execute.process batches) = (s, Ok tt)
                   /\ st c = Execute.complete s
     end.

End Run.
End WithExternals.

Arguments config : clear implicits.

End Pool.

(* ===================================================================== *)
(** * A small instance of the collaborators, for the examples *)
(* ===================================================================== *)

Module Demo.

Definition leap (y : Z) : bool :=
  ((y mod 4 =? 0) && negb (y mod 100 =? 0)) || (y mod 400 =? 0).

Definition days_in_month (y m : Z) : Z :=
  if m =? 2 then (if leap y then 29 else 28)
  else if (m =? 4) || (m =? 6) || (m =? 9) || (m =? 11) then 30
  else 31.

(** [datetime(y, m, d)] raises [ValueError] outside the calendar. *)
Definition datetime_new (y m d : Z) : result datetime :=
  if (1 <=? y) && (y <=? 9999) && (1 <=? m) && (m <=? 12)
     && (1 <=? d) && (d <=? days_in_month y m)
  then Ok (date_of y m d) else Raise ValueError.

(** A parser that reads [YYYY-MM-DD], written with the digits 0 to 9, and
    nothing else. *)
Definition iso_parse (s : string) : result datetime :=
  let y := String.substring 0 4 s in
  let m := String.substring 5 2 s in
  let d := String.substring 8 2 s in
  if (String.length s =? 10)%nat
     && Py.forall_string Py.is_digit y && Py.forall_string Py.is_digit m
     && Py.forall_string Py.is_digit d
     && String.eqb (String.substring 4 1 s) "-"
     && String.eqb (String.substring 7 1 s) "-"
  then datetime_new (Py.int y) (Py.int m) (Py.int d)
  else Raise ValueError.

Definition paragraph (name text : string) : Json.t :=
  Json.Obj [("section"%string, Json.Str name); ("text"%string, Json.Str text)].

Definition reference (title : string) : Json.t :=
  Json.Obj [("title"%string, Json.Str title)].

(** The files below the input directory [data].  The grammar of the examples
    refuses a text of more than 60 characters, as an NLP model refuses a
    text beyond its maximal length. *)
Definition files : list (string * Json.t) :=
  [ ("data/a.json"%string,
     Json.Obj [("body_text"%string,
                Json.Arr [paragraph "Introduction" "The outbreak of COVID-19 began.";
                          paragraph " " "The outbreak of COVID-19 began.";
                          paragraph "Notes" "See the WHO COVID database."]);
               ("ref_entries"%string,
                Json.Obj [("TABREF0"%string,
                           Json.Obj [("html"%string, Json.Str "cases per day")]);
                          ("FIGREF0"%string, Json.Obj [("text"%string, Json.Str "Fig")])]);
               ("bib_entries"%string,
                Json.Obj [("BIBREF0"%string, reference "Paper A");
                          ("BIBREF1"%string, reference "Paper B");
                          ("BIBREF2"%string, reference "Paper A")])]);
    ("data/b.json"%string,
     Json.Obj [("body_text"%string,
                Json.Arr [paragraph "Methods" "Mice were kept at room temperature."]);
               ("ref_entries"%string, Json.Obj []);
               ("bib_entries"%string, Json.Obj [("BIBREF0"%string, reference "Paper C")])]);
    ("data/partial.json"%string,
     Json.Obj [("body_text"%string,
                Json.Arr [paragraph "Results" "Only the body is here."])]) ].

(** The character database as far as the examples go: the characters of
    Latin-1 and the fullwidth digits.  In Latin-1 [lower] works character
    by character. *)
Definition isdigit (c : Z) : bool :=
  (c =? 0xb2) || (c =? 0xb3) || (c =? 0xb9) || ((0xff10 <=? c) && (c <=? 0xff19)).

Definition isalnum (c : Z) : bool :=
  (c =? 0xaa) || (c =? 0xb2) || (c =? 0xb3) || (c =? 0xb5) || (c =? 0xb9) || (c =? 0xba)
  || ((0xbc <=? c) && (c <=? 0xbe)) || ((0xc0 <=? c) && (c <=? 0xd6))
  || ((0xd8 <=? c) && (c <=? 0xf6)) || ((0xf8 <=? c) && (c <=? 0xff))
  || ((0xff10 <=? c) && (c <=? 0xff19)).

Definition lower (cs : list Z) : list Z :=
  map (fun c => if ((65 <=? c) && (c <=? 90))
                   || ((0xc0 <=? c) && (c <=? 0xde) && negb (c =? 0xd7))
                then c + 32 else c) cs.

#[global] Instance externals : Externals string string := {|
  Text_transform := fun text => text;
  sent_tokenize := fun text => if Py.truthy text then [text] else [];
  Table_parse := fun html => match html with
                             | Json.Str s => Ok [s]
                             | _ => Raise TypeError
                             end;
  json_load := fun path => match Json.lookup path files with
                           | Some data => Ok data
                           | None => Raise OSError
                           end;
  parser_parse := iso_parse;
  home := "/home/user";
  Grammar_parse := fun texts =>
                     if existsb (fun text => (60 <? String.length text)%nat) texts
                     then Raise ValueError else Ok texts;
  Grammar_label := fun _ => Ok None;
  Study_parse := fun sections _ =>
                   Ok (None, None, None, None, map (fun _ => None) sections);
  unicode_isdigit := isdigit;
  unicode_isalnum := isalnum;
  unicode_lower := lower
|}.

Definition row (uid sha title publish_time files : string) : Row.t :=
  Row.mk uid sha "PMC" title "10.1/x" "" publish_time "A. Author" "Journal" files "" "".

(** A tagged row, a row that repeats its hash, and a row without tag. *)
Definition row_a : Row.t := row "uid-a" "aaaa; bbbb" "A study" "2020-03-01" "a.json".
Definition row_b : Row.t := row "uid-b" "aaaa" "Another title" "2020" "a.json".
Definition row_c : Row.t := row "uid-c" "cccc" "Mice" "" "b.json".
Definition row_old : Row.t := row "uid-d" "dddd" "COVID-19 in 2018" "2018" "".

Definition entries : list (string * string) :=
  [("aaaa", "2020-03-10"); ("cccc", "2020-04-01"); ("dddd", "2020-04-02")]%string.

Definition rows : list Row.t := [row_a; row_b; row_c; row_old].

(** The candidate of a row of the examples. *)
Definition candidate_of (row : Row.t) : Execute.candidate string :=
  match Execute.process (row, "data", "models")%string with
  | Ok c => c
  | Raise _ => (EmptyString, Article.mk (Article.mk_metadata "" "" None "" "" "" None
                                           None None None None "" None) [], None)
  end.

Definition results : list (result (Execute.candidate string)) :=
  Multiprocessing.imap Execute.process (Execute.stream rows "data" "models") 100.

Definition dates : gmap string string := Execute.entryDates entries.

(** The state of [run] once the first row is in. *)
Definition after_row_a : Execute.state string :=
  fst (Execute.loop true dates Execute.init [Ok (candidate_of row_a)]).


(** The article of the first row as it is saved. *)
Definition saved_row_a : Article.t string :=
  let article := snd (fst (candidate_of row_a)) in
  Article.mk (Article.append_entry (Article.metadata article) "2020-03-10")
             (Article.sections article).

(** A run over two rows, in batches of one, in which the worker of the
    second row is done before the worker of the first. *)
Definition two_tasks : list (Row.t * string * string) :=
  Execute.stream [row_a; row_b] "data" "models".

Definition second_done : Pool.config string :=
  Pool.mk_config
    (<[1%nat := Multiprocessing.mapstar Execute.process [(row_b, "data", "models")%string]]> ∅)
    0 [] Execute.init Pool.Running.

Definition both_done : Pool.config string :=
  Pool.mk_config
    (<[0%nat := Multiprocessing.mapstar Execute.process [(row_a, "data", "models")%string]]>
       (Pool.results second_done))
    0 [] Execute.init Pool.Running.

Definition first_fetched : Pool.config string :=
  Pool.mk_config (Pool.results both_done) 1 [candidate_of row_a] Execute.init Pool.Running.

Definition first_consumed : Pool.config string :=
  Pool.mk_config (Pool.results both_done) 1 [] after_row_a Pool.Running.

Definition second_fetched : Pool.config string :=
  Pool.mk_config (Pool.results both_done) 2 [candidate_of row_b] after_row_a Pool.Running.

Definition second_consumed : Pool.config string :=
  Pool.mk_config (Pool.results both_done) 2 [] after_row_a Pool.Running.

Definition completed : Pool.config string :=
  Pool.mk_config (Pool.results both_done) 2 [] (Execute.complete after_row_a) Pool.Finished.

(** A tagged row with a title the grammar refuses: [process] raises. *)
Definition row_long : Row.t :=
  row "uid-l" "llll"
      "COVID-19 and a title that is far too long for the grammar to take in one piece"
      "" "".

(** A run over a good row and that row, in one batch as in [run]. *)
Definition failing_tasks : list (Row.t * string * string) :=
  Execute.stream [row_a; row_long] "data" "models".

Definition batch_failed : Pool.config string :=
  Pool.mk_config (<[0%nat := Multiprocessing.mapstar Execute.process failing_tasks]> ∅)
                 0 [] Execute.init Pool.Running.

Definition aborted : Pool.config string :=
  Pool.mk_config (Pool.results batch_failed) 0 [] Execute.init (Pool.Raised ValueError).

End Demo.

(* ===================================================================== *)
(** * [paperetl/elastic.py] *)
(* ===================================================================== *)

Module Elastic.

(** ** [dict] with string keys, in insertion order *)

(** [d[k] = v]: the value of a key the dict holds is replaced where it is, a
    new key goes to the end. *)
Fixpoint setitem {V} (k : string) (v : V) (d : list (string * V)) : list (string * V) :=
  match d with
  | [] => [(k, v)]
  | (k', v') :: rest =>
      if String.eqb k k' then (k', v) :: rest else (k', v') :: setitem k v rest
  end.

(** [d[k]] *)
Fixpoint getitem {V} (d : list (string * V)) (k : string) : result V :=
  match d with
  | [] => Raise KeyError
  | (k', v) :: rest => if String.eqb k k' then Ok v else getitem rest k
  end.

(** [dict(pairs)] *)
Definition dict {V} (pairs : list (string * V)) : list (string * V) :=
  fold_left (fun d kv => setitem (fst kv) (snd kv) d) pairs [].

(** [zip(keys, values)] stops with the shorter of the two. *)
Definition zip {A B} (keys : list A) (values : list B) : list (A * B) := combine keys values.

(** The index settings [ARTICLES] and [CITATIONS]. *)
Definition ARTICLES : Json.t :=
  Json.Obj
    [("settings"%string,
      Json.Obj [("number_of_shards"%string, Json.Num 5);
                ("number_of_replicas"%string, Json.Num 0);
                ("index.mapping.nested_objects.limit"%string, Json.Num 30000)]);
     ("mappings"%string,
      Json.Obj [("properties"%string,
                 Json.Obj [("sections"%string,
                            Json.Obj [("type"%string, Json.Str "nested")])])])].

Definition CITATIONS : Json.t :=
  Json.Obj
    [("settings"%string,
      Json.Obj [("number_of_shards"%string, Json.Num 5);
                ("number_of_replicas"%string, Json.Num 0)])].

(** The schemas [ARTICLE], [SECTION] and [CITATION]. *)
Definition ARTICLE : list string :=
  ["id"; "source"; "published"; "publication"; "authors"; "title"; "tags"; "design";
   "size"; "sample"; "method"; "reference"; "entry"]%string.

Definition SECTION : list string := ["name"; "text"; "labels"]%string.

Definition CITATION : list string := ["title"; "mentions"]%string.

Section WithValue.
(** The components of the tuples handed to the database. *)
Context {value : Type}.

(** What a document holds under a key: a component of a tuple, a string of
    the code, or the list of the section documents. *)
Inductive field : Type :=
  | Component (v : value)
  | Text (s : string)
  | Nested (docs : list (list (string * value))).

(** What the Elasticsearch client is asked to do.  The client is taken to
    accept every request: a request is recorded and does not raise. *)
Inductive request : Type :=
  | Connect (url : string)
  | Create (index : string) (body : Json.t)
  | Bulk (actions : list (list (string * field)))
  | Refresh (index : string)
  | CloseConnection.

(** A line on the standard output:
    ["Inserted {} articles".format(rows)] or
    ["Total articles inserted: {}".format(rows)]. *)
Inductive line : Type :=
  | Inserted (rows : Z)
  | Total (rows : Z).

(** The object: the requests its connection has received, the row count
    and the buffered actions; and the lines printed. *)
Record t : Type := mk {
  connection : list request;
  rows : Z;
  buffer : list (list (string * field));
  stdout : list line
}.

(** [Elastic(url)] *)
Definition init (url : string) : t :=
  mk [Connect url; Create "articles" ARTICLES; Create "citations" CITATIONS] 0 [] [].

(** The article document of [save], up to the bulk action fields. *)
Definition document (article : list value) (sections : list (list value))
  : result (list (string * field)) :=
  let article := dict (zip ARTICLE (map Component article)) in
  let sections := map (fun section => dict (zip SECTION section)) sections in
  let article := setitem "sections" (Nested sections) article in
  id ← getitem article "id";
  let article := setitem "_id" id article in
  let article := setitem "_index" (Text "articles") article in
  Ok article.

(** [save(uid, article, sections, tags, design)] *)
Definition save (uid : value) (article : list value) (sections : list (list value))
    (tags design : value) (st : t) : t * result unit :=
  match document article sections with
  | Raise ex => (st, Raise ex)
  | Ok article =>
      let buffer := buffer st ++ [article] in
      let rows := rows st + 1 in
      if rows mod 1000 =? 0
      then (mk (connection st ++ [Bulk buffer]) rows [] (stdout st ++ [Inserted rows]),
            Ok tt)
      else (mk (connection st) rows buffer (stdout st), Ok tt)
  end.

(** The argument [citations] of [complete]: a [dict], or a [list] as
    [Execute.run] builds it. *)
Inductive citations_t : Type :=
  | Dict (entries : list (value * value))
  | List_ (elements : list value).

(** [citations.items()]: a list has no such method. *)
Definition items (citations : citations_t) : result (list (value * value)) :=
  match citations with
  | Dict entries => Ok entries
  | List_ _ => Raise AttributeError
  end.

(** [if self.buffer: helpers.bulk(self.connection, self.buffer)] *)
Definition flush (st : t) : list request :=
  match buffer st with
  | [] => connection st
  | _ :: _ => connection st ++ [Bulk (buffer st)]
  end.

(** The citation document of [complete]. *)
Definition citation_document (citation : value * value) : list (string * field) :=
  let '(title, mentions) := citation in
  setitem "_index" (Text "citations")
          (dict (zip CITATION [Component title; Component mentions])).

(** The body of the loop of [complete]. *)
Definition add_citation (st : t) (citation : value * value) : t :=
  let buffer := buffer st ++ [citation_document citation] in
  if 5000 <=? Z.of_nat (length buffer)
  then mk (connection st ++ [Bulk buffer]) (rows st) [] (stdout st)
  else mk (connection st) (rows st) buffer (stdout st).

(** [complete(citations)] *)
Definition complete (citations : citations_t) (st : t) : t * result unit :=
  let st := mk (flush st) (rows st) [] (stdout st) in
  match items citations with
  | Raise ex => (st, Raise ex)
  | Ok entries =>
      let st := fold_left add_citation entries st in
      (mk (flush st ++ [Refresh "articles"; Refresh "citations"]) (rows st) (buffer st)
          (stdout st ++ [Total (rows st)]),
       Ok tt)
  end.

(** [close()] *)
Definition close (st : t) : t :=
  mk (connection st ++ [CloseConnection]) (rows st) (buffer st) (stdout st).

(** The documents the bulk requests have carried, in the order sent. *)
Definition sent (requests : list request) : list (list (string * field)) :=
  flat_map (fun r => match r with Bulk actions => actions | _ => [] end) requests.

(** The calls of [save] one after the other, up to the first that raises;
    each call is given as [(uid, article, sections, tags, design)]. *)
Fixpoint save_all (calls : list (value * list value * list (list value) * value * value))
    (st : t) : t * result unit :=
  match calls with
  | [] => (st, Ok tt)
  | (uid, article, sections, tags, design) :: rest =>
      match save uid article sections tags design st with
      | (st', Ok _) => save_all rest st'
      | (st', Raise ex) => (st', Raise ex)
      end
  end.

End WithValue.

Arguments field : clear implicits.
Arguments request : clear implicits.
Arguments t : clear implicits.
Arguments citations_t : clear implicits.

End Elastic.

(* ===================================================================== *)
(** * Further instances of the collaborators, for the examples *)
(* ===================================================================== *)

Module Cases.

(** Characters outside ASCII, in UTF-8: the no-break space U+00A0, the
    letter e with acute accent U+00E9, and the fullwidth digits zero U+FF10
    and two U+FF12. *)
Definition nbsp : string := String "194" (String "160" EmptyString).
Definition e_acute : string := String "195" (String "169" EmptyString).
Definition fullwidth_0 : string := String "239" (String "188" (String "144" EmptyString)).
Definition fullwidth_2 : string := String "239" (String "188" (String "146" EmptyString)).

(** The year 2020 in fullwidth digits. *)
Definition fullwidth_2020 : string :=
  String.append fullwidth_2 (String.append fullwidth_0 (String.append fullwidth_2 fullwidth_0)).

(** A database whose [complete] raises on the list that [run] hands over,
    as the one of [Elastic] does. *)
Definition no_items : Execute.database string :=
  fun _ c =>
    match c with
    | Execute.Complete _ => Raise AttributeError
    | _ => Ok tt
    end.

(** A database that takes one document and refuses the next. *)
Definition one_document : Execute.database string :=
  fun received c =>
    match c, received with
    | Execute.Save _, _ :: _ => Raise OSError
    | _, _ => Ok tt
    end.

(** A database whose [close] raises. *)
Definition no_close : Execute.database string :=
  fun _ c =>
    match c with
    | Execute.Close => Raise OSError
    | _ => Ok tt
    end.

(** A date parser that attaches the offset of UTC to what it reads. *)
Definition utc : Externals string string := {|
  Text_transform := Text_transform (Externals := Demo.externals);
  sent_tokenize := sent_tokenize (Externals := Demo.externals);
  Table_parse := Table_parse (Externals := Demo.externals);
  json_load := json_load (Externals := Demo.externals);
  parser_parse := fun s =>
    d ← Demo.iso_parse s;
    Ok (mk_datetime (year d) (month d) (day d) (hour d) (minute d) (second d)
                    (microsecond d) (Some 0));
  home := home (Externals := Demo.externals);
  Grammar_parse := Grammar_parse (Externals := Demo.externals);
  Grammar_label := Grammar_label (Externals := Demo.externals);
  Study_parse := Study_parse (Externals := Demo.externals);
  unicode_isdigit := Demo.isdigit;
  unicode_isalnum := Demo.isalnum;
  unicode_lower := Demo.lower
|}.

(** A grammar that hands back the tokens of the first text only. *)
Definition first_text_only : Externals string string := {|
  Text_transform := Text_transform (Externals := Demo.externals);
  sent_tokenize := sent_tokenize (Externals := Demo.externals);
  Table_parse := Table_parse (Externals := Demo.externals);
  json_load := json_load (Externals := Demo.externals);
  parser_parse := parser_parse (Externals := Demo.externals);
  home := home (Externals := Demo.externals);
  Grammar_parse := fun texts => Ok (take 1 texts);
  Grammar_label := Grammar_label (Externals := Demo.externals);
  Study_parse := Study_parse (Externals := Demo.externals);
  unicode_isdigit := Demo.isdigit;
  unicode_isalnum := Demo.isalnum;
  unicode_lower := Demo.lower
|}.

End Cases.

(* ===================================================================== *)
(** * What a file adds to the lists of [Section.parse] *)
(* ===================================================================== *)

Module Gathered.
Section WithExternals.
Context `{Externals tokens annotation}.

(** The lists of [parse] when nothing has been gathered. *)
Definition nothing : Section_.state := Section_.mk_state [] [] [].

(** The lists of [st], each followed by the list of [more]. *)
Definition followed_by (st more : Section_.state) : Section_.state :=
  Section_.mk_state (Section_.sections st ++ Section_.sections more)
                    (Section_.citations st ++ Section_.citations more)
                    (Section_.stdout st ++ Section_.stdout more).

(** What the loop body of [parse] gathers from one file, read on its own. *)
Definition of_file (directory path : string) : Section_.state :=
  fst (Section_.each_file directory path nothing).

End WithExternals.
End Gathered.


(* ===================================================================== *)
(** * The runtime on examples *)
(* ===================================================================== *)

Example sha1_empty :
  Py.sha1_hexdigest (Py.encode_utf8 "") = "da39a3ee5e6b4b0d3255bfef95601890afd80709"%string.
Proof. vm_compute. reflexivity. Qed.

Example sha1_abc :
  Py.sha1_hexdigest (Py.encode_utf8 "abc") = "a9993e364706816aba3e25717850c26c9cd0d89d"%string.
Proof. vm_compute. reflexivity. Qed.

Example sha1_two_blocks :
  Py.sha1_hexdigest
    (Py.encode_utf8 "abcdbcdecdefdefgefghfghighijhijkijkljklmklmnlmnomnopnopq")
  = "84983e441c3bd26ebaae4aa1f95129e5e54670f1"%string.
Proof. vm_compute. reflexivity. Qed.

(** Messages that end just before, at and after the end of a block. *)
Example sha1_block_edges :
  map (fun n => Py.sha1_hexdigest (repeat 97 n)) [55; 56; 64]%nat
  = ["c1c8bbdc22796e28c0e15163d20899b65621d65a";
     "c2db330f6083854c99d4b5bfb6e8f29f201be699";
     "0098ba824b5c16427bd7a1122a5a442a25ec644d"]%string.
Proof. vm_compute. reflexivity. Qed.

(** A row without [sha]: the digest of its title. *)
Example getHash_of_title :
  Execute.getHash (Demo.row "uid" "" "A study" "" "")
  = "77168c1785a20cadf8e211c2111554130cb9f37b"%string.
Proof. vm_compute. reflexivity. Qed.

Example split_pieces :
  Py.split "; " "ab; cd; " = ["ab"; "cd"; ""]%string
  /\ Py.split "; " "; abc" = [""; "abc"]%string
  /\ Py.split "; " ";;a" = [";;a"]%string.
Proof. repeat split; reflexivity. Qed.

Example strip_close_cases :
  Section_.strip_close "abc]" = "abc"%string
  /\ Section_.strip_close "abc]]" = "abc]"%string
  /\ Section_.strip_close (String.append "abc]" (String "010" EmptyString))
     = String.append "abc" (String "010" EmptyString)
  /\ Section_.strip_open "[[a" = "[a"%string.
Proof. repeat split; reflexivity. Qed.

(** The keyword patterns on a few texts, as [re.findall] decides them. *)
Example keyword_match_cases :
  map (Execute.keyword_match (H := Demo.externals))
      ["COVID-19 is bad"; "covid19"; "covids"; "the 2019-nCoV."; "sars cov2";
       "SARS-CoV-2"; "coronavirus 20"; "coronavirus 2"; "wuhan covx";
       "Wuhan pneumonia"; "ncov 2019"; "n cov-2019"; "xcovid"; "covid_19";
       "covid-2019"; "covid-201"; "coronavirus disease 2019";
       "coronavirus disease 19x"; ""; "covid 19a"]%string
  = [true; true; false; true; true; true; false; true; false; true; true; true;
     false; false; true; true; true; false; false; true].
Proof. vm_compute. reflexivity. Qed.

(** Characters outside ASCII: a no-break space is white space, an accented
    letter is a word character, and so is a fullwidth digit. *)
Example keyword_match_outside_ascii :
  map (Execute.keyword_match (H := Demo.externals))
      [String.append "sars" (String.append Cases.nbsp "cov2");
       String.append Cases.e_acute "covid";
       String.append "covid" Cases.e_acute;
       String.append "covid" (String.append Cases.nbsp "19");
       String.append "covid-19" Cases.fullwidth_2;
       String.append Cases.nbsp (String.append "covid" Cases.nbsp);
       String.append "n" (String.append Cases.nbsp "cov 2019")]
  = [true; false; false; true; true; true; true].
Proof. vm_compute. reflexivity. Qed.

(** The characters of a text and their number. *)
Example chars_cases :
  Py.chars "abc" = [97; 98; 99]
  /\ Py.chars (String.append "a" (String.append Cases.e_acute Cases.nbsp)) = [97; 0xe9; 0xa0]
  /\ Py.chars Cases.fullwidth_2020 = [0xff12; 0xff10; 0xff12; 0xff10]
  /\ Py.len Cases.fullwidth_2020 = 4%nat
  /\ String.length Cases.fullwidth_2020 = 12%nat
  /\ Py.chars (String "240" (String "159" (String "152" (String "128" EmptyString))))
     = [0x1f600].
Proof. repeat split; reflexivity. Qed.

Example isdigit_cases :
  map (Py.isdigit Demo.isdigit) ["2020"; ""; "20a0"; Cases.fullwidth_2020; "-1"; Cases.e_acute]
  = [true; false; false; true; false; false].
Proof. vm_compute. reflexivity. Qed.

Example parse_row_a :
  Section_.parse Demo.row_a "data"
  = ([], Ok ([(Some "TITLE", "A study");
              (Some "INTRODUCTION", "The outbreak of COVID-19 began.");
              (Some "TABREF0", "cases per day")]%string,
             [KStr "Paper A"; KStr "Paper B"])).
Proof. vm_compute. reflexivity. Qed.

(* ===================================================================== *)
(** * Strings *)
(* ===================================================================== *)

Lemma append_cons (c : ascii) (s t : string) :
  String.append (String c s) t = String c (String.append s t).
Proof. reflexivity. Qed.

Lemma append_nil_l (s : string) : String.append EmptyString s = s.
Proof. reflexivity. Qed.

Lemma append_nil_r (s : string) : String.append s EmptyString = s.
Proof.
  induction s as [|c s IH]; [reflexivity |]. now rewrite append_cons, IH.
Qed.

Lemma append_assoc (a b c : string) :
  String.append (String.append a b) c = String.append a (String.append b c).
Proof.
  induction a as [|x a IH]; [reflexivity |]. now rewrite !append_cons, IH.
Qed.

Lemma rev_string_acc (s acc : string) :
  Py.rev_string acc s = String.append (Py.rev_string EmptyString s) acc.
Proof.
  revert acc. induction s as [|c s IH]; intros acc; [reflexivity |].
  cbn [Py.rev_string]. rewrite IH, (IH (String c EmptyString)), append_assoc.
  reflexivity.
Qed.

Lemma contains_cons (sub : string) (c : ascii) (s : string) :
  Py.contains sub (String c s) = false ->
  String.prefix sub (String c s) = false /\ Py.contains sub s = false.
Proof.
  cbn [Py.contains]. intros Hf. apply orb_false_iff in Hf. exact Hf.
Qed.

(** A field without delimiter is a single piece. *)
Lemma split_aux_whole (s acc : string) :
  Py.contains "; " s = false ->
  Py.split_aux "; " O acc s = [String.append (Py.rev_string EmptyString acc) s].
Proof.
  revert acc. induction s as [|c s IH]; intros acc Hs.
  - cbn [Py.split_aux]. now rewrite append_nil_r.
  - apply contains_cons in Hs as [Hp Hs].
    cbn [Py.split_aux]. rewrite Hp, (IH _ Hs).
    cbn [Py.rev_string]. rewrite (rev_string_acc acc), append_assoc. reflexivity.
Qed.

Lemma prefix_delimiter_app (c : ascii) (a x : string) :
  String.prefix "; " (String c a) = false ->
  String.prefix "; " (String c (String.append a (String ";" x))) = false.
Proof.
  cbn [String.prefix]. destruct (ascii_dec ";" c); [|reflexivity].
  destruct a as [|d a]; [reflexivity |]. rewrite append_cons.
  cbn [String.prefix].
  destruct (ascii_dec " " d); [|reflexivity].
  destruct a; cbn [String.prefix]; intros; discriminate.
Qed.

(** The first piece of a field is what stands before its first delimiter. *)
Lemma split_aux_first (a acc b : string) :
  Py.contains "; " a = false ->
  hd EmptyString (Py.split_aux "; " O acc (String.append a (String.append "; " b)))
  = String.append (Py.rev_string EmptyString acc) a.
Proof.
  change (String.append "; " b) with (String ";" (String " " b)).
  revert acc. induction a as [|c a IH]; intros acc Ha.
  - rewrite append_nil_l, append_nil_r. destruct b; reflexivity.
  - apply contains_cons in Ha as [Hp Ha].
    rewrite append_cons. cbn [Py.split_aux].
    rewrite (prefix_delimiter_app _ _ _ Hp), (IH _ Ha).
    cbn [Py.rev_string]. rewrite (rev_string_acc acc), append_assoc. reflexivity.
Qed.



(** ** Characters *)

Lemma chars_ascii (s : string) :
  Py.forall_string (fun c => Py.code c <? 128) s = true ->
  Py.chars s = map Py.code (list_ascii_of_string s).
Proof.
  unfold Py.chars, Py.encode_utf8. induction s as [|c s IH]; [reflexivity |].
  cbn [Py.forall_string list_ascii_of_string map Py.decode_utf8].
  intros [Hc Hs]%andb_true_iff. rewrite Hc, (IH Hs). reflexivity.
Qed.

Lemma len_ascii (s : string) :
  Py.forall_string (fun c => Py.code c <? 128) s = true -> Py.len s = String.length s.
Proof.
  intros Hs. unfold Py.len. rewrite (chars_ascii s Hs), length_map.
  clear Hs. induction s as [|c s IH]; [reflexivity |].
  cbn [list_ascii_of_string length String.length]. now rewrite IH.
Qed.

Lemma forall_string_impl (p q : ascii -> bool) (s : string) :
  (forall c, p c = true -> q c = true) ->
  Py.forall_string p s = true -> Py.forall_string q s = true.
Proof.
  intros Hpq. induction s as [|c s IH]; [reflexivity |]. cbn [Py.forall_string].
  intros [Hc Hs]%andb_true_iff. now rewrite (Hpq c Hc), (IH Hs).
Qed.

Lemma digits_ascii (s : string) :
  Py.forall_string Py.is_digit s = true ->
  Py.forall_string (fun c => Py.code c <? 128) s = true.
Proof.
  apply forall_string_impl. intros c. unfold Py.is_digit. lia.
Qed.

(** On ASCII text [isdigit] looks for the digits 0 to 9. *)
Lemma isdigit_ascii (digit : Z -> bool) (s : string) :
  Py.forall_string (fun c => Py.code c <? 128) s = true ->
  Py.isdigit digit s = Py.truthy s && Py.forall_string Py.is_digit s.
Proof.
  intros Hs. unfold Py.isdigit. rewrite (chars_ascii s Hs).
  assert (Hall : forallb (fun c => if c <? 128 then (48 <=? c) && (c <=? 57) else digit c)
                         (map Py.code (list_ascii_of_string s))
                 = Py.forall_string Py.is_digit s).
  { induction s as [|c s IH]; [reflexivity |].
    cbn [Py.forall_string] in Hs. apply andb_true_iff in Hs as [Hc Hs].
    cbn [list_ascii_of_string map forallb Py.forall_string]. rewrite Hc, (IH Hs).
    reflexivity. }
  destruct s as [|c s]; [reflexivity |]. cbn [Py.truthy andb]. rewrite <- Hall. reflexivity.
Qed.

(* ===================================================================== *)
(** * Identity hash, date and tags of a row *)
(* ===================================================================== *)

(** The delimiter of the [sha] field is a semicolon followed by a space: a
    field with a semicolon alone is one piece, and the hash of the row.  A
    line of the file too short to reach the title gives a row on which
    [getHash] raises. *)
Lemma getHash_semicolon_alone_does_not_cut :
  Execute.getHash (Demo.row "uid" "a;b" "A study" "" "") = "a;b"%string
  /\ Execute.getHash (Demo.row "uid" "a;b" "A study" "" "") <> "a"%string
  /\ Execute.getHash_cells (Some "a;b"%string) (Some "A study"%string) = Ok "a;b"%string
  /\ Execute.getHash_cells None None = Raise AttributeError
  /\ Execute.getHash_cells (Some "; b"%string) None = Raise AttributeError.
Proof. repeat split; try reflexivity. discriminate. Qed.

(** C8, amended.  The identity hash of a row is the first piece of its
    [sha] field, cut at the delimiter ["; "] (a semicolon and a space), when
    the field and that piece are not empty, and the SHA-1 digest, in
    hexadecimal, of the UTF-8 bytes of the title otherwise: the digest of
    [A study] is [77168c17...], that of the letter e with acute accent (two
    bytes) [bf15be71...], that of sixty letters [x] (two blocks of SHA-1)
    [06ced2e0...], that of the empty title [da39a3ee...].  The first piece
    is what stands before the first delimiter, or the whole field when there
    is none.  On cells that are strings the function returns; when the cell
    of the title is missing, it raises unless the [sha] field gives the
    hash. *)
Theorem getHash_first_piece_or_title_digest (row : Row.t) :
  let digest := Py.sha1_hexdigest (Py.encode_utf8 (Row.title row)) in
  let first := hd EmptyString (Py.split "; " (Row.sha row)) in
  Execute.getHash row
  = (if Py.truthy (Row.sha row) && Py.truthy first then first else digest)
  /\ (forall a b : string,
        Row.sha row = String.append a (String.append "; " b) ->
        Py.contains "; " a = false -> first = a)
  /\ (Py.contains "; " (Row.sha row) = false -> first = Row.sha row)
  /\ (Row.sha row = EmptyString -> Execute.getHash row = digest)
  /\ (Row.title row = "A study"%string ->
      digest = "77168c1785a20cadf8e211c2111554130cb9f37b"%string)
  /\ (Row.title row = Cases.e_acute ->
      digest = "bf15be717ac1b080b4f1c456692825891ff5073d"%string)
  /\ (Row.title row
      = "xxxxxxxxxxxxxxxxxxxxxxxxxxxxxxxxxxxxxxxxxxxxxxxxxxxxxxxxxxxx"%string ->
      digest = "06ced2e070e58c2c4ed9f2b8cb890f0c512ce60d"%string)
  /\ (Row.sha row = EmptyString -> Row.title row = EmptyString ->
      Execute.getHash row = "da39a3ee5e6b4b0d3255bfef95601890afd80709"%string)
  /\ Execute.getHash_cells (Some (Row.sha row)) (Some (Row.title row))
     = Ok (Execute.getHash row)
  /\ Execute.getHash_cells (Some (Row.sha row)) None
     = (if Py.truthy (Row.sha row) && Py.truthy first then Ok first
        else Raise AttributeError)
  /\ Execute.getHash_cells None (Some (Row.title row)) = Ok digest
  /\ Execute.getHash_cells None None = Raise AttributeError.
Proof.
  intros digest first.
  assert (Hhash : Execute.getHash row
                  = if Py.truthy (Row.sha row) && Py.truthy first then first else digest).
  { unfold Execute.getHash. fold digest. fold first.
    destruct (Py.truthy (Row.sha row)); [|reflexivity].
    destruct (Py.truthy first); reflexivity. }
  split; [exact Hhash |].
  split.
  { intros a b Hsha Ha. subst first. rewrite Hsha. unfold Py.split.
    rewrite (split_aux_first a EmptyString b Ha). reflexivity. }
  split.
  { intros Hno. subst first. unfold Py.split.
    rewrite (split_aux_whole _ EmptyString Hno). reflexivity. }
  split.
  { intros Hsha. rewrite Hhash, Hsha. reflexivity. }
  split; [intros Htitle; subst digest; rewrite Htitle; vm_compute; reflexivity |].
  split; [intros Htitle; subst digest; rewrite Htitle; vm_compute; reflexivity |].
  split; [intros Htitle; subst digest; rewrite Htitle; vm_compute; reflexivity |].
  split.
  { intros Hsha Htitle. rewrite Hhash, Hsha. subst digest. rewrite Htitle.
    vm_compute. reflexivity. }
  split.
  { rewrite Hhash. unfold Execute.getHash_cells. fold digest. fold first.
    destruct (Py.truthy (Row.sha row)); [|reflexivity].
    destruct (Py.truthy first); reflexivity. }
  split.
  { unfold Execute.getHash_cells. fold first.
    destruct (Py.truthy (Row.sha row)); [|reflexivity].
    destruct (Py.truthy first); reflexivity. }
  split; reflexivity.
Qed.

Lemma getHash_first_piece_or_title_digest_witness :
  Execute.getHash Demo.row_a = "aaaa"%string
  /\ Execute.getHash (Demo.row "uid" "" "A study" "" "")
     = "77168c1785a20cadf8e211c2111554130cb9f37b"%string
  /\ Execute.getHash (Demo.row "uid" "" Cases.e_acute "" "")
     = "bf15be717ac1b080b4f1c456692825891ff5073d"%string
  /\ Execute.getHash (Demo.row "" "" "" "" "")
     = "da39a3ee5e6b4b0d3255bfef95601890afd80709"%string.
Proof.
  split; [| split; [| split]].
  - destruct (getHash_first_piece_or_title_digest Demo.row_a) as (Heq & Hfirst & _).
    rewrite Heq, (Hfirst "aaaa" "bbbb" eq_refl eq_refl)%string. reflexivity.
  - destruct (getHash_first_piece_or_title_digest (Demo.row "uid" "" "A study" "" ""))
      as (_ & _ & _ & Hdigest & Hvalue & _).
    rewrite (Hdigest eq_refl). exact (Hvalue eq_refl).
  - destruct (getHash_first_piece_or_title_digest (Demo.row "uid" "" Cases.e_acute "" ""))
      as (_ & _ & _ & Hdigest & _ & Hvalue & _).
    rewrite (Hdigest eq_refl). exact (Hvalue eq_refl).
  - destruct (getHash_first_piece_or_title_digest (Demo.row "" "" "" "" ""))
      as (_ & _ & _ & _ & _ & _ & _ & Hempty & _).
    exact (Hempty eq_refl eq_refl).
Defined.

(** The parser of the examples reads a year as [dateutil] does. *)
Lemma demo_parses_new_year : Execute.parses_new_year (H := Demo.externals).
Proof.
  intros y Hdigit Hlen.
  destruct y as [|a [|b [|c [|d [|? ?]]]]]; try discriminate Hlen.
  cbn [parser_parse Demo.externals]. unfold Demo.iso_parse.
  rewrite !append_cons, append_nil_l.
  cbn [String.length String.substring Nat.eqb andb].
  rewrite Hdigit. cbn [andb].
  cbn [Py.forall_string] in Hdigit.
  apply andb_prop in Hdigit as [Ha Hdigit]. apply andb_prop in Hdigit as [Hb Hdigit].
  apply andb_prop in Hdigit as [Hc Hdigit]. apply andb_prop in Hdigit as [Hd _].
  change (Py.forall_string Py.is_digit "01") with true.
  cbn [andb String.eqb Ascii.eqb Bool.eqb].
  change (Py.int "01") with 1.
  unfold Demo.datetime_new.
  set (n := Py.int _).
  assert (Hn : n <= 9999).
  { subst n. unfold Py.int, Py.int_aux. unfold Py.is_digit in *. lia. }
  replace (n <=? 9999) with true by (symmetry; apply Z.leb_le; exact Hn).
  destruct (1 <=? n); reflexivity.
Qed.

(** A string of four digits need not name a year: there is no year 0, the
    parser refuses ["0000-01-01"] and the date is unknown. *)
Lemma getDate_0000_unknown :
  Py.isdigit Demo.isdigit "0000" = true
  /\ Py.len "0000" = 4%nat
  /\ Execute.getDate (H := Demo.externals) (Demo.row "" "" "" "0000" "") = None
  /\ Execute.getDate (H := Demo.externals) (Demo.row "" "" "" "0000" "")
     <> Some (date_of (Py.int "0000") 1 1).
Proof. repeat split; try reflexivity. vm_compute. discriminate. Qed.

(** C7, amended.  An empty date string gives an unknown date.  A string of
    four characters that are digits has [-01-01] put after it before it goes
    to the parser; on ASCII text these are the strings of four of the digits
    0 to 9, and they give the first of January of the year they name when
    that is a year from 1 on, and an unknown date for [0000].  Any other
    string goes to the parser as it is; and whatever the parser raises, the
    date is unknown: the result is always a date or [None]. *)
Theorem getDate_resolution `{Externals tokens annotation} (row : Row.t) :
  let date := Row.publish_time row in
  let year_only := Py.isdigit unicode_isdigit date && (Py.len date =? 4)%nat in
  let four_digits := Py.forall_string Py.is_digit date && (String.length date =? 4)%nat in
  (date = EmptyString -> Execute.getDate row = None)
  /\ (Py.forall_string (fun c => Py.code c <? 128) date = true -> year_only = four_digits)
  /\ (four_digits = true -> year_only = true)
  /\ (year_only = true ->
      Execute.getDate row = match parser_parse (String.append date "-01-01") with
                            | Ok d => Some d
                            | Raise _ => None
                            end)
  /\ (Execute.parses_new_year -> four_digits = true -> 1 <= Py.int date ->
      Execute.getDate row = Some (date_of (Py.int date) 1 1))
  /\ (Execute.parses_new_year -> date = "0000"%string -> Execute.getDate row = None)
  /\ (date <> EmptyString -> year_only = false ->
      Execute.getDate row = match parser_parse date with
                            | Ok d => Some d
                            | Raise _ => None
                            end)
  /\ (forall ex,
        parser_parse (if year_only then String.append date "-01-01" else date)
        = Raise ex ->
        Execute.getDate row = None).
Proof.
  intros date year_only four_digits.
  assert (Hascii : Py.forall_string (fun c => Py.code c <? 128) date = true ->
                   year_only = four_digits).
  { intros Ha. subst year_only four_digits.
    rewrite (isdigit_ascii _ _ Ha), (len_ascii _ Ha).
    destruct date; [reflexivity |]. reflexivity. }
  assert (Hfour : four_digits = true -> year_only = true).
  { intros Hf. rewrite Hascii; [exact Hf |].
    apply andb_prop in Hf as [Hd _]. now apply digits_ascii. }
  assert (Hyear : year_only = true ->
                  Execute.getDate row = match parser_parse (String.append date "-01-01") with
                                        | Ok d => Some d
                                        | Raise _ => None
                                        end).
  { intros Hy. unfold Execute.getDate. fold date. fold year_only. rewrite Hy.
    destruct date; [discriminate Hy | reflexivity]. }
  assert (Hnew : Execute.parses_new_year -> four_digits = true ->
                 Execute.getDate row
                 = if 1 <=? Py.int date then Some (date_of (Py.int date) 1 1) else None).
  { intros Hparser Hf. rewrite (Hyear (Hfour Hf)).
    apply andb_prop in Hf as [Hdigit Hlen]. apply Nat.eqb_eq in Hlen.
    rewrite (Hparser date Hdigit Hlen). now destruct (1 <=? Py.int date). }
  split; [intros Hempty; unfold Execute.getDate; fold date; now rewrite Hempty |].
  split; [exact Hascii |].
  split; [exact Hfour |].
  split; [exact Hyear |].
  split.
  { intros Hparser Hf Hpos. rewrite (Hnew Hparser Hf).
    replace (1 <=? Py.int date) with true by (symmetry; apply Z.leb_le; exact Hpos).
    reflexivity. }
  split.
  { intros Hparser Hzero. rewrite (Hnew Hparser).
    - rewrite Hzero. reflexivity.
    - subst four_digits. rewrite Hzero. reflexivity. }
  split.
  { intros Hne Hyear'. unfold Execute.getDate. fold date. fold year_only.
    destruct date; [congruence |]. cbn [Py.truthy]. rewrite Hyear'. reflexivity. }
  intros ex Hraise. unfold Execute.getDate. fold date. fold year_only.
  destruct (Py.truthy date); [|reflexivity].
  rewrite Hraise. reflexivity.
Qed.

Lemma getDate_resolution_witness :
  Execute.getDate (H := Demo.externals) Demo.row_b = Some (date_of 2020 1 1)
  /\ Execute.getDate (H := Demo.externals) Demo.row_c = None
  /\ Execute.getDate (H := Demo.externals) (Demo.row "" "" "" Cases.fullwidth_2020 "")
     = match parser_parse (Externals := Demo.externals)
               (String.append Cases.fullwidth_2020 "-01-01") with
       | Ok d => Some d
       | Raise _ => None
       end.
Proof.
  destruct (getDate_resolution (H := Demo.externals) Demo.row_b)
    as (_ & _ & _ & _ & Hyear & _).
  destruct (getDate_resolution (H := Demo.externals) Demo.row_c) as (Hempty & _).
  destruct (getDate_resolution (H := Demo.externals)
              (Demo.row "" "" "" Cases.fullwidth_2020 ""))
    as (_ & _ & _ & Hwide & _).
  split; [| split].
  - apply (Hyear demo_parses_new_year); [reflexivity | vm_compute; discriminate].
  - apply Hempty. reflexivity.
  - apply Hwide. reflexivity.
Defined.

(** Four fullwidth digits are four characters that are digits, written on
    twelve bytes: the parser receives them followed by [-01-01], whatever
    the parser is. *)
Example getDate_fullwidth_year `{Externals tokens annotation} :
  (forall c, 0xff10 <= c <= 0xff19 -> unicode_isdigit c = true) ->
  Execute.getDate (Demo.row "" "" "" Cases.fullwidth_2020 "")
  = match parser_parse (String.append Cases.fullwidth_2020 "-01-01") with
    | Ok d => Some d
    | Raise _ => None
    end.
Proof.
  intros Hdigit. unfold Execute.getDate. cbn [Demo.row Row.publish_time].
  assert (Hyear : Py.isdigit unicode_isdigit Cases.fullwidth_2020 = true).
  { unfold Py.isdigit. change (Py.chars Cases.fullwidth_2020)
      with [0xff12; 0xff10; 0xff12; 0xff10].
    cbn [forallb]. change (0xff12 <? 128) with false. change (0xff10 <? 128) with false.
    cbv iota. rewrite !Hdigit by lia. reflexivity. }
  rewrite Hyear. reflexivity.
Qed.

(** What [process] makes of a row: the tags of the article are those the
    classifier gives for the sections and the date of the row, and the
    citations are the titles of the companion files, each once, for a tagged
    row, and [None] for a row without tag. *)
Lemma process_citations `{Externals tokens annotation} (row : Row.t) (indir models : string)
    (sha : string) (article : Article.t annotation) (cite : option (list key)) :
  Execute.process (row, indir, models) = Ok (sha, article, cite) ->
  exists sections titles seen,
    snd (Section_.parse row indir) = Ok (sections, titles)
    /\ NoDup titles
    /\ Execute.classify sections (Execute.getDate row) = Ok (Article.tags article, seen)
    /\ cite = if Execute.truthy_tags (Article.tags article) then Some titles else None.
Proof.
  unfold Execute.process. unfold mbind, result_bind.
  destruct (snd (Section_.parse row indir)) as [[sections titles]|] eqn:Hparse;
    [| discriminate].
  assert (Hnodup : NoDup titles).
  { unfold Section_.parse in Hparse. cbn [snd] in Hparse.
    unfold Section_.filtered, mbind, result_bind in Hparse.
    destruct (rmap Json.hash_key _); [| discriminate].
    injection Hparse as _ <-. apply NoDup_elements. }
  destruct (Execute.classify sections (Execute.getDate row)) as [[tags seen]|] eqn:Htags;
    [| discriminate].
  destruct (Execute.truthy_tags tags) eqn:Htruthy.
  - destruct (Grammar_parse (map snd sections)) as [tokenslist|]; [| discriminate].
    destruct (rmap _ (Execute.enumerate sections)) as [with_tokens|]; [| discriminate].
    destruct (Study_parse with_tokens models)
      as [[[[[design size] sample] method] labels]|]; [| discriminate].
    destruct (rmap _ (Execute.enumerate with_tokens)) as [labelled|]; [| discriminate].
    intros Hret. injection Hret as <- <- <-.
    exists sections, titles, seen. unfold Article.tags. cbn. rewrite Htruthy. auto.
  - intros Hret. injection Hret as <- <- <-.
    exists sections, titles, seen. unfold Article.tags. cbn. rewrite Htruthy. auto.
Qed.

Lemma scan_first_match `{Externals tokens annotation}
    (pre post : list Section_.sec) (name : option string) (text : string) :
  Forall (fun s => Execute.keyword_match (snd s) = false) pre ->
  Execute.keyword_match text = true ->
  Execute.scan (pre ++ (name, text) :: post)
  = (Some "COVID-19"%string, map snd pre ++ [text]).
Proof.
  intros Hpre Htext. induction Hpre as [|[n t] pre Ht _ IH].
  - cbn [app Execute.scan map]. rewrite Htext. reflexivity.
  - cbn [app Execute.scan map snd] in *. rewrite Ht, IH. reflexivity.
Qed.

Lemma scan_no_match `{Externals tokens annotation} (sections : list Section_.sec) :
  Forall (fun s => Execute.keyword_match (snd s) = false) sections ->
  Execute.scan sections = (None, map snd sections).
Proof.
  induction 1 as [|[n t] l Ht _ IH]; [reflexivity |].
  cbn [Execute.scan map snd] in *. rewrite Ht, IH. reflexivity.
Qed.

Lemma lex_ge_midnight (h m s us : Z) :
  0 <= h -> 0 <= m -> 0 <= s -> 0 <= us -> lex_ge [h; m; s; us] [0; 0; 0; 0] = true.
Proof.
  intros Hh Hm Hs Hus. cbn [lex_ge].
  destruct (Z.ltb_spec 0 h); [reflexivity |]. replace h with 0 by lia.
  destruct (Z.ltb_spec 0 m); [reflexivity |]. replace m with 0 by lia.
  destruct (Z.ltb_spec 0 s); [reflexivity |]. replace s with 0 by lia.
  destruct (Z.ltb_spec 0 us); [reflexivity |]. replace us with 0 by lia.
  reflexivity.
Qed.

(** The comparison with the cut-off on a naive date: earlier means before
    the first of July 2019. *)
Lemma before_cutoff (d : datetime) :
  tzinfo d = None ->
  0 <= hour d -> 0 <= minute d -> 0 <= second d -> 0 <= microsecond d ->
  datetime_ge d (date_of 2019 7 1) = Ok false
  <-> year d < 2019
      \/ (year d = 2019 /\ month d < 7)
      \/ (year d = 2019 /\ month d = 7 /\ day d < 1).
Proof.
  intros Htz Hh Hm Hs Hus. unfold datetime_ge. rewrite Htz.
  change (lex_ge (fields d) (fields (date_of 2019 7 1)))
    with ((2019 <? year d)
          || ((year d =? 2019)
              && ((7 <? month d)
                  || ((month d =? 7)
                      && ((1 <? day d)
                          || ((day d =? 1)
                              && lex_ge [hour d; minute d; second d; microsecond d]
                                        [0; 0; 0; 0])))))).
  rewrite (lex_ge_midnight _ _ _ _ Hh Hm Hs Hus), andb_true_r.
  repeat match goal with
         | |- context [?a <? ?b] => destruct (Z.ltb_spec a b)
         | |- context [?a =? ?b] => destruct (Z.eqb_spec a b)
         end; cbn [orb andb]; split; intros Hx; try discriminate Hx; try reflexivity; lia.
Qed.

(** On a naive date the comparison returns. *)
Lemma naive_compares (d : datetime) :
  tzinfo d = None ->
  datetime_ge d (date_of 2019 7 1) = Ok false \/ datetime_ge d (date_of 2019 7 1) = Ok true.
Proof.
  intros Htz. unfold datetime_ge. rewrite Htz.
  destruct (lex_ge (fields d) (fields (date_of 2019 7 1))); auto.
Qed.

(** Comparing an aware date with the naive cut-off raises. *)
Lemma classify_aware_raises `{Externals tokens annotation}
    (sections : list Section_.sec) (d : datetime) (offset : Z) :
  tzinfo d = Some offset -> Execute.classify sections (Some d) = Raise TypeError.
Proof. intros Htz. unfold Execute.classify, datetime_ge. rewrite Htz. reflexivity. Qed.

(** A date earlier than the cut-off gives no tag only when it is naive: a
    parser that hands back an aware date of 2018 makes the comparison with
    the cut-off raise, and [process] with it. *)
Lemma classify_aware_date_before_cutoff_raises :
  Execute.getDate (H := Cases.utc) Demo.row_old
  = Some (mk_datetime 2018 1 1 0 0 0 0 (Some 0))
  /\ Execute.classify (H := Cases.utc) [(Some "TITLE", "COVID-19 in 2018")]%string
                      (Some (mk_datetime 2018 1 1 0 0 0 0 (Some 0)))
     = Raise TypeError
  /\ Execute.classify (H := Cases.utc) [(Some "TITLE", "COVID-19 in 2018")]%string
                      (Some (mk_datetime 2018 1 1 0 0 0 0 (Some 0)))
     <> Ok (None, [])
  /\ Execute.process (H := Cases.utc) (Demo.row_old, "data", "models")%string
     = Raise TypeError.
Proof. repeat split; try (vm_compute; reflexivity). discriminate. Qed.

(** C6, amended.  The date of a row, when known, is compared with the first
    of July 2019 at midnight.  A naive date of the calendar before that day
    (a year before 2019, or a month before July in 2019) gives no tag and
    no text is scanned, whatever the sections say.  With an unknown date,
    or a naive date on or after that day, a section that matches a keyword
    gives the tag [COVID-19], and the scan ends at the first such section
    in the order of the document: the texts looked at are those before it
    and its own; when no section matches, all are looked at and there is no
    tag.  An aware date, whatever its day, makes the comparison raise
    [TypeError].  The tags of the article [process] builds are those the
    classifier gives for the sections and the date of the row. *)
Theorem classify_cutoff_then_first_match `{Externals tokens annotation}
    (sections : list Section_.sec) (date : option datetime) :
  let calendar d :=
    tzinfo d = None /\ 1 <= day d /\ 0 <= hour d /\ 0 <= minute d /\ 0 <= second d
    /\ 0 <= microsecond d in
  let before d := year d < 2019 \/ (year d = 2019 /\ month d < 7) in
  let from_cutoff d := 2019 < year d \/ (year d = 2019 /\ 7 <= month d) in
  let recent := date = None \/ (exists d, date = Some d /\ calendar d /\ from_cutoff d) in
  (forall d, date = Some d -> calendar d -> before d ->
     Execute.classify sections date = Ok (None, []))
  /\ (forall d offset, date = Some d -> tzinfo d = Some offset ->
        Execute.classify sections date = Raise TypeError)
  /\ (forall pre name text post,
        recent ->
        sections = pre ++ (name, text) :: post ->
        Forall (fun s => Execute.keyword_match (snd s) = false) pre ->
        Execute.keyword_match text = true ->
        Execute.classify sections date
        = Ok (Some "COVID-19"%string, map snd pre ++ [text])
        /\ Execute.getTags sections = Some "COVID-19"%string)
  /\ (recent ->
      Forall (fun s => Execute.keyword_match (snd s) = false) sections ->
      Execute.classify sections date = Ok (None, map snd sections))
  /\ (forall row indir models sha article cite,
        Execute.process (row, indir, models) = Ok (sha, article, cite) ->
        exists sections' titles seen,
          snd (Section_.parse row indir) = Ok (sections', titles)
          /\ Execute.classify sections' (Execute.getDate row)
             = Ok (Article.tags article, seen)).
Proof.
  intros calendar before from_cutoff recent.
  assert (Hrecent : recent -> Execute.classify sections date = Ok (Execute.scan sections)).
  { intros [-> | (d & -> & (Htz & Hday & Hh & Hm & Hs & Hus) & Hfrom)]; [reflexivity |].
    unfold Execute.classify.
    destruct (naive_compares d Htz) as [Hold | Hnew]; [| now rewrite Hnew].
    apply (before_cutoff d Htz Hh Hm Hs Hus) in Hold. unfold from_cutoff in Hfrom. lia. }
  split; [| split; [| split; [| split]]].
  - intros d -> (Htz & Hday & Hh & Hm & Hs & Hus) Hbefore. unfold Execute.classify.
    assert (Hold : datetime_ge d (date_of 2019 7 1) = Ok false).
    { apply (before_cutoff d Htz Hh Hm Hs Hus). unfold before in Hbefore. lia. }
    rewrite Hold. reflexivity.
  - intros d offset -> Htz. now apply (classify_aware_raises sections d offset).
  - intros pre name text post Hdate -> Hpre Htext.
    pose proof (scan_first_match pre post name text Hpre Htext) as Hscan.
    split; [| unfold Execute.getTags; now rewrite Hscan].
    rewrite (Hrecent Hdate), Hscan. reflexivity.
  - intros Hdate Hnone. rewrite (Hrecent Hdate), (scan_no_match sections Hnone). reflexivity.
  - intros row indir models sha article cite Hprocess.
    destruct (process_citations _ _ _ _ _ _ Hprocess)
      as (sections' & titles & seen & Hparse & _ & Hclassify & _).
    eauto.
Qed.

Lemma classify_cutoff_then_first_match_witness :
  Execute.classify (H := Demo.externals)
                   [(Some "TITLE", "COVID-19 in 2018")]%string (Some (date_of 2019 6 30))
  = Ok (None, [])
  /\ Execute.classify (H := Demo.externals)
                      [(Some "TITLE", "Mice"); (None, "On SARS-CoV-2"); (None, "covid")]%string
                      None
     = Ok (Some "COVID-19", ["Mice"; "On SARS-CoV-2"])%string
  /\ Execute.classify (H := Demo.externals)
                      [(Some "TITLE", "Mice"); (None, "On SARS-CoV-2"); (None, "covid")]%string
                      (Some (date_of 2019 7 1))
     = Ok (Some "COVID-19", ["Mice"; "On SARS-CoV-2"])%string
  /\ Execute.classify (H := Demo.externals)
                      [(Some "TITLE", "COVID-19 in 2018")]%string
                      (Some (mk_datetime 2018 1 1 0 0 0 0 (Some 0)))
     = Raise TypeError.
Proof.
  split; [| split; [| split]].
  - apply (proj1 (classify_cutoff_then_first_match (H := Demo.externals) _ _)
             (date_of 2019 6 30)); [reflexivity | cbn; split; [reflexivity | lia] | cbn; lia].
  - apply (proj1 (proj2 (proj2 (classify_cutoff_then_first_match (H := Demo.externals)
                                  _ None)))
             [(Some "TITLE", "Mice")] None "On SARS-CoV-2" [(None, "covid")])%string.
    + left; reflexivity.
    + reflexivity.
    + repeat constructor.
    + vm_compute; reflexivity.
  - apply (proj1 (proj2 (proj2 (classify_cutoff_then_first_match (H := Demo.externals) _
                                  (Some (date_of 2019 7 1)))))
             [(Some "TITLE", "Mice")] None "On SARS-CoV-2" [(None, "covid")])%string.
    + right. exists (date_of 2019 7 1). split; [reflexivity |]. cbn.
      split; [split; [reflexivity | lia] | lia].
    + reflexivity.
    + repeat constructor.
    + vm_compute; reflexivity.
  - apply (proj1 (proj2 (classify_cutoff_then_first_match (H := Demo.externals) _ _))
             (mk_datetime 2018 1 1 0 0 0 0 (Some 0)) 0); reflexivity.
Defined.

(* ===================================================================== *)
(** * Sections of a record *)
(* ===================================================================== *)

Lemma rmap_Ok {A B} (f : A -> result B) (l : list A) (ys : list B) :
  rmap f l = Ok ys -> Forall2 (fun x y => f x = Ok y) l ys.
Proof.
  revert ys. induction l as [|x l IH]; intros ys Hmap; cbn [rmap] in Hmap.
  - injection Hmap as <-. constructor.
  - unfold mbind, result_bind in Hmap.
    destruct (f x) as [y|] eqn:Hx; [|discriminate].
    destruct (rmap f l) as [ys'|]; [|discriminate].
    injection Hmap as <-. constructor; auto.
Qed.

Lemma rmap_Raise {A B} (f : A -> result B) (l : list A) (ex : exn) :
  rmap f l = Raise ex -> exists x, x ∈ l /\ f x = Raise ex.
Proof.
  induction l as [|x l IH]; intros Hmap; cbn [rmap] in Hmap; [discriminate |].
  unfold mbind, result_bind in Hmap.
  destruct (f x) as [y|e] eqn:Hx.
  - destruct (rmap f l) as [ys'|e]; [discriminate |].
    destruct (IH Hmap) as (x' & Hin & Hx'). exists x'. split; [now right | exact Hx'].
  - injection Hmap as ->. exists x. split; [now left | exact Hx].
Qed.

Lemma hash_key_Raise (v : Json.t) (ex : exn) : Json.hash_key v = Raise ex -> ex = TypeError.
Proof. destruct v; cbn; congruence. Qed.

(** The loop of [filtered] keeps what the specification keeps: its set
    [keys] holds the texts kept so far, and an earlier text that is not in it
    was boilerplate, as is every section that repeats it. *)
Lemma filtered_loop_first_occurrences
    (sections unique : list Section_.sec) (keys : gset string) (earlier : list string) :
  (forall t, t ∈ keys -> t ∈ earlier) ->
  (forall t, t ∈ earlier -> t ∈ keys \/ Section_.is_boilerplate t = true) ->
  Section_.filtered_loop sections unique keys
  = unique ++ Section_.first_occurrences earlier sections.
Proof.
  revert unique keys earlier.
  induction sections as [|[name text] rest IH]; intros unique keys earlier Hsub Hsup.
  - cbn. now rewrite app_nil_r.
  - cbn [Section_.filtered_loop Section_.first_occurrences].
    destruct (Section_.is_boilerplate text) eqn:Hbp.
    + rewrite andb_false_r, orb_true_r. cbn [app].
      apply IH.
      * intros t Ht. right. auto.
      * intros t [->|Ht]%elem_of_cons; [now right | auto].
    + rewrite andb_true_r, orb_false_r.
      destruct (decide (text ∈ keys)) as [Hin|Hout].
      * rewrite (bool_decide_eq_true_2 _ Hin).
        rewrite (bool_decide_eq_true_2 _ (Hsub _ Hin)). cbn [negb app].
        apply IH.
        -- intros t Ht. right. auto.
        -- intros t [->|Ht]%elem_of_cons; [now left | auto].
      * rewrite (bool_decide_eq_false_2 _ Hout).
        assert (Hnew : text ∉ earlier).
        { intros Hin. destruct (Hsup _ Hin); [contradiction | congruence]. }
        rewrite (bool_decide_eq_false_2 _ Hnew). cbn [negb andb orb].
        rewrite app_assoc. apply IH.
        -- intros t [->%elem_of_singleton|Ht]%elem_of_union; [now left | right; auto].
        -- intros t [->|Ht]%elem_of_cons.
           ++ left. set_solver.
           ++ destruct (Hsup _ Ht); [left; set_solver | now right].
Qed.


Lemma first_occurrences_fresh (earlier : list string) (sections : list Section_.sec) :
  Forall (fun s => (snd s ∉ earlier) /\ Section_.is_boilerplate (snd s) = false)
         (Section_.first_occurrences earlier sections).
Proof.
  revert earlier. induction sections as [|[name text] rest IH]; intros earlier.
  - constructor.
  - cbn [Section_.first_occurrences].
    assert (Hrest : Forall (fun s => (snd s ∉ earlier)
                                     /\ Section_.is_boilerplate (snd s) = false)
                           (Section_.first_occurrences (text :: earlier) rest)).
    { eapply Forall_impl; [apply IH |]. intros s [Hs Hbp]. split; [set_solver | exact Hbp]. }
    destruct (bool_decide (text ∈ earlier)) eqn:Hin; cbn [orb app]; [exact Hrest |].
    destruct (Section_.is_boilerplate text) eqn:Hbp; cbn [app]; [exact Hrest |].
    constructor; [| exact Hrest].
    split; [| exact Hbp]. now apply bool_decide_eq_false in Hin.
Qed.

Lemma first_occurrences_NoDup (earlier : list string) (sections : list Section_.sec) :
  NoDup (map snd (Section_.first_occurrences earlier sections)).
Proof.
  revert earlier. induction sections as [|[name text] rest IH]; intros earlier.
  - constructor.
  - cbn [Section_.first_occurrences].
    destruct (bool_decide (text ∈ earlier) || Section_.is_boilerplate text);
      cbn [app map snd]; [apply IH |].
    constructor; [| apply IH].
    intros Hin. apply list_elem_of_fmap in Hin as (s & Heq & Hs).
    pose proof (first_occurrences_fresh (text :: earlier) rest) as Hfresh.
    rewrite Forall_forall in Hfresh. destruct (Hfresh _ Hs) as [Hnot _].
    apply Hnot. rewrite <- Heq. now left.
Qed.





(** The four fragments, each in a text of its own; another case of the
    letters, or a part of a fragment, is no boilerplate. *)
Example is_boilerplate_cases :
  map Section_.is_boilerplate
      ["Elsevier hereby grants permission to make all its COVID-19-related research free";
       "the COVID-19 resource centre remains active";
       "WHO COVID database";
       "with the COVID-19 public health emergency response.";
       "covid-19 resource centre"; "WHO COVID  database"; "COVID-19 resource center";
       "COVID-19 public health emergency"; ""]%string
  = [true; true; true; true; false; false; false; false; false].
Proof. vm_compute. reflexivity. Qed.


Lemma for_app `{Externals tokens annotation} {A} (l1 l2 : list A) (body : A -> Section_.stmt unit)
    (st : Section_.state) :
  (forall x st', snd (body x st') = Ok tt) ->
  Section_.for_ (l1 ++ l2) body st = Section_.for_ l2 body (fst (Section_.for_ l1 body st)).
Proof.
  intros Hbody. revert st. induction l1 as [|x l1 IH]; intros st; [reflexivity |].
  cbn [app Section_.for_]. unfold mbind, Section_.stmt_bind.
  specialize (Hbody x st). destruct (body x st) as [st' [[]|ex]]; [| discriminate Hbody].
  apply IH.
Qed.

Lemma each_file_Ok `{Externals tokens annotation} (directory path : string) (st : Section_.state) :
  snd (Section_.each_file directory path st) = Ok tt.
Proof.
  unfold Section_.each_file, Section_.try_except.
  destruct (Section_.text_file _ st) as [st' [[]|ex]]; reflexivity.
Qed.

(** C9.  A companion file that cannot be opened or read as JSON does not
    stop the record: the handler prints one line naming the file, the
    sections and citations gathered so far stay as they are and none is
    added, the loop goes on with the files that follow from that very state,
    and the loop over the files ends without raising. *)
Theorem unreadable_file_is_skipped `{Externals tokens annotation}
    (directory path : string) (ex : exn) :
  json_load (Py.path_join directory path) = Raise ex ->
  (forall st,
     Section_.each_file directory path st
     = (Section_.logged directory path ex st, Ok tt))
  /\ (forall before after st,
        Section_.for_ (before ++ path :: after) (Section_.each_file directory) st
        = Section_.for_ after (Section_.each_file directory)
            (Section_.logged directory path ex
               (fst (Section_.for_ before (Section_.each_file directory) st))))
  /\ (forall files st,
        snd (Section_.for_ files (Section_.each_file directory) st) = Ok tt).
Proof.
  intros Hload.
  assert (Hone : forall st, Section_.each_file directory path st
                            = (Section_.logged directory path ex st, Ok tt)).
  { intros st. unfold Section_.each_file, Section_.try_except, Section_.text_file.
    unfold mbind at 1. unfold Section_.stmt_bind at 1. unfold Section_.eval at 1.
    rewrite Hload. reflexivity. }
  split; [exact Hone |]. split.
  - intros before after st.
    rewrite (for_app before (path :: after)) by (intros; apply each_file_Ok).
    cbn [Section_.for_]. unfold mbind at 1. unfold Section_.stmt_bind at 1.
    rewrite Hone. reflexivity.
  - intros files. induction files as [|x files IH]; intros st; [reflexivity |].
    cbn [Section_.for_]. unfold mbind, Section_.stmt_bind.
    pose proof (each_file_Ok directory x st) as Hx.
    destruct (Section_.each_file directory x st) as [st' [[]|e]]; [| discriminate Hx].
    apply IH.
Qed.

Lemma unreadable_file_is_skipped_witness :
  Section_.each_file (H := Demo.externals) "data" "missing.json"
    (Section_.mk_state [(Some "TITLE", "A study")]%string [] [])
  = (Section_.mk_state [(Some "TITLE", "A study")]%string []
       [("Error processing text file: data/missing.json"%string, OSError)],
     Ok tt).
Proof.
  exact (proj1 (unreadable_file_is_skipped (H := Demo.externals)
                  "data" "missing.json" OSError eq_refl) _).
Defined.

(** A file that is missing, a file that stops half way (its body is read,
    then [data["ref_entries"]] raises) and a file that is in order. *)
Example parse_with_bad_files :
  Section_.parse (H := Demo.externals)
    (Demo.row "" "" "[Title here]" "" "missing.json; partial.json; b.json") "data"
  = ([("Error processing text file: data/missing.json", OSError);
      ("Error processing text file: data/partial.json", KeyError)]%string,
     Ok ([(Some "TITLE", "Title here");
          (Some "RESULTS", "Only the body is here.");
          (Some "METHODS", "Mice were kept at room temperature.")]%string,
         [KStr "Paper C"])).
Proof. vm_compute. reflexivity. Qed.

(* ===================================================================== *)
(** * The loop of [run] *)
(* ===================================================================== *)

Section Loop.
Context `{Externals tokens annotation}.
Variable full : bool.
Variable dates : gmap string string.

Lemma accepts_false_iff (st : Execute.state annotation) (sha : string)
    (article : Article.t annotation) (cite : option (list key)) :
  Execute.accepts full st (sha, article, cite) = false
  <-> Article.uid article ∈ Execute.ids st
      \/ sha ∈ Execute.hashes st
      \/ (full = false /\ Execute.truthy_tags (Article.tags article) = false).
Proof.
  unfold Execute.accepts.
  rewrite !andb_false_iff, !negb_false_iff, !bool_decide_eq_true, orb_false_iff.
  tauto.
Qed.

Lemma accepts_true (st : Execute.state annotation) (sha : string)
    (article : Article.t annotation) (cite : option (list key)) :
  Execute.accepts full st (sha, article, cite) = true ->
  (Article.uid article ∉ Execute.ids st)
  /\ (sha ∉ Execute.hashes st)
  /\ (full || Execute.truthy_tags (Article.tags article)) = true.
Proof.
  unfold Execute.accepts.
  rewrite !andb_true_iff, !negb_true_iff, !bool_decide_eq_false. tauto.
Qed.

Lemma body_rejects (st : Execute.state annotation) (sha : string)
    (article : Article.t annotation) (cite : option (list key)) :
  Execute.accepts full st (sha, article, cite) = false ->
  Execute.body full dates st (sha, article, cite) = (st, Ok article).
Proof. intros Hno. unfold Execute.body. now rewrite Hno. Qed.

Lemma body_lookup_error (st : Execute.state annotation) (sha : string)
    (article : Article.t annotation) (cite : option (list key)) :
  Execute.accepts full st (sha, article, cite) = true ->
  dates !! sha = None ->
  Execute.body full dates st (sha, article, cite) = (st, Raise KeyError).
Proof. intros Hyes Hnone. unfold Execute.body. now rewrite Hyes, Hnone. Qed.

Lemma body_accepts (st : Execute.state annotation) (sha : string)
    (article : Article.t annotation) (cite : option (list key)) (date : string) :
  Execute.accepts full st (sha, article, cite) = true ->
  dates !! sha = Some date ->
  Execute.body full dates st (sha, article, cite)
  = (Execute.mk_state
       (Execute.db st ++ [Execute.saved_as dates (sha, article, cite)])
       ({[Article.uid article]} ∪ Execute.ids st)
       ({[sha]} ∪ Execute.hashes st)
       (Execute.update (Execute.citations st) cite),
     Ok (Article.mk (Article.append_entry (Article.metadata article) date)
                    (Article.sections article))).
Proof.
  intros Hyes Hsome. unfold Execute.body, Execute.saved_as, Execute.sha_of.
  cbn [fst snd]. now rewrite Hyes, Hsome.
Qed.

Lemma loop_app (l1 l2 : list (result (Execute.candidate annotation)))
    (st : Execute.state annotation) :
  Execute.loop full dates st (l1 ++ l2)
  = match Execute.loop full dates st l1 with
    | (st', Ok _) => Execute.loop full dates st' l2
    | (st', Raise ex) => (st', Raise ex)
    end.
Proof.
  revert st. induction l1 as [|[c|ex] l1 IH]; intros st; cbn [app Execute.loop].
  - reflexivity.
  - destruct (Execute.body full dates st c) as [st' [a|ex]]; [apply IH | reflexivity].
  - reflexivity.
Qed.

(** One more title in the counter. *)
Lemma count_insert (citations : gmap key nat) (title t : key) :
  Execute.count (<[title := S (default O (citations !! title))]> citations) t
  = (Execute.count citations t + if decide (title = t) then 1 else 0)%nat.
Proof.
  unfold Execute.count. destruct (decide (title = t)) as [->|Hne].
  - rewrite lookup_insert_eq. cbn. lia.
  - rewrite lookup_insert_ne by exact Hne. lia.
Qed.

Lemma count_update (citations : gmap key nat) (c : Execute.candidate annotation) (t : key) :
  Execute.count (Execute.update citations (snd c)) t
  = (Execute.count citations t + Execute.mentions t c)%nat.
Proof.
  unfold Execute.update, Execute.mentions. destruct (snd c) as [titles|]; [| lia].
  revert citations. induction titles as [|title titles IH]; intros citations.
  - cbn. lia.
  - cbn [fold_left count_occ]. rewrite IH, count_insert.
    destruct (decide (title = t)) as [->|Hne].
    + destruct (key_eq_dec t t); [lia | contradiction].
    + destruct (key_eq_dec title t); [contradiction | lia].
Qed.

(** What the loop has done when it is left, normally or by an exception: the
    database has received the accepted candidates, in order, the two sets
    have grown by their keys, and the counter by their citations; the
    accepted candidates had keys that were new, pairwise different, and an
    entry date. *)
Lemma loop_accepted (results : list (result (Execute.candidate annotation)))
    (st0 st : Execute.state annotation) (r : result unit) :
  Execute.loop full dates st0 results = (st, r) ->
  let acc := Execute.accepted full dates st0 results in
  Execute.db st = Execute.db st0 ++ map (Execute.saved_as dates) acc
  /\ Execute.ids st = list_to_set (map Execute.uid_of acc) ∪ Execute.ids st0
  /\ Execute.hashes st = list_to_set (map Execute.sha_of acc) ∪ Execute.hashes st0
  /\ (forall t, Execute.count (Execute.citations st) t
                = (Execute.count (Execute.citations st0) t
                   + sum_list_with (Execute.mentions t) acc)%nat)
  /\ NoDup (map Execute.uid_of acc)
  /\ NoDup (map Execute.sha_of acc)
  /\ Forall (fun c => (Execute.uid_of c ∉ Execute.ids st0)
                      /\ (Execute.sha_of c ∉ Execute.hashes st0)
                      /\ is_Some (dates !! Execute.sha_of c)
                      /\ (full || Execute.truthy_tags (Article.tags (snd (fst c))))
                         = true) acc.
Proof.
  revert st0. induction results as [|[[[sha article] cite]|ex] rest IH]; intros st0 Hloop;
    cbn [Execute.loop Execute.accepted] in *.
  - injection Hloop as <- <-. cbn. rewrite app_nil_r.
    repeat split; first [constructor | intros; cbn; lia | set_solver].
  - destruct (Execute.accepts full st0 (sha, article, cite)) eqn:Hacc.
    + destruct (accepts_true _ _ _ _ Hacc) as (Huid & Hsha & Htags).
      destruct (dates !! sha) as [date|] eqn:Hdate.
      * rewrite (body_accepts _ _ _ _ _ Hacc Hdate) in *.
        destruct (IH _ Hloop) as (Hdb & Hids & Hhashes & Hcount & Hnu & Hns & Hall).
        cbn [Execute.db Execute.ids Execute.hashes Execute.citations] in *.
        cbn [app map]. rewrite Forall_forall in Hall.
        repeat split.
        -- rewrite Hdb, <- app_assoc. reflexivity.
        -- rewrite Hids. cbn [list_to_set]. unfold Execute.uid_of at 2. cbn [fst snd].
           set_solver.
        -- rewrite Hhashes. cbn [list_to_set]. unfold Execute.sha_of at 2. cbn [fst snd].
           set_solver.
        -- intros t. rewrite Hcount.
           pose proof (count_update (Execute.citations st0) (sha, article, cite) t)
             as Hnew.
           cbn [snd] in Hnew. rewrite Hnew. cbn [sum_list_with]. lia.
        -- constructor; [| exact Hnu].
           intros Hin. apply list_elem_of_fmap in Hin as (c & Heq & Hc).
           destruct (Hall _ Hc) as (Hc1 & _). apply Hc1. rewrite <- Heq.
           unfold Execute.uid_of. cbn [fst snd]. set_solver.
        -- constructor; [| exact Hns].
           intros Hin. apply list_elem_of_fmap in Hin as (c & Heq & Hc).
           destruct (Hall _ Hc) as (_ & Hc2 & _). apply Hc2. rewrite <- Heq.
           unfold Execute.sha_of. cbn [fst snd]. set_solver.
        -- apply Forall_forall. intros c [->|Hc]%elem_of_cons.
           ++ unfold Execute.uid_of, Execute.sha_of. cbn [fst snd].
              rewrite Hdate. eauto.
           ++ destruct (Hall _ Hc) as (Hc1 & Hc2 & Hc3 & Hc4).
              repeat split; [set_solver | set_solver | exact Hc3 | exact Hc4].
      * rewrite (body_lookup_error _ _ _ _ Hacc Hdate) in *.
        injection Hloop as <- <-. cbn. rewrite app_nil_r.
        repeat split; first [constructor | intros; cbn; lia | set_solver].
    + rewrite (body_rejects _ _ _ _ Hacc) in *. cbn [app]. apply IH, Hloop.
  - injection Hloop as <- <-. cbn. rewrite app_nil_r.
    repeat split; first [constructor | intros; cbn; lia | set_solver].
Qed.

End Loop.

Lemma app_singleton_neq {A} (l : list A) (x : A) : l <> l ++ [x].
Proof.
  intros Heq. apply (f_equal length) in Heq. rewrite length_app in Heq. cbn in Heq. lia.
Qed.

(** C1.  In every run the accepted documents have pairwise different unique
    ids and pairwise different identity hashes; the two sets hold exactly
    their keys and the database has received exactly them, in order.  At the
    moment a candidate is consumed, the sets hold the keys of the documents
    accepted before it; if it is saved, neither of its keys was in its set
    and both are added; if its id or its hash is in its set it is rejected,
    and the state with everything saved so far stays as it is.  What the
    database has received is never taken back. *)
Theorem accepted_documents_have_new_keys `{Externals tokens annotation}
    (full : bool) (dates : gmap string string)
    (results : list (result (Execute.candidate annotation))) :
  let st := fst (Execute.loop full dates Execute.init results) in
  let acc := Execute.accepted full dates Execute.init results in
  NoDup (map Execute.uid_of acc)
  /\ NoDup (map Execute.sha_of acc)
  /\ Execute.ids st = list_to_set (map Execute.uid_of acc)
  /\ Execute.hashes st = list_to_set (map Execute.sha_of acc)
  /\ Execute.db st = map (Execute.saved_as dates) acc
  /\ (forall pre sha article cite post st_pre,
        results = pre ++ Ok (sha, article, cite) :: post ->
        Execute.loop full dates Execute.init pre = (st_pre, Ok tt) ->
        let after := Execute.body full dates st_pre (sha, article, cite) in
        let before := Execute.accepted full dates Execute.init pre in
        Execute.ids st_pre = list_to_set (map Execute.uid_of before)
        /\ Execute.hashes st_pre = list_to_set (map Execute.sha_of before)
        /\ (forall saved,
              Execute.db (fst after) = Execute.db st_pre ++ [Execute.Save saved] ->
              (Article.uid article ∉ Execute.ids st_pre)
              /\ (sha ∉ Execute.hashes st_pre)
              /\ Execute.ids (fst after) = {[Article.uid article]} ∪ Execute.ids st_pre
              /\ Execute.hashes (fst after) = {[sha]} ∪ Execute.hashes st_pre)
        /\ (Article.uid article ∈ Execute.ids st_pre \/ sha ∈ Execute.hashes st_pre ->
            after = (st_pre, Ok article))
        /\ Execute.db st_pre `prefix_of` Execute.db st).
Proof.
  intros st acc.
  destruct (Execute.loop full dates Execute.init results) as [st' r] eqn:Hloop.
  subst st. cbn [fst].
  destruct (loop_accepted full dates results _ _ _ Hloop)
    as (Hdb & Hids & Hhashes & _ & Hnu & Hns & _).
  fold acc in Hdb, Hids, Hhashes, Hnu, Hns.
  cbn [Execute.init Execute.db Execute.ids Execute.hashes app] in Hdb, Hids, Hhashes.
  rewrite (right_id_L ∅ (∪)) in Hids, Hhashes.
  do 5 (split; [assumption |]).
  intros pre sha article cite post st_pre Hresults Hpre.
  destruct (loop_accepted full dates pre _ _ _ Hpre) as (_ & Hids' & Hhashes' & _).
  cbn [Execute.init Execute.ids Execute.hashes] in Hids', Hhashes'.
  rewrite (right_id_L ∅ (∪)) in Hids', Hhashes'.
  do 2 (split; [assumption |]).
  split; [| split].
  - intros saved. unfold Execute.body.
    destruct (Execute.accepts _ _ _) eqn:Hacc;
      [| intros Hsame; now apply app_singleton_neq in Hsame].
    destruct (accepts_true _ _ _ _ _ Hacc) as (Huid & Hsha & _).
    destruct (dates !! sha);
      [| intros Hsame; now apply app_singleton_neq in Hsame].
    intros _. cbn [fst Execute.ids Execute.hashes]. auto.
  - intros Hdup. apply body_rejects, accepts_false_iff. tauto.
  - rewrite Hresults, loop_app, Hpre in Hloop.
    destruct (loop_accepted full dates _ _ _ _ Hloop) as (Hext & _).
    rewrite Hext. now eexists.
Qed.

Lemma accepted_documents_have_new_keys_witness :
  Execute.body true Demo.dates Demo.after_row_a (Demo.candidate_of Demo.row_b)
  = (Demo.after_row_a, Ok (snd (fst (Demo.candidate_of Demo.row_b)))).
Proof.
  destruct (accepted_documents_have_new_keys (H := Demo.externals)
              true Demo.dates Demo.results) as (_ & _ & _ & _ & _ & Hmoment).
  destruct (Hmoment [Ok (Demo.candidate_of Demo.row_a)]
                    (fst (fst (Demo.candidate_of Demo.row_b)))
                    (snd (fst (Demo.candidate_of Demo.row_b)))
                    (snd (Demo.candidate_of Demo.row_b))
                    [Ok (Demo.candidate_of Demo.row_c); Ok (Demo.candidate_of Demo.row_old)]
                    Demo.after_row_a)
    as (_ & _ & _ & Hdup & _).
  - vm_compute. reflexivity.
  - vm_compute. reflexivity.
  - apply Hdup. right. refine (bool_decide_unpack _ _). vm_compute. exact I.
Defined.

(** C10.  A candidate that is rejected, for an id or a hash already in its
    set or for want of a tag when only tagged rows are loaded, leaves
    everything as it is: the two sets, the counter and the calls received by
    the database are those of before, the article still has the metadata it
    came with, without an entry date appended, and the loop goes on as if
    the candidate had not been there. *)
Theorem rejected_candidate_changes_nothing `{Externals tokens annotation}
    (full : bool) (dates : gmap string string) (st : Execute.state annotation)
    (sha : string) (article : Article.t annotation) (cite : option (list key)) :
  Article.uid article ∈ Execute.ids st
  \/ sha ∈ Execute.hashes st
  \/ (full = false /\ Execute.truthy_tags (Article.tags article) = false) ->
  let after := Execute.body full dates st (sha, article, cite) in
  after = (st, Ok article)
  /\ Execute.ids (fst after) = Execute.ids st
  /\ Execute.hashes (fst after) = Execute.hashes st
  /\ Execute.citations (fst after) = Execute.citations st
  /\ Execute.db (fst after) = Execute.db st
  /\ (forall rest,
        Execute.loop full dates st (Ok (sha, article, cite) :: rest)
        = Execute.loop full dates st rest)
  /\ (forall rest,
        Execute.accepted full dates st (Ok (sha, article, cite) :: rest)
        = Execute.accepted full dates st rest).
Proof.
  intros Hrejected after.
  apply (proj2 (accepts_false_iff full st sha article cite)) in Hrejected.
  assert (Hafter : after = (st, Ok article)) by now apply body_rejects.
  split; [exact Hafter |]. rewrite Hafter. cbn [fst].
  do 4 (split; [reflexivity |]). subst after.
  split; intros rest; cbn [Execute.loop Execute.accepted]; rewrite Hafter, ?Hrejected;
    reflexivity.
Qed.

Lemma rejected_candidate_changes_nothing_witness :
  Execute.body false Demo.dates Execute.init (Demo.candidate_of Demo.row_c)
  = (Execute.init, Ok (snd (fst (Demo.candidate_of Demo.row_c)))).
Proof.
  refine (proj1 (rejected_candidate_changes_nothing (H := Demo.externals)
                   false Demo.dates Execute.init
                   (fst (fst (Demo.candidate_of Demo.row_c)))
                   (snd (fst (Demo.candidate_of Demo.row_c)))
                   (snd (Demo.candidate_of Demo.row_c)) _)).
  right. right. split; vm_compute; reflexivity.
Defined.

Lemma entryDates_lookup_None (entries : list (string * string)) (sha : string) :
  sha ∉ map fst entries -> Execute.entryDates entries !! sha = None.
Proof.
  unfold Execute.entryDates.
  assert (Hgen : forall dates : gmap string string,
             dates !! sha = None -> sha ∉ map fst entries ->
             fold_left (fun dates row => <[fst row := snd row]> dates) entries dates
               !! sha = None).
  { induction entries as [|[k v] entries IH]; intros dates Hnone Hnot; [exact Hnone |].
    cbn [fold_left]. apply IH.
    - cbn [fst snd]. rewrite lookup_insert_ne; [exact Hnone |].
      intros ->. apply Hnot. now left.
    - intros Hin. apply Hnot. now right. }
  intros Hnot. apply Hgen; [apply lookup_empty | exact Hnot].
Qed.

(** C4.  When a candidate passes the test of the loop and its hash is not in
    the entry-date table, the lookup raises [KeyError] before anything else
    is done: the body leaves the state untouched, [run] ends with that
    exception and with the state it had before the candidate, so the
    document is not saved and the database is neither completed nor closed;
    and every call the database has received is the save of an article with
    an entry date taken from the table. *)
Theorem missing_entry_date_aborts_run `{Externals tokens annotation}
    (rows : list Row.t) (entries : list (string * string))
    (indir url models : string) (full : bool)
    (pre post : list (result (Execute.candidate annotation)))
    (sha : string) (article : Article.t annotation) (cite : option (list key))
    (st : Execute.state annotation) :
  Multiprocessing.imap Execute.process
    (Execute.stream rows indir (Execute.models_or_default url models)) 100
  = pre ++ Ok (sha, article, cite) :: post ->
  Execute.loop full (Execute.entryDates entries) Execute.init pre = (st, Ok tt) ->
  Execute.accepts full st (sha, article, cite) = true ->
  sha ∉ map fst entries ->
  Execute.body full (Execute.entryDates entries) st (sha, article, cite)
  = (st, Raise KeyError)
  /\ Execute.run rows entries indir url models full = (st, Raise KeyError)
  /\ Forall (fun call =>
               exists saved sha' date,
                 call = Execute.Save saved
                 /\ Execute.entryDates entries !! sha' = Some date
                 /\ Article.entry (Article.metadata saved) = Some date)
            (Execute.db st).
Proof.
  intros Hresults Hpre Haccepts Hmissing.
  pose proof (entryDates_lookup_None _ _ Hmissing) as Hnone.
  pose proof (body_lookup_error full _ st sha article cite Haccepts Hnone) as Hbody.
  split; [exact Hbody |]. split.
  - unfold Execute.run. rewrite Hresults, loop_app, Hpre.
    cbn [Execute.loop]. rewrite Hbody. reflexivity.
  - destruct (loop_accepted full _ pre _ _ _ Hpre) as (Hdb & _ & _ & _ & _ & _ & Hall).
    rewrite Hdb. cbn [Execute.init Execute.db app].
    apply Forall_fmap. eapply Forall_impl; [exact Hall |].
    intros c (_ & _ & [date Hdate] & _). unfold Execute.saved_as.
    eexists _, (Execute.sha_of c), date. rewrite Hdate. cbn. auto.
Qed.

Lemma missing_entry_date_aborts_run_witness :
  Execute.run (H := Demo.externals) [Demo.row_a; Demo.row_c]
              [("aaaa", "2020-03-10")]%string "data" "url" "models" true
  = (fst (Execute.loop true (Execute.entryDates [("aaaa", "2020-03-10")]%string)
                       Execute.init [Ok (Demo.candidate_of Demo.row_a)]),
     Raise KeyError).
Proof.
  refine (proj1 (proj2 (missing_entry_date_aborts_run (H := Demo.externals)
            [Demo.row_a; Demo.row_c] [("aaaa", "2020-03-10")]%string
            "data" "url" "models" true
            [Ok (Demo.candidate_of Demo.row_a)] []
            (fst (fst (Demo.candidate_of Demo.row_c)))
            (snd (fst (Demo.candidate_of Demo.row_c)))
            (snd (Demo.candidate_of Demo.row_c))
            _ _ _ _ _))).
  - vm_compute. reflexivity.
  - vm_compute. reflexivity.
  - vm_compute. reflexivity.
  - cbn [map fst]. apply not_elem_of_cons. split; [| apply not_elem_of_nil].
    vm_compute. discriminate.
Defined.

(* ===================================================================== *)
(** * The citation counter *)
(* ===================================================================== *)

Lemma update_positive (citations : gmap key nat) (cite : option (list key)) :
  (forall t n, citations !! t = Some n -> (0 < n)%nat) ->
  forall t n, Execute.update citations cite !! t = Some n -> (0 < n)%nat.
Proof.
  unfold Execute.update. destruct cite as [titles|]; [| auto].
  revert citations. induction titles as [|title titles IH]; intros citations Hpos; [exact Hpos |].
  cbn [fold_left]. apply IH. intros t n.
  destruct (decide (title = t)) as [->|Hne].
  - rewrite lookup_insert_eq. intros [= <-]. lia.
  - rewrite lookup_insert_ne by exact Hne. apply Hpos.
Qed.

Lemma loop_counter_positive `{Externals tokens annotation}
    (full : bool) (dates : gmap string string)
    (results : list (result (Execute.candidate annotation)))
    (st0 st : Execute.state annotation) (r : result unit) :
  Execute.loop full dates st0 results = (st, r) ->
  (forall t n, Execute.citations st0 !! t = Some n -> (0 < n)%nat) ->
  forall t n, Execute.citations st !! t = Some n -> (0 < n)%nat.
Proof.
  revert st0. induction results as [|[[[sha article] cite]|ex] rest IH]; intros st0 Hloop Hpos;
    cbn [Execute.loop] in Hloop.
  - now injection Hloop as <- <-.
  - unfold Execute.body in Hloop.
    destruct (Execute.accepts full st0 (sha, article, cite)); [| exact (IH _ Hloop Hpos)].
    destruct (dates !! sha); [| now injection Hloop as <- <-].
    apply (IH _ Hloop). cbn [Execute.citations]. now apply update_positive.
  - now injection Hloop as <- <-.
Qed.

Lemma accepted_from_results `{Externals tokens annotation}
    (full : bool) (dates : gmap string string)
    (results : list (result (Execute.candidate annotation)))
    (st0 : Execute.state annotation) (c : Execute.candidate annotation) :
  c ∈ Execute.accepted full dates st0 results -> Ok c ∈ results.
Proof.
  revert st0. induction results as [|[c'|ex] rest IH]; intros st0;
    cbn [Execute.accepted]; [intros []%elem_of_nil | | intros []%elem_of_nil].
  destruct (Execute.body full dates st0 c') as [st' [a|e]]; [| intros []%elem_of_nil].
  intros [Hhere|Hlater]%elem_of_app.
  - destruct (Execute.accepts full st0 c'); [| now apply elem_of_nil in Hhere].
    apply list_elem_of_singleton in Hhere as ->. now left.
  - right. eapply IH, Hlater.
Qed.

Lemma get_tasks_aux_elem {A} (fuel size : nat) (l batch : list A) (x : A) :
  batch ∈ Multiprocessing.get_tasks_aux fuel size l -> x ∈ batch -> x ∈ l.
Proof.
  revert l. induction fuel as [|fuel IH]; intros l; cbn [Multiprocessing.get_tasks_aux].
  - intros []%elem_of_nil.
  - destruct l as [|a l]; [intros []%elem_of_nil |].
    rewrite <- (take_drop size (a :: l)) at 3.
    intros [->|Hlater]%elem_of_cons Hx; apply elem_of_app; [now left |].
    right. eapply IH; eauto.
Qed.

Lemma yields_Ok_elem {A B} (func : A -> result B) (batches : list (list A)) (y : B) :
  Ok y ∈ Multiprocessing.yields func batches ->
  exists batch x, batch ∈ batches /\ x ∈ batch /\ func x = Ok y.
Proof.
  induction batches as [|batch rest IH]; cbn [Multiprocessing.yields].
  - intros []%elem_of_nil.
  - unfold Multiprocessing.mapstar.
    destruct (rmap func batch) as [items|ex] eqn:Hitems.
    + intros [Hhere|Hlater]%elem_of_app.
      * apply list_elem_of_fmap in Hhere as (y' & [= <-] & Hy).
        apply rmap_Ok in Hitems. apply list_elem_of_lookup in Hy as [i Hi].
        destruct (Forall2_lookup_r _ _ _ _ _ Hitems Hi) as (x & Hx & Hfx).
        exists batch, x. repeat split; [now left | | exact Hfx].
        apply list_elem_of_lookup. eauto.
      * destruct (IH Hlater) as (batch' & x & Hb & Hx & Hfx).
        exists batch', x. repeat split; [now right | exact Hx | exact Hfx].
    + intros [Habs|[]%elem_of_nil]%elem_of_cons. discriminate Habs.
Qed.

(** An item the iterator hands over is the result of a call on a task. *)
Lemma imap_Ok_elem {A B} (func : A -> result B) (l : list A) (chunksize : nat) (y : B) :
  Ok y ∈ Multiprocessing.imap func l chunksize -> exists x, x ∈ l /\ func x = Ok y.
Proof.
  unfold Multiprocessing.imap, Multiprocessing.get_tasks.
  intros (batch & x & Hb & Hx & Hfx)%yields_Ok_elem.
  exists x. split; [| exact Hfx]. eapply get_tasks_aux_elem; eauto.
Qed.

Lemma sum_list_with_positive {A} (f : A -> nat) (l : list A) :
  (0 < sum_list_with f l)%nat <-> exists x, x ∈ l /\ (0 < f x)%nat.
Proof.
  induction l as [|x l IH]; cbn [sum_list_with].
  - split; [lia | intros (x & []%elem_of_nil & _)].
  - split.
    + intros Hpos. destruct (f x) eqn:Hx.
      * destruct (proj1 IH) as (y & Hy & Hfy); [lia |]. exists y. split; [now right | exact Hfy].
      * exists x. split; [now left | lia].
    + intros (y & [->|Hy]%elem_of_cons & Hfy); [lia |].
      assert (0 < sum_list_with f l)%nat by (apply IH; eauto). lia.
Qed.

(** A full load of a single row without tag: its companion file cites
    "Paper C" and the document is accepted and saved, yet the counter stays
    empty, because [process] clears the citations of a row without tag. *)
Lemma untagged_accepted_document_is_not_tallied :
  snd (Section_.parse (H := Demo.externals) Demo.row_c "data")
  = Ok ([(Some "TITLE", "Mice");
         (Some "METHODS", "Mice were kept at room temperature.")]%string,
        [KStr "Paper C"])
  /\ map Execute.uid_of
         (Execute.accepted true Demo.dates Execute.init
            (Multiprocessing.imap Execute.process
               (Execute.stream [Demo.row_c] "data" "models") 100))
     = ["uid-c"%string]
  /\ snd (Execute.run (H := Demo.externals) [Demo.row_c] Demo.entries
                      "data" "url" "models" true) = Ok tt
  /\ Execute.citations
       (fst (Execute.run (H := Demo.externals) [Demo.row_c] Demo.entries
                         "data" "url" "models" true))
     !! KStr "Paper C" = None.
Proof. repeat split; vm_compute; reflexivity. Qed.

(** C3, amended.  When [run] ends, the counter holds for every title the
    number of accepted documents that hand it over, and it holds a title
    only if some accepted document does.  Accepted documents are results of
    [process] on rows of the input.  A tagged document hands over the titles
    cited in its companion files, each once; a document without tag hands
    over nothing, also when it is accepted in a full load; a rejected
    document is not among the accepted ones and adds nothing. *)
Theorem citations_tally_accepted_tagged_documents `{Externals tokens annotation}
    (rows : list Row.t) (entries : list (string * string))
    (indir url models : string) (full : bool) :
  let models' := Execute.models_or_default url models in
  let st := fst (Execute.run rows entries indir url models full) in
  let acc := Execute.accepted full (Execute.entryDates entries) Execute.init
               (Multiprocessing.imap Execute.process
                  (Execute.stream rows indir models') 100) in
  (forall title,
     Execute.count (Execute.citations st) title
     = sum_list_with (Execute.mentions title) acc)
  /\ (forall title,
        is_Some (Execute.citations st !! title)
        <-> exists c, c ∈ acc /\ (0 < Execute.mentions title c)%nat)
  /\ (forall c, c ∈ acc ->
        exists row, row ∈ rows /\ Execute.process (row, indir, models') = Ok c)
  /\ (forall row sha article cite,
        Execute.process (row, indir, models') = Ok (sha, article, cite) ->
        exists sections titles,
          snd (Section_.parse row indir) = Ok (sections, titles)
          /\ cite = (if Execute.truthy_tags (Article.tags article)
                     then Some titles else None)
          /\ forall title,
               Execute.mentions title (sha, article, cite)
               = if Execute.truthy_tags (Article.tags article)
                    && bool_decide (title ∈ titles)
                 then 1%nat else 0%nat).
Proof.
  intros models' st acc.
  set (dates := Execute.entryDates entries) in *.
  set (results := Multiprocessing.imap Execute.process
                    (Execute.stream rows indir models') 100) in *.
  destruct (Execute.loop full dates Execute.init results) as [st' r] eqn:Hloop.
  assert (Hst : Execute.citations st = Execute.citations st').
  { subst st. unfold Execute.run. fold models' dates results. rewrite Hloop.
    destruct r; reflexivity. }
  destruct (loop_accepted full dates results _ _ _ Hloop) as (_ & _ & _ & Hcount & _).
  fold acc in Hcount. rewrite Hst.
  assert (Htally : forall title,
             Execute.count (Execute.citations st') title
             = sum_list_with (Execute.mentions title) acc).
  { intros title. rewrite Hcount. unfold Execute.count at 1. cbn. reflexivity. }
  split; [exact Htally |]. split; [| split].
  - intros title. rewrite <- sum_list_with_positive, <- Htally. unfold Execute.count.
    split.
    + intros [n Hn]. rewrite Hn. cbn.
      eapply (loop_counter_positive full dates results _ _ _ Hloop); [| exact Hn].
      intros t m. cbn. rewrite lookup_empty. discriminate.
    + destruct (Execute.citations st' !! title); [eauto | cbn; lia].
  - intros c Hc. apply accepted_from_results in Hc. subst results.
    apply imap_Ok_elem in Hc as (params & Hin & Hparams).
    unfold Execute.stream in Hin. apply list_elem_of_fmap in Hin as (row & -> & Hrow).
    eauto.
  - intros row sha article cite Hprocess.
    destruct (process_citations _ _ _ _ _ _ Hprocess)
      as (sections & titles & seen & Hparse & Hnodup & _ & Hcite).
    exists sections, titles. split; [exact Hparse |]. split; [exact Hcite |].
    intros title. unfold Execute.mentions. cbn [snd]. rewrite Hcite.
    destruct (Execute.truthy_tags (Article.tags article)); [| reflexivity].
    cbn [andb]. destruct (decide (title ∈ titles)) as [Hin|Hout].
    + rewrite (bool_decide_eq_true_2 _ Hin).
      apply list_elem_of_In in Hin.
      apply NoDup_ListNoDup in Hnodup.
      pose proof (proj1 (NoDup_count_occ key_eq_dec titles) Hnodup title).
      pose proof (proj1 (count_occ_In key_eq_dec titles title) Hin). lia.
    + rewrite (bool_decide_eq_false_2 _ Hout).
      apply count_occ_not_In. now rewrite <- list_elem_of_In.
Qed.

Lemma citations_tally_accepted_tagged_documents_witness :
  Execute.count
    (Execute.citations
       (fst (Execute.run (H := Demo.externals) Demo.rows Demo.entries
                         "data" "url" "models" true)))
    (KStr "Paper A")
  = 1%nat.
Proof.
  rewrite (proj1 (citations_tally_accepted_tagged_documents (H := Demo.externals)
                    Demo.rows Demo.entries "data" "url" "models" true)).
  vm_compute. reflexivity.
Defined.

(* ===================================================================== *)
(** * The pool and the sequential run *)
(* ===================================================================== *)

Lemma rmap_all_Ok {A B} (func : A -> result B) (l : list A) :
  Forall (fun x => exists y, func x = Ok y) l ->
  exists ys, rmap func l = Ok ys /\ map Ok ys = map func l.
Proof.
  induction 1 as [|x l [y Hy] _ (ys & Hys & Hmap)]; [now exists [] |].
  exists (y :: ys). cbn [rmap map]. unfold mbind, result_bind.
  rewrite Hy, Hys, Hmap. auto.
Qed.

(** When no call fails, the iterator hands over the result of every task, in
    the order of the tasks. *)
Lemma yields_all_Ok {A B} (func : A -> result B) (batches : list (list A)) :
  Forall (fun x => exists y, func x = Ok y) (concat batches) ->
  Multiprocessing.yields func batches = map func (concat batches).
Proof.
  induction batches as [|batch rest IH]; [reflexivity |].
  cbn [concat Multiprocessing.yields]. intros [Hbatch Hrest]%Forall_app.
  unfold Multiprocessing.mapstar.
  destruct (rmap_all_Ok func batch Hbatch) as (ys & -> & ->).
  rewrite (IH Hrest), map_app. reflexivity.
Qed.

Lemma concat_get_tasks_aux {A} (fuel size : nat) (l : list A) :
  (length l <= fuel)%nat ->
  concat (Multiprocessing.get_tasks_aux fuel (S size) l) = l.
Proof.
  revert l. induction fuel as [|fuel IH]; intros l Hlen.
  - destruct l; [reflexivity | cbn in Hlen; lia].
  - destruct l as [|a l]; [reflexivity |].
    cbn [Multiprocessing.get_tasks_aux concat]. rewrite IH.
    + apply take_drop.
    + rewrite length_drop. cbn [length] in *. lia.
Qed.

Lemma imap_all_Ok {A B} (func : A -> result B) (l : list A) (chunksize : nat) :
  (0 < chunksize)%nat ->
  Forall (fun x => exists y, func x = Ok y) l ->
  Multiprocessing.imap func l chunksize = map func l.
Proof.
  intros Hpos Hall. destruct chunksize as [|size]; [lia |].
  unfold Multiprocessing.imap, Multiprocessing.get_tasks.
  rewrite yields_all_Ok; rewrite concat_get_tasks_aux by lia; [reflexivity | exact Hall].
Qed.

Section PoolRun.
Context `{Externals tokens annotation}.
Variable tasks : list (Row.t * string * string).
Variable chunksize : nat.
Variable full : bool.
Variable dates : gmap string string.

Lemma fold_decide_stopped (l : list (result (Execute.candidate annotation)))
    (s : Execute.state annotation) (status : Pool.status) :
  status <> Pool.Running ->
  fold_left (Pool.decide full dates) l (s, status) = (s, status).
Proof.
  intros Hstopped. induction l as [|x l IH]; [reflexivity |].
  cbn [fold_left]. destruct status; [contradiction | exact IH | exact IH].
Qed.

(** Folding the decision is running the loop. *)
Lemma fold_decide_loop (l : list (result (Execute.candidate annotation)))
    (s : Execute.state annotation) :
  fold_left (Pool.decide full dates) l (s, Pool.Running)
  = match Execute.loop full dates s l with
    | (s', Ok _) => (s', Pool.Running)
    | (s', Raise ex) => (s', Pool.Raised ex)
    end.
Proof.
  revert s. induction l as [|[c|ex] l IH]; intros s; cbn [fold_left Execute.loop Pool.decide].
  - reflexivity.
  - destruct (Execute.body full dates s c) as [s' [a|ex]]; [apply IH |].
    now apply fold_decide_stopped.
  - now apply fold_decide_stopped.
Qed.

Lemma consistent_start : Pool.consistent tasks chunksize full dates Pool.start.
Proof.
  split.
  - intros i r. cbn. rewrite lookup_empty. discriminate.
  - cbn. split; [lia | reflexivity].
Qed.

Lemma consistent_step (c c' : Pool.config annotation) :
  Pool.consistent tasks chunksize full dates c ->
  Pool.step tasks chunksize full dates c c' ->
  Pool.consistent tasks chunksize full dates c'.
Proof.
  intros [Hres Hloop] Hstep.
  destruct Hstep as [c i batch Hi Hnone | c items Hrun Hpending Hnext
                     | c ex Hrun Hpending Hnext
                     | c cand rest st' article Hrun Hpending Hbody
                     | c cand rest st' ex Hrun Hpending Hbody
                     | c Hrun Hpending Hend];
    (split; [cbn [Pool.results] |]); cbn [Pool.stat Pool.next Pool.st Pool.pending];
    try exact Hres; try rewrite Hrun in Hloop; try rewrite Hpending in Hloop.
  - intros j r. destruct (decide (i = j)) as [->|Hne].
    + rewrite lookup_insert_eq. intros [= <-]. eauto.
    + rewrite lookup_insert_ne by exact Hne. apply Hres.
  - exact Hloop.
  - destruct Hloop as [Hle Hloop].
    destruct (Hres _ _ Hnext) as (batch & Hi & Hitems).
    pose proof (lookup_lt_Some _ _ _ Hi) as Hlt. split; [lia |].
    rewrite <- Hloop, (drop_S _ _ _ Hi). cbn [Multiprocessing.yields map app].
    rewrite <- Hitems. reflexivity.
  - destruct Hloop as [Hle Hloop].
    destruct (Hres _ _ Hnext) as (batch & Hi & Hitems).
    rewrite <- Hloop, (drop_S _ _ _ Hi). cbn [Multiprocessing.yields map app].
    rewrite <- Hitems. reflexivity.
  - destruct Hloop as [Hle Hloop]. split; [exact Hle |].
    rewrite <- Hloop. cbn [map app Execute.loop]. rewrite Hbody. reflexivity.
  - destruct Hloop as [Hle Hloop].
    rewrite <- Hloop. cbn [map app Execute.loop]. rewrite Hbody. reflexivity.
  - destruct Hloop as [Hle Hloop]. exists (Pool.st c). split; [| reflexivity].
    rewrite <- Hloop, Hend, drop_all. reflexivity.
Qed.

Lemma consistent_reaches (c : Pool.config annotation) :
  Pool.reaches tasks chunksize full dates c -> Pool.consistent tasks chunksize full dates c.
Proof.
  unfold Pool.reaches. revert c. apply rtc_ind_r.
  - apply consistent_start.
  - intros c1 c2 _ Hstep Hc1. eapply consistent_step; eauto.
Qed.

Lemma consistent_steps (c c' : Pool.config annotation) :
  Pool.consistent tasks chunksize full dates c ->
  rtc (Pool.step tasks chunksize full dates) c c' ->
  Pool.consistent tasks chunksize full dates c'.
Proof.
  intros Hc Hsteps. induction Hsteps as [|c1 c2 c3 Hstep _ IH]; [exact Hc |].
  apply IH. eapply consistent_step; eauto.
Qed.

(** The loop can go through the items it has been handed. *)
Lemma pending_can_be_consumed (items : list (Execute.candidate annotation))
    (c : Pool.config annotation) :
  Pool.stat c = Pool.Running ->
  Pool.pending c = items ->
  exists c', rtc (Pool.step tasks chunksize full dates) c c'
             /\ (Pool.ended c'
                 \/ (Pool.stat c' = Pool.Running /\ Pool.pending c' = []
                     /\ Pool.next c' = Pool.next c /\ Pool.results c' = Pool.results c)).
Proof.
  revert c. induction items as [|cand rest IH]; intros c Hrun Hpending.
  - exists c. split; [apply rtc_refl | right; auto].
  - destruct (Execute.body full dates (Pool.st c) cand) as [st' [article|ex]] eqn:Hbody.
    + pose proof (Pool.step_accept_or_reject tasks chunksize full dates
                    c cand rest st' article Hrun Hpending Hbody) as Hstep.
      destruct (IH (Pool.mk_config (Pool.results c) (Pool.next c) rest st' Pool.Running)
                   eq_refl eq_refl) as (c' & Hsteps & Hc').
      exists c'. split; [eapply rtc_l; eauto | exact Hc'].
    + eexists. split.
      * apply rtc_once.
        apply (Pool.step_lookup_error tasks chunksize full dates
                 c cand rest st' ex Hrun Hpending Hbody).
      * left. discriminate.
Qed.

(** However far a run has got, it can be brought to its end. *)
Lemma run_can_end (k : nat) (c : Pool.config annotation) :
  Pool.consistent tasks chunksize full dates c ->
  Pool.stat c = Pool.Running ->
  (length (Pool.batches tasks chunksize) - Pool.next c = k)%nat ->
  exists c', rtc (Pool.step tasks chunksize full dates) c c' /\ Pool.ended c'.
Proof.
  revert c. induction k as [|k IH]; intros c0 Hc0 Hrun0 Hk0;
    destruct (pending_can_be_consumed _ c0 Hrun0 eq_refl)
      as (c & Hsteps0 & [Hended | (Hrun & Hpending & Hnext0 & Hres0)]);
    try (exists c; split; [exact Hsteps0 | exact Hended]);
    pose proof (consistent_steps _ _ Hc0 Hsteps0) as Hc;
    rewrite <- Hnext0 in Hk0.
  - eexists. split.
    + etrans; [exact Hsteps0 |]. apply rtc_once.
      apply (Pool.step_complete tasks chunksize full dates c Hrun Hpending).
      destruct Hc as [_ Hloop]. rewrite Hrun in Hloop. lia.
    + discriminate.
  - destruct (lookup_lt_is_Some_2 (Pool.batches tasks chunksize) (Pool.next c))
      as [batch Hbatch]; [lia |].
    assert (Hwork : exists c1,
               rtc (Pool.step tasks chunksize full dates) c c1
               /\ Pool.results c1 !! Pool.next c
                  = Some (Multiprocessing.mapstar Execute.process batch)
               /\ Pool.next c1 = Pool.next c /\ Pool.pending c1 = []
               /\ Pool.stat c1 = Pool.Running).
    { destruct (Pool.results c !! Pool.next c) as [r|] eqn:Hr.
      - exists c. destruct (proj1 Hc _ _ Hr) as (batch' & Hbatch' & ->).
        rewrite Hbatch in Hbatch'. injection Hbatch' as <-.
        split; [apply rtc_refl | auto].
      - eexists. split;
          [apply rtc_once, (Pool.step_work tasks chunksize full dates c _ _ Hbatch Hr) |].
        cbn. rewrite lookup_insert_eq. auto. }
    destruct Hwork as (c1 & Hsteps & Hres & Hnext & Hpending1 & Hrun1).
    pose proof (consistent_steps _ _ Hc Hsteps) as Hc1.
    rewrite <- Hnext in Hres.
    destruct (Multiprocessing.mapstar Execute.process batch) as [items|ex] eqn:Hitems.
    + pose proof (Pool.step_fetch tasks chunksize full dates c1 items Hrun1 Hpending1 Hres)
        as Hstep.
      destruct (IH _ (consistent_step _ _ Hc1 Hstep) eq_refl) as (c' & Hrest & Hend).
      { cbn. lia. }
      exists c'. split; [| exact Hend].
      etrans; [exact Hsteps0 |]. etrans; [exact Hsteps |]. eapply rtc_l; eauto.
    + eexists. split.
      * etrans; [exact Hsteps0 |]. etrans; [exact Hsteps |].
        apply rtc_once,
          (Pool.step_worker_error tasks chunksize full dates c1 ex Hrun1 Hpending1 Hres).
      * discriminate.
Qed.

End PoolRun.

(** What the loop leaves behind on what the iterator hands over is what
    [run] computes. *)
Lemma run_is_batched `{Externals tokens annotation}
    (rows : list Row.t) (entries : list (string * string))
    (indir url models : string) (full : bool) :
  Pool.batched (Execute.stream rows indir (Execute.models_or_default url models)) 100
               full (Execute.entryDates entries)
  = (fst (Execute.run rows entries indir url models full),
     match snd (Execute.run rows entries indir url models full) with
     | Ok _ => Pool.Finished
     | Raise ex => Pool.Raised ex
     end).
Proof.
  unfold Pool.batched, Pool.batches, Execute.run, Multiprocessing.imap.
  destruct (Execute.loop _ _ _ _) as [s [[]|ex]]; reflexivity.
Qed.

(** A run over a good row and a row on which [process] raises, both in one
    batch: the worker has no result to give for the batch, the iterator
    raises at once and [run] ends with nothing saved, whereas the sequential
    run has saved the first row when it meets the second. *)
Lemma batch_with_failing_row_is_lost :
  Pool.reaches (H := Demo.externals) Demo.failing_tasks 100 true Demo.dates Demo.aborted
  /\ Pool.ended Demo.aborted
  /\ Pool.outcome Demo.aborted = (Execute.init, Pool.Raised ValueError)
  /\ Pool.sequential (H := Demo.externals) Demo.failing_tasks true Demo.dates
     = (Demo.after_row_a, Pool.Raised ValueError)
  /\ Pool.outcome Demo.aborted
     <> Pool.sequential (H := Demo.externals) Demo.failing_tasks true Demo.dates.
Proof.
  assert (Hseq : Pool.sequential (H := Demo.externals) Demo.failing_tasks true Demo.dates
                 = (Demo.after_row_a, Pool.Raised ValueError))
    by (vm_compute; reflexivity).
  split; [| split; [discriminate | split; [reflexivity | split; [exact Hseq |]]]].
  - unfold Pool.reaches. apply (rtc_l _ _ Demo.batch_failed).
    { apply (Pool.step_work Demo.failing_tasks 100 true Demo.dates Pool.start 0
               Demo.failing_tasks); reflexivity. }
    apply rtc_once.
    apply (Pool.step_worker_error Demo.failing_tasks 100 true Demo.dates Demo.batch_failed
             ValueError); vm_compute; reflexivity.
  - rewrite Hseq. intros Heq.
    apply (f_equal (fun o => length (Execute.db (fst o)))) in Heq.
    vm_compute in Heq. discriminate Heq.
Qed.

(** C2, amended.  Whatever the order in which the workers finish their
    batches, a run that has ended has left what the loop leaves on the items
    the iterator hands over in the order of the rows: the same sets of
    accepted ids and hashes, the same calls to the database in the same
    order, the same counter, and the same exception if there is one; and
    every run can be brought to its end.  When [process] raises on no row,
    that is the state of the sequential run of the specification, in which
    [process] is applied to the rows in the order of the input and the
    decision to accept or reject is folded over the candidates.  With the
    batches of 100 of [run], it is what [run] computes. *)
Theorem pool_run_is_sequential_run `{Externals tokens annotation}
    (tasks : list (Row.t * string * string)) (chunksize : nat)
    (full : bool) (dates : gmap string string) :
  (forall c, Pool.reaches tasks chunksize full dates c -> Pool.ended c ->
             Pool.outcome c = Pool.batched tasks chunksize full dates)
  /\ (forall c, Pool.reaches tasks chunksize full dates c ->
                exists c', rtc (Pool.step tasks chunksize full dates) c c' /\ Pool.ended c')
  /\ ((0 < chunksize)%nat ->
      Forall (fun params => exists cand, Execute.process params = Ok cand) tasks ->
      Pool.batched tasks chunksize full dates = Pool.sequential tasks full dates)
  /\ (forall rows entries indir url models,
        tasks = Execute.stream rows indir (Execute.models_or_default url models) ->
        dates = Execute.entryDates entries ->
        chunksize = 100%nat ->
        Pool.batched tasks chunksize full dates
        = (fst (Execute.run rows entries indir url models full),
           match snd (Execute.run rows entries indir url models full) with
           | Ok _ => Pool.Finished
           | Raise ex => Pool.Raised ex
           end)).
Proof.
  split; [| split; [| split]].
  - intros c Hreach Hended. apply consistent_reaches in Hreach as [_ Hloop].
    unfold Pool.outcome, Pool.batched. unfold Pool.ended in Hended.
    destruct (Pool.stat c) as [|ex|]; [contradiction | |].
    + rewrite Hloop. reflexivity.
    + destruct Hloop as (s & -> & ->). reflexivity.
  - intros c Hreach. destruct (Pool.stat c) eqn:Hstat.
    + eapply run_can_end; [apply consistent_reaches, Hreach | exact Hstat | reflexivity].
    + exists c. split; [apply rtc_refl |]. unfold Pool.ended. now rewrite Hstat.
    + exists c. split; [apply rtc_refl |]. unfold Pool.ended. now rewrite Hstat.
  - intros Hpos Hall. unfold Pool.batched, Pool.sequential, Pool.batches.
    fold (Multiprocessing.imap Execute.process tasks chunksize).
    rewrite (imap_all_Ok _ _ _ Hpos Hall), fold_decide_loop.
    destruct (Execute.loop _ _ _ _) as [s [[]|ex]]; reflexivity.
  - intros rows entries indir url models -> -> ->. apply run_is_batched.
Qed.

Lemma pool_run_is_sequential_run_witness :
  Pool.outcome Demo.completed
  = Pool.sequential (H := Demo.externals) Demo.two_tasks true Demo.dates.
Proof.
  destruct (pool_run_is_sequential_run (H := Demo.externals)
              Demo.two_tasks 1 true Demo.dates) as (Hended & _ & Hsequential & _).
  rewrite <- Hsequential.
  - apply Hended; [| discriminate].
    unfold Pool.reaches.
    apply (rtc_l _ _ Demo.second_done).
    { apply (Pool.step_work Demo.two_tasks 1 true Demo.dates Pool.start 1
               [(Demo.row_b, "data", "models")%string]); reflexivity. }
    apply (rtc_l _ _ Demo.both_done).
    { apply (Pool.step_work Demo.two_tasks 1 true Demo.dates Demo.second_done 0
               [(Demo.row_a, "data", "models")%string]); reflexivity. }
    apply (rtc_l _ _ Demo.first_fetched).
    { apply (Pool.step_fetch Demo.two_tasks 1 true Demo.dates Demo.both_done
               [Demo.candidate_of Demo.row_a]); vm_compute; reflexivity. }
    apply (rtc_l _ _ Demo.first_consumed).
    { apply (Pool.step_accept_or_reject Demo.two_tasks 1 true Demo.dates Demo.first_fetched
               (Demo.candidate_of Demo.row_a) [] Demo.after_row_a Demo.saved_row_a);
        vm_compute; reflexivity. }
    apply (rtc_l _ _ Demo.second_fetched).
    { apply (Pool.step_fetch Demo.two_tasks 1 true Demo.dates Demo.first_consumed
               [Demo.candidate_of Demo.row_b]); vm_compute; reflexivity. }
    apply (rtc_l _ _ Demo.second_consumed).
    { apply (Pool.step_accept_or_reject Demo.two_tasks 1 true Demo.dates Demo.second_fetched
               (Demo.candidate_of Demo.row_b) [] Demo.after_row_a
               (snd (fst (Demo.candidate_of Demo.row_b))));
        vm_compute; reflexivity. }
    apply rtc_once.
    apply (Pool.step_complete Demo.two_tasks 1 true Demo.dates Demo.second_consumed);
      reflexivity.
  - lia.
  - repeat constructor; eexists; vm_compute; reflexivity.
Defined.

(* ===================================================================== *)
(** * The link of a document: [getUrl] *)
(* ===================================================================== *)

Lemma filter_all_rejected {A} (p : A -> bool) (l : list A) :
  Forall (fun x => p x = false) l -> List.filter p l = [].
Proof.
  induction 1 as [|x l Hx _ IH]; [reflexivity |].
  cbn [List.filter]. now rewrite Hx.
Qed.

Lemma filter_first_kept {A} (p : A -> bool) (pre post : list A) (x : A) :
  Forall (fun y => p y = false) pre -> p x = true ->
  List.filter p (pre ++ x :: post) = x :: List.filter p post.
Proof.
  intros Hpre Hx. rewrite List.filter_app, (filter_all_rejected _ _ Hpre).
  cbn [List.filter app]. now rewrite Hx.
Qed.

(** X1.  [getUrl] returns the first of the pieces of the url column, cut at
    [; ], that holds no [https://api.]; when the column is empty or every
    piece is such an API link, it returns [https://doi.org/] followed by the
    DOI.  Whatever it returns from the column is a piece without API link. *)
Theorem getUrl_first_link_that_is_no_api_link (row : Row.t) :
  let pieces := Py.split "; " (Row.url row) in
  let doi := String.append "https://doi.org/" (Row.doi row) in
  (Row.url row = EmptyString -> Execute.getUrl row = doi)
  /\ (Forall (fun url => Py.contains "https://api." url = true) pieces ->
      Execute.getUrl row = doi)
  /\ (forall pre url post,
        Row.url row <> EmptyString ->
        pieces = pre ++ url :: post ->
        Forall (fun url' => Py.contains "https://api." url' = true) pre ->
        Py.contains "https://api." url = false ->
        Execute.getUrl row = url)
  /\ (Execute.getUrl row = doi
      \/ (Execute.getUrl row ∈ pieces
          /\ Py.contains "https://api." (Execute.getUrl row) = false)).
Proof.
  intros pieces doi. unfold Execute.getUrl. fold pieces. fold doi.
  repeat split.
  - intros ->. reflexivity.
  - intros Hall. destruct (Py.truthy (Row.url row)); [| reflexivity].
    rewrite filter_all_rejected; [reflexivity |].
    eapply Forall_impl; [exact Hall |]. cbn. now intros url ->.
  - intros pre url post Hne Hpieces Hpre Hurl.
    destruct (Row.url row) as [|c s] eqn:Hrow; [congruence |]. cbn [Py.truthy].
    rewrite Hpieces, filter_first_kept; [reflexivity | | now rewrite Hurl].
    eapply Forall_impl; [exact Hpre |]. cbn. now intros url' ->.
  - destruct (Py.truthy (Row.url row)); [| now left].
    destruct (List.filter _ pieces) as [|url urls] eqn:Hfilter; [now left |].
    right. assert (Hin : In url (List.filter
                                   (fun url => negb (Py.contains "https://api." url)) pieces))
      by (rewrite Hfilter; now left).
    apply List.filter_In in Hin as [Hin Hneg]. split.
    + now apply list_elem_of_In.
    + now apply negb_true_iff in Hneg.
Qed.

Lemma getUrl_first_link_that_is_no_api_link_witness :
  Execute.getUrl
    (Row.mk "uid" "" "PMC" "T" "10.1/x" "" "" "" "" "" ""
            "https://api.elsevier.com/content/1; https://www.example.org/2; https://b.org/3")
  = "https://www.example.org/2"%string
  /\ Execute.getUrl
       (Row.mk "uid" "" "PMC" "T" "10.1/x" "" "" "" "" "" "" "https://api.elsevier.com/content/1")
     = "https://doi.org/10.1/x"%string
  /\ Execute.getUrl (Row.mk "uid" "" "PMC" "T" "10.1/x" "" "" "" "" "" "" "")
     = "https://doi.org/10.1/x"%string.
Proof.
  split; [| split].
  - apply (proj1 (proj2 (proj2 (getUrl_first_link_that_is_no_api_link
             (Row.mk "uid" "" "PMC" "T" "10.1/x" "" "" "" "" "" ""
                "https://api.elsevier.com/content/1; https://www.example.org/2; https://b.org/3"))))
           ["https://api.elsevier.com/content/1"%string] "https://www.example.org/2"%string
           ["https://b.org/3"%string]).
    + discriminate.
    + vm_compute. reflexivity.
    + repeat constructor.
    + vm_compute. reflexivity.
  - apply (proj1 (proj2 (getUrl_first_link_that_is_no_api_link
             (Row.mk "uid" "" "PMC" "T" "10.1/x" "" "" "" "" "" ""
                "https://api.elsevier.com/content/1")))).
    repeat constructor.
  - apply (proj1 (getUrl_first_link_that_is_no_api_link
             (Row.mk "uid" "" "PMC" "T" "10.1/x" "" "" "" "" "" "" ""))).
    reflexivity.
Defined.

(* ===================================================================== *)
(** * The tag: [getTags] *)
(* ===================================================================== *)

Lemma scan_fst_cons `{Externals tokens annotation}
    (name : option string) (text : string) (rest : list Section_.sec) :
  fst (Execute.scan ((name, text) :: rest))
  = if Execute.keyword_match text then Some "COVID-19"%string
    else fst (Execute.scan rest).
Proof.
  cbn [Execute.scan]. destruct (Execute.keyword_match text); [reflexivity |].
  now destruct (Execute.scan rest).
Qed.

(** X2.  [getTags] gives [COVID-19] exactly when the text of some section
    matches a keyword, and [None] exactly when none does; it gives nothing
    else, and the names of the sections play no part.  The match is that
    of [re] on the characters of the text in lower case: white space and
    word characters are those of Unicode. *)
Theorem getTags_tag_iff_some_text_matches `{Externals tokens annotation}
    (sections : list Section_.sec) :
  (Execute.getTags sections = Some "COVID-19"%string
   <-> Exists (fun s => Execute.keyword_match (snd s) = true) sections)
  /\ (Execute.getTags sections = None
      <-> Forall (fun s => Execute.keyword_match (snd s) = false) sections)
  /\ (forall others : list Section_.sec,
        map snd others = map snd sections ->
        Execute.getTags others = Execute.getTags sections).
Proof.
  unfold Execute.getTags. repeat split.
  - induction sections as [|[name text] rest IH]; [discriminate |].
    rewrite scan_fst_cons. destruct (Execute.keyword_match text) eqn:Hm.
    + intros _. now left.
    + intros Hrest. right. now apply IH.
  - induction 1 as [[name text] rest Hm|[name text] rest _ IH];
      rewrite scan_fst_cons.
    + cbn [snd] in Hm. now rewrite Hm.
    + destruct (Execute.keyword_match text); [reflexivity | exact IH].
  - induction sections as [|[name text] rest IH]; [constructor |].
    rewrite scan_fst_cons. destruct (Execute.keyword_match text) eqn:Hm; [discriminate |].
    intros Hrest. constructor; [exact Hm | now apply IH].
  - induction 1 as [|[name text] rest Hm _ IH]; [reflexivity |].
    rewrite scan_fst_cons. cbn [snd] in Hm. now rewrite Hm.
  - intros others. revert sections. induction others as [|[name text] others IH];
      intros [|[name' text'] sections] Hmap; try discriminate; [reflexivity |].
    cbn [map snd] in Hmap. injection Hmap as -> Hmap.
    rewrite !scan_fst_cons. destruct (Execute.keyword_match text'); [reflexivity |].
    now apply IH.
Qed.

Lemma getTags_tag_iff_some_text_matches_witness :
  Execute.getTags (H := Demo.externals)
                  [(Some "TITLE", "Mice"); (None, "On SARS-CoV-2")]%string
  = Some "COVID-19"%string
  /\ Execute.getTags (H := Demo.externals)
                     [(Some "TITLE", "Mice"); (None, "covids")]%string = None
  /\ Execute.getTags (H := Demo.externals)
                     [(None, String.append "sars" (String.append Cases.nbsp "cov2"))]
     = Some "COVID-19"%string
  /\ Execute.getTags (H := Demo.externals) [(None, String.append Cases.e_acute "covid")]
     = None.
Proof.
  split; [| split; [| split]].
  - apply (proj2 (proj1 (getTags_tag_iff_some_text_matches (H := Demo.externals)
                           [(Some "TITLE", "Mice"); (None, "On SARS-CoV-2")]%string))).
    right. left. vm_compute. reflexivity.
  - apply (proj2 (proj1 (proj2 (getTags_tag_iff_some_text_matches (H := Demo.externals)
                                  [(Some "TITLE", "Mice"); (None, "covids")]%string)))).
    repeat constructor.
  - apply (proj2 (proj1 (getTags_tag_iff_some_text_matches (H := Demo.externals)
                           [(None, String.append "sars" (String.append Cases.nbsp "cov2"))]))).
    left. vm_compute. reflexivity.
  - apply (proj2 (proj1 (proj2 (getTags_tag_iff_some_text_matches (H := Demo.externals)
                                  [(None, String.append Cases.e_acute "covid")])))).
    repeat constructor.
Defined.

(** The characters of an ASCII text in lower case. *)
Lemma lower_chars_ascii (lower : list Z -> list Z) (s : string) :
  Py.forall_string (fun c => Py.code c <? 128) s = true ->
  Py.lower_chars lower (Py.chars s)
  = map (fun c => if (65 <=? c) && (c <=? 90) then c + 32 else c)
        (map Py.code (list_ascii_of_string s)).
Proof.
  intros Hs. rewrite (chars_ascii s Hs). unfold Py.lower_chars.
  assert (Hall : forallb (fun c => c <? 128) (map Py.code (list_ascii_of_string s)) = true).
  { induction s as [|c s IH]; [reflexivity |].
    cbn [Py.forall_string] in Hs. apply andb_true_iff in Hs as [Hc Hs].
    cbn [list_ascii_of_string map forallb]. now rewrite Hc, (IH Hs). }
  now rewrite Hall.
Qed.

(** Changing the case of the letters of an ASCII text changes nothing to
    its characters in lower case. *)
Lemma lower_chars_case (lower : list Z -> list Z) (f : ascii -> ascii) (s : string) :
  (forall c, (Py.code c <? 128) = true -> (Py.code (f c) <? 128) = true) ->
  (forall c, (if (65 <=? Py.code (f c)) && (Py.code (f c) <=? 90)
              then Py.code (f c) + 32 else Py.code (f c))
             = (if (65 <=? Py.code c) && (Py.code c <=? 90)
                then Py.code c + 32 else Py.code c)) ->
  Py.forall_string (fun c => Py.code c <? 128) s = true ->
  Py.lower_chars lower (Py.chars (Py.map_string f s)) = Py.lower_chars lower (Py.chars s).
Proof.
  intros Hascii Hcase Hs.
  assert (Hfs : Py.forall_string (fun c => Py.code c <? 128) (Py.map_string f s) = true).
  { induction s as [|c s IH]; [reflexivity |].
    cbn [Py.forall_string] in Hs. apply andb_true_iff in Hs as [Hc Hs].
    cbn [Py.map_string Py.forall_string]. now rewrite (Hascii c Hc), (IH Hs). }
  rewrite (lower_chars_ascii lower _ Hfs), (lower_chars_ascii lower _ Hs).
  clear Hs Hfs. induction s as [|c s IH]; [reflexivity |].
  cbn [Py.map_string list_ascii_of_string map]. now rewrite Hcase, IH.
Qed.

Lemma upper_case (lower : list Z -> list Z) (s : string) :
  Py.forall_string (fun c => Py.code c <? 128) s = true ->
  Py.lower_chars lower (Py.chars (Py.upper s)) = Py.lower_chars lower (Py.chars s).
Proof.
  apply lower_chars_case; intros c;
    destruct c as [[] [] [] [] [] [] [] []]; vm_compute; congruence.
Qed.

Lemma lower_case (lower : list Z -> list Z) (s : string) :
  Py.forall_string (fun c => Py.code c <? 128) s = true ->
  Py.lower_chars lower (Py.chars (Py.lower s)) = Py.lower_chars lower (Py.chars s).
Proof.
  apply lower_chars_case; intros c;
    destruct c as [[] [] [] [] [] [] [] []]; vm_compute; congruence.
Qed.

(** X3.  On ASCII text the keyword search does not see the case of the
    letters: a text, the text in upper case and the text in lower case
    match alike, and so do two lists of sections whose texts differ by case
    only. *)
Theorem keyword_match_ignores_case `{Externals tokens annotation}
    (text : string) (sections : list Section_.sec) :
  (Py.forall_string (fun c => Py.code c <? 128) text = true ->
   Execute.keyword_match (Py.upper text) = Execute.keyword_match text
   /\ Execute.keyword_match (Py.lower text) = Execute.keyword_match text)
  /\ (Forall (fun s => Py.forall_string (fun c => Py.code c <? 128) (snd s) = true) sections ->
      Execute.getTags (map (fun s => (fst s, Py.upper (snd s))) sections)
      = Execute.getTags sections).
Proof.
  split.
  - intros Htext. unfold Execute.keyword_match.
    now rewrite (upper_case _ _ Htext), (lower_case _ _ Htext).
  - unfold Execute.getTags.
    induction 1 as [|[name text'] rest Htext _ IH]; [reflexivity |].
    cbn [map fst snd] in *. rewrite !scan_fst_cons.
    unfold Execute.keyword_match at 1. rewrite (upper_case _ _ Htext).
    fold (Execute.keyword_match text'). now rewrite IH.
Qed.

Lemma keyword_match_ignores_case_witness :
  (Execute.keyword_match (H := Demo.externals) (Py.upper "On SARS-CoV-2")
   = Execute.keyword_match (H := Demo.externals) "On SARS-CoV-2"
   /\ Execute.keyword_match (H := Demo.externals) (Py.lower "On SARS-CoV-2")
      = Execute.keyword_match (H := Demo.externals) "On SARS-CoV-2")
  /\ Execute.getTags (H := Demo.externals)
                     (map (fun s => (fst s, Py.upper (snd s)))
                          [(Some "TITLE", "Mice"); (None, "the 2019-nCoV.")]%string)
     = Execute.getTags (H := Demo.externals)
                       [(Some "TITLE", "Mice"); (None, "the 2019-nCoV.")]%string.
Proof.
  split.
  - apply (proj1 (keyword_match_ignores_case (H := Demo.externals) "On SARS-CoV-2" [])).
    reflexivity.
  - apply (proj2 (keyword_match_ignores_case (H := Demo.externals)
                    "" [(Some "TITLE", "Mice"); (None, "the 2019-nCoV.")]%string)).
    repeat constructor.
Defined.

(* ===================================================================== *)
(** * The entry dates: [entryDates] *)
(* ===================================================================== *)

Lemma entryDates_snoc (entries : list (string * string)) (sha date : string) :
  Execute.entryDates (entries ++ [(sha, date)]) = <[sha := date]> (Execute.entryDates entries).
Proof. unfold Execute.entryDates. now rewrite fold_left_app. Qed.

Lemma entryDates_lookup_elem (entries : list (string * string)) (sha date : string) :
  Execute.entryDates entries !! sha = Some date -> (sha, date) ∈ entries.
Proof.
  induction entries as [|[k v] entries IH] using rev_ind.
  - unfold Execute.entryDates. cbn. now rewrite lookup_empty.
  - rewrite entryDates_snoc. destruct (decide (k = sha)) as [->|Hne].
    + rewrite lookup_insert_eq. intros [= ->]. apply elem_of_app. right. now left.
    + rewrite lookup_insert_ne by exact Hne. intros Hin. apply elem_of_app. left. now apply IH.
Qed.

Lemma entryDates_last_row (pre post : list (string * string)) (sha date : string) :
  sha ∉ map fst post ->
  Execute.entryDates (pre ++ (sha, date) :: post) !! sha = Some date.
Proof.
  induction post as [|[k v] post IH] using rev_ind; intros Hnot.
  - rewrite entryDates_snoc. apply lookup_insert_eq.
  - replace (pre ++ (sha, date) :: post ++ [(k, v)])
      with ((pre ++ (sha, date) :: post) ++ [(k, v)]) by now rewrite <- app_assoc.
    rewrite entryDates_snoc. rewrite map_app in Hnot. cbn [map fst] in Hnot.
    rewrite lookup_insert_ne.
    + apply IH. intros Hin. apply Hnot, elem_of_app. now left.
    + intros ->. apply Hnot, elem_of_app. right. now left.
Qed.

(** X4.  The date [entryDates] keeps for a hash is the date of the last row
    of the entry file with that hash; a hash has a date exactly when some
    row carries it, and every date kept is the date of a row. *)
Theorem entryDates_keeps_last_row (entries : list (string * string)) (sha : string) :
  (forall pre date post,
     entries = pre ++ (sha, date) :: post -> sha ∉ map fst post ->
     Execute.entryDates entries !! sha = Some date)
  /\ (is_Some (Execute.entryDates entries !! sha) <-> sha ∈ map fst entries)
  /\ (forall date, Execute.entryDates entries !! sha = Some date -> (sha, date) ∈ entries).
Proof.
  repeat split.
  - intros pre date post -> Hnot. now apply entryDates_last_row.
  - intros [date Hdate]. apply entryDates_lookup_elem in Hdate.
    apply list_elem_of_fmap. now exists (sha, date).
  - intros Hin. destruct (Execute.entryDates entries !! sha) as [date|] eqn:Hlook; [eauto |].
    exfalso. revert Hlook. clear -Hin.
    induction entries as [|[k v] entries IH] using rev_ind.
    + now apply elem_of_nil in Hin.
    + rewrite entryDates_snoc. rewrite map_app in Hin. cbn [map fst] in Hin.
      destruct (decide (k = sha)) as [->|Hne].
      * now rewrite lookup_insert_eq.
      * rewrite lookup_insert_ne by exact Hne.
        apply elem_of_app in Hin as [Hin|Hin]; [now apply IH |].
        apply list_elem_of_singleton in Hin. congruence.
  - apply entryDates_lookup_elem.
Qed.

Lemma entryDates_keeps_last_row_witness :
  Execute.entryDates [("aaaa", "2020-03-10"); ("bbbb", "2020-03-11"); ("aaaa", "2020-05-01")]%string
    !! "aaaa"%string
  = Some "2020-05-01"%string.
Proof.
  apply (proj1 (entryDates_keeps_last_row
                  [("aaaa", "2020-03-10"); ("bbbb", "2020-03-11"); ("aaaa", "2020-05-01")]%string
                  "aaaa"%string)
           [("aaaa", "2020-03-10"); ("bbbb", "2020-03-11")]%string "2020-05-01"%string []).
  - reflexivity.
  - cbn. apply not_elem_of_nil.
Defined.

(* ===================================================================== *)
(** * What [process] hands over *)
(* ===================================================================== *)

Lemma scan_fst_values `{Externals tokens annotation} (sections : list Section_.sec) :
  fst (Execute.scan sections) = None \/ fst (Execute.scan sections) = Some "COVID-19"%string.
Proof.
  induction sections as [|[name text] rest IH]; [now left |].
  rewrite scan_fst_cons. destruct (Execute.keyword_match text); [now right | exact IH].
Qed.

Lemma classify_values `{Externals tokens annotation}
    (sections : list Section_.sec) (date : option datetime)
    (tags : option string) (seen : list string) :
  Execute.classify sections date = Ok (tags, seen) ->
  tags = None \/ tags = Some "COVID-19"%string.
Proof.
  unfold Execute.classify, mbind, result_bind.
  pose proof (scan_fst_values sections) as Hscan.
  destruct date as [d|].
  - destruct (datetime_ge d (date_of 2019 7 1)) as [[]|]; [| | discriminate].
    + intros [= Heq]. now rewrite Heq in Hscan.
    + intros [= <- _]. now left.
  - intros [= Heq]. now rewrite Heq in Hscan.
Qed.

Lemma rmap_imap_Forall2 {A B} (F : nat * A -> result B) (R : A -> B -> Prop)
    (g : nat -> nat) (l : list A) (l' : list B) :
  (forall x a b, F (x, a) = Ok b -> R a b) ->
  rmap F (imap (fun x a => (g x, a)) l) = Ok l' -> Forall2 R l l'.
Proof.
  intros HF. revert g l'. induction l as [|a l IH]; intros g l'; cbn [imap rmap].
  - intros [= <-]. constructor.
  - unfold mbind, result_bind.
    destruct (F (g O, a)) as [b|] eqn:Hb; [| discriminate].
    destruct (rmap F _) as [bs|] eqn:Hbs; [| discriminate].
    intros [= <-]. constructor; [eapply HF, Hb |].
    apply (IH (fun x => g (S x))). exact Hbs.
Qed.

Lemma Forall2_map_fst {A B C} (l : list (A * B)) (l' : list (A * C)) :
  Forall2 (fun a b => fst b = fst a) l l' -> map fst l' = map fst l.
Proof. induction 1 as [|a b l l' Hab _ IH]; [reflexivity |]. cbn [map]. now rewrite Hab, IH. Qed.

Lemma Forall2_map_proj {A B} (l : list A) (l' : list (A * B)) :
  Forall2 (fun a b => fst b = a) l l' -> map fst l' = l.
Proof. induction 1 as [|a b l l' Hab _ IH]; [reflexivity |]. cbn [map]. now rewrite Hab, IH. Qed.

(** What a result of [process] is made of. *)
Lemma process_Ok `{Externals tokens annotation} (row : Row.t) (indir models : string)
    (sha : string) (article : Article.t annotation) (cite : option (list key)) :
  Execute.process (row, indir, models) = Ok (sha, article, cite) ->
  exists sections titles tags seen design size sample method,
    snd (Section_.parse row indir) = Ok (sections, titles)
    /\ Execute.classify sections (Execute.getDate row) = Ok (tags, seen)
    /\ sha = Execute.getHash row
    /\ Article.metadata article
       = Article.mk_metadata (Row.cord_uid row) (Row.source_x row) (Execute.getDate row)
           (Row.journal row) (Row.authors row) (Row.title row) tags design size sample
           method (Execute.getUrl row) None
    /\ map fst (Article.sections article) = sections
    /\ (Execute.truthy_tags tags = true -> cite = Some titles)
    /\ (Execute.truthy_tags tags = false ->
        design = None /\ size = None /\ sample = None /\ method = None /\ cite = None
        /\ Forall (fun s => snd s = None) (Article.sections article)).
Proof.
  unfold Execute.process. unfold mbind, result_bind.
  destruct (snd (Section_.parse row indir)) as [[sections titles]|] eqn:Hparse;
    [| discriminate].
  destruct (Execute.classify sections (Execute.getDate row)) as [[tags seen]|] eqn:Htags;
    [| discriminate].
  destruct (Execute.truthy_tags tags) eqn:Htruthy.
  - destruct (Grammar_parse (map snd sections)) as [tokenslist|]; [| discriminate].
    destruct (rmap _ (Execute.enumerate sections)) as [with_tokens|] eqn:Hwith;
      [| discriminate].
    destruct (Study_parse with_tokens models)
      as [[[[[design size] sample] method] labels]|]; [| discriminate].
    destruct (rmap _ (Execute.enumerate with_tokens)) as [labelled|] eqn:Hlabelled;
      [| discriminate].
    intros Hret. injection Hret as <- <- <-.
    exists sections, titles, tags, seen, design, size, sample, method.
    split; [reflexivity |]. split; [exact Htags |]. do 2 (split; [reflexivity |]). split; [| split; [intros _; reflexivity | congruence]].
    cbn [Article.sections].
    apply (rmap_imap_Forall2 _ (fun a b => fst b = a) (fun x => x)) in Hwith.
    + apply (rmap_imap_Forall2 _ (fun a b => fst b = fst a) (fun x => x)) in Hlabelled.
      * apply Forall2_map_fst in Hlabelled. apply Forall2_map_proj in Hwith. congruence.
      * intros x [[name text] toks] b. unfold mbind, result_bind.
        destruct (Execute.index labels x) as [[l|]|]; [| | discriminate].
        -- now intros [= <-].
        -- destruct (Grammar_label toks); [now intros [= <-] | discriminate].
    + intros x [name text] b. unfold mbind, result_bind.
      destruct (Execute.index tokenslist x); [now intros [= <-] | discriminate].
  - intros Hret. injection Hret as <- <- <-.
    exists sections, titles, tags, seen, None, None, None, None.
    split; [reflexivity |]. split; [exact Htags |]. do 2 (split; [reflexivity |]). cbn [Article.sections].
    split; [| split; [congruence | intros _; do 5 (split; [reflexivity |])]].
    + clear. induction sections as [|[name text] rest IH]; [reflexivity |].
      cbn [map fst]. now rewrite IH.
    + clear. induction sections as [|[name text] rest IH]; constructor; [reflexivity | exact IH].
Qed.

(** X5.  The candidate [process] returns for a row carries the hash
    [getHash] gives for the row and, in its metadata, the columns of the row
    as they are: the record identifier, the source, the journal, the authors
    and the title; the date is that of [getDate], the link that of [getUrl],
    no entry date is set yet, and the tag is [COVID-19] or none. *)
Theorem process_copies_the_row `{Externals tokens annotation}
    (row : Row.t) (indir models : string)
    (sha : string) (article : Article.t annotation) (cite : option (list key)) :
  Execute.process (row, indir, models) = Ok (sha, article, cite) ->
  sha = Execute.getHash row
  /\ Article.uid article = Row.cord_uid row
  /\ Article.source (Article.metadata article) = Row.source_x row
  /\ Article.published (Article.metadata article) = Execute.getDate row
  /\ Article.publication (Article.metadata article) = Row.journal row
  /\ Article.authors (Article.metadata article) = Row.authors row
  /\ Article.title (Article.metadata article) = Row.title row
  /\ Article.reference (Article.metadata article) = Execute.getUrl row
  /\ Article.entry (Article.metadata article) = None
  /\ (Article.tags article = None \/ Article.tags article = Some "COVID-19"%string).
Proof.
  intros (sections & titles & tags & seen & design & size & sample & method
          & _ & Htags & -> & Hmeta & _)%process_Ok.
  unfold Article.uid, Article.tags. rewrite Hmeta. cbn.
  repeat split. eapply classify_values, Htags.
Qed.

Lemma process_copies_the_row_witness :
  Article.uid (snd (fst (Demo.candidate_of Demo.row_a))) = "uid-a"%string
  /\ fst (fst (Demo.candidate_of Demo.row_a)) = "aaaa"%string.
Proof.
  destruct (process_copies_the_row (H := Demo.externals) Demo.row_a "data" "models"
              (fst (fst (Demo.candidate_of Demo.row_a)))
              (snd (fst (Demo.candidate_of Demo.row_a)))
              (snd (Demo.candidate_of Demo.row_a)))
    as (Hsha & Huid & _).
  - vm_compute. reflexivity.
  - split; [exact Huid | exact Hsha].
Defined.

(** X6.  The sections of the article [process] returns are the sections
    [Section.parse] gave for the row, one for one and in the same order,
    each with its name and text unchanged; for a row without tag every label
    and every study field is [None] and no citation is handed over, and for
    a tagged row the citations are those of [Section.parse]. *)
Theorem process_keeps_the_sections `{Externals tokens annotation}
    (row : Row.t) (indir models : string)
    (sha : string) (article : Article.t annotation) (cite : option (list key)) :
  Execute.process (row, indir, models) = Ok (sha, article, cite) ->
  exists sections titles,
    snd (Section_.parse row indir) = Ok (sections, titles)
    /\ map fst (Article.sections article) = sections
    /\ (Article.tags article = Some "COVID-19"%string -> cite = Some titles)
    /\ (Article.tags article = None ->
        cite = None
        /\ Forall (fun s => snd s = None) (Article.sections article)
        /\ Article.design (Article.metadata article) = None
        /\ Article.size (Article.metadata article) = None
        /\ Article.sample (Article.metadata article) = None
        /\ Article.method (Article.metadata article) = None).
Proof.
  intros (sections & titles & tags & seen & design & size & sample & method
          & Hparse & _ & _ & Hmeta & Hsections & Htagged & Hnone)%process_Ok.
  exists sections, titles. unfold Article.tags. rewrite Hmeta. cbn.
  split; [exact Hparse |]. split; [exact Hsections |]. split.
  - intros ->. now apply Htagged.
  - intros ->. destruct Hnone as (-> & -> & -> & -> & -> & Hlabels); [reflexivity |].
    repeat split. exact Hlabels.
Qed.

Lemma process_keeps_the_sections_witness :
  exists sections titles,
    snd (Section_.parse (H := Demo.externals) Demo.row_c "data") = Ok (sections, titles)
    /\ map fst (Article.sections (snd (fst (Demo.candidate_of Demo.row_c)))) = sections
    /\ (Article.tags (snd (fst (Demo.candidate_of Demo.row_c))) = Some "COVID-19"%string ->
        snd (Demo.candidate_of Demo.row_c) = Some titles)
    /\ (Article.tags (snd (fst (Demo.candidate_of Demo.row_c))) = None ->
        snd (Demo.candidate_of Demo.row_c) = None
        /\ Forall (fun s => snd s = None)
                  (Article.sections (snd (fst (Demo.candidate_of Demo.row_c))))
        /\ Article.design (Article.metadata (snd (fst (Demo.candidate_of Demo.row_c)))) = None
        /\ Article.size (Article.metadata (snd (fst (Demo.candidate_of Demo.row_c)))) = None
        /\ Article.sample (Article.metadata (snd (fst (Demo.candidate_of Demo.row_c)))) = None
        /\ Article.method (Article.metadata (snd (fst (Demo.candidate_of Demo.row_c)))) = None).
Proof.
  apply (process_keeps_the_sections (H := Demo.externals) Demo.row_c "data" "models"
           (fst (fst (Demo.candidate_of Demo.row_c)))).
  vm_compute. reflexivity.
Defined.

Lemma parse_Raise `{Externals tokens annotation} (row : Row.t) (directory : string) (ex : exn) :
  snd (Section_.parse row directory) = Raise ex -> ex = TypeError.
Proof.
  unfold Section_.parse. cbn [snd]. unfold Section_.filtered, mbind, result_bind.
  destruct (rmap Json.hash_key _) as [titles|ex'] eqn:Htitles; [discriminate |].
  intros [= <-]. apply rmap_Raise in Htitles as (v & _ & Hv).
  eapply hash_key_Raise, Hv.
Qed.

(** X7.  When the date of a row carries a time zone, [process] raises
    [TypeError]: the date cannot be compared with the first of July 2019,
    which has none. *)
Theorem process_aware_date_raises `{Externals tokens annotation}
    (row : Row.t) (indir models : string) (d : datetime) (offset : Z) :
  Execute.getDate row = Some d ->
  tzinfo d = Some offset ->
  Execute.process (row, indir, models) = Raise TypeError.
Proof.
  intros Hdate Hzone. unfold Execute.process. unfold mbind, result_bind.
  destruct (snd (Section_.parse row indir)) as [[sections titles]|ex] eqn:Hparse.
  - rewrite Hdate, (classify_aware_raises sections d offset Hzone). reflexivity.
  - now rewrite (parse_Raise _ _ _ Hparse).
Qed.

Lemma process_aware_date_raises_witness :
  Execute.process (H := Cases.utc) (Demo.row_a, "data", "models")%string = Raise TypeError.
Proof.
  apply (process_aware_date_raises (H := Cases.utc) Demo.row_a "data" "models"
           (mk_datetime 2020 3 1 0 0 0 0 (Some 0)) 0).
  - vm_compute. reflexivity.
  - reflexivity.
Defined.

Lemma rmap_imap_short {A B T} (F : nat * A -> result B) (tl : list T) (l : list A) :
  (forall x a, (x < length tl)%nat -> exists b, F (x, a) = Ok b) ->
  (forall x a, (length tl <= x)%nat -> F (x, a) = Raise IndexError) ->
  forall (k : nat) (g : nat -> nat),
    (forall x, g x = (k + x)%nat) ->
    (k <= length tl)%nat ->
    (length tl < k + length l)%nat ->
    rmap F (imap (fun x a => (g x, a)) l) = Raise IndexError.
Proof.
  intros Hin Hout. induction l as [|a l IH]; intros k g Hg Hk Hlen; cbn [length] in Hlen.
  - lia.
  - cbn [imap rmap]. unfold mbind, result_bind.
    destruct (decide (g O < length tl)%nat) as [Hlt|Hge].
    + destruct (Hin (g O) a Hlt) as [b ->].
      assert (Hrest : rmap F (imap ((fun x a => (g x, a)) ∘ S) l) = Raise IndexError).
      { apply (IH (S k) (fun x => g (S x))).
        - intros x. rewrite Hg. lia.
        - rewrite Hg in Hlt. lia.
        - lia. }
      now rewrite Hrest.
    + rewrite Hout by lia. reflexivity.
Qed.

(** X8.  When the grammar hands back fewer token lists than the tagged row
    has sections, [process] raises [IndexError]. *)
Theorem process_short_token_list_raises `{Externals tokens annotation}
    (row : Row.t) (indir models : string)
    (sections : list Section_.sec) (titles : list key)
    (tags : option string) (seen : list string) (tokenslist : list tokens) :
  snd (Section_.parse row indir) = Ok (sections, titles) ->
  Execute.classify sections (Execute.getDate row) = Ok (tags, seen) ->
  Execute.truthy_tags tags = true ->
  Grammar_parse (map snd sections) = Ok tokenslist ->
  (length tokenslist < length sections)%nat ->
  Execute.process (row, indir, models) = Raise IndexError.
Proof.
  intros Hparse Htags Htruthy Hgrammar Hshort.
  unfold Execute.process. unfold mbind, result_bind.
  rewrite Hparse, Htags, Htruthy, Hgrammar.
  unfold Execute.enumerate at 1.
  rewrite (rmap_imap_short _ tokenslist sections) with (k := O) (g := fun x => x);
    [reflexivity | | | reflexivity | lia | exact Hshort].
  - intros x [name text] Hx. unfold Execute.index.
    destruct (lookup_lt_is_Some_2 tokenslist x Hx) as [toks ->]. eauto.
  - intros x [name text] Hx. unfold Execute.index.
    now rewrite (lookup_ge_None_2 tokenslist x Hx).
Qed.

Lemma process_short_token_list_raises_witness :
  Execute.process (H := Cases.first_text_only) (Demo.row_a, "data", "models")%string
  = Raise IndexError.
Proof.
  apply (process_short_token_list_raises (H := Cases.first_text_only)
           Demo.row_a "data" "models"
           [(Some "TITLE", "A study");
            (Some "INTRODUCTION", "The outbreak of COVID-19 began.");
            (Some "TABREF0", "cases per day")]%string
           [KStr "Paper A"; KStr "Paper B"]
           (Some "COVID-19"%string)
           ["A study"; "The outbreak of COVID-19 began."]%string
           ["A study"%string]).
  - vm_compute. reflexivity.
  - vm_compute. reflexivity.
  - reflexivity.
  - vm_compute. reflexivity.
  - cbn. lia.
Defined.

(* ===================================================================== *)
(** * The calls [run] makes on the database *)
(* ===================================================================== *)

(** The calls the database has received when [run] is over. *)
Lemma run_db `{Externals tokens annotation}
    (rows : list Row.t) (entries : list (string * string))
    (indir url models : string) (full : bool) :
  let dates := Execute.entryDates entries in
  let results := Multiprocessing.imap Execute.process
                   (Execute.stream rows indir (Execute.models_or_default url models)) 100 in
  let saves := map (Execute.saved_as dates) (Execute.accepted full dates Execute.init results) in
  match Execute.run rows entries indir url models full with
  | (st, Ok _) =>
      Execute.db st = saves ++ [Execute.Complete (map_to_list (Execute.citations st));
                                Execute.Close]
      /\ (forall t n, Execute.citations st !! t = Some n -> (0 < n)%nat)
  | (st, Raise ex) => Execute.db st = saves
  end.
Proof.
  intros dates results saves. unfold Execute.run. fold dates. fold results.
  destruct (Execute.loop full dates Execute.init results) as [st [[]|ex]] eqn:Hloop.
  - pose proof (loop_accepted _ _ _ _ _ _ Hloop) as (Hdb & _).
    cbn [Execute.complete Execute.db Execute.citations]. rewrite Hdb.
    cbn [Execute.init Execute.db app]. split; [reflexivity |].
    apply (loop_counter_positive _ _ _ _ _ _ Hloop).
    intros t m. cbn [Execute.init Execute.citations]. now rewrite lookup_empty.
  - pose proof (loop_accepted _ _ _ _ _ _ Hloop) as (Hdb & _). exact Hdb.
Qed.




(** A database whose [complete] raises, as the one of [Elastic] does on the
    list it is handed: the run saves as it would at a database that
    returns, calls [complete], and raises without a call of [close].  A
    database that refuses the second document: the run stops there, and
    neither [complete] nor [close] is called.  A database whose [close]
    raises: the run raises after all its calls. *)
Example run_at_databases_that_raise :
  let reliable := Execute.run (H := Demo.externals) Demo.rows Demo.entries
                              "data" "url" "models" true in
  let calls base := Execute.db (fst (Execute.run_on (H := Demo.externals) base Demo.rows
                                       Demo.entries "data" "url" "models" true)) in
  let raised base := snd (Execute.run_on (H := Demo.externals) base Demo.rows
                            Demo.entries "data" "url" "models" true) in
  snd reliable = Ok tt
  /\ length (Execute.db (fst reliable)) = 5%nat
  /\ raised Cases.no_items = Raise AttributeError
  /\ calls Cases.no_items = take 4 (Execute.db (fst reliable))
  /\ raised Cases.one_document = Raise OSError
  /\ calls Cases.one_document = take 2 (Execute.db (fst reliable))
  /\ raised Cases.no_close = Raise OSError
  /\ calls Cases.no_close = Execute.db (fst reliable).
Proof. vm_compute. repeat split; reflexivity. Qed.

Lemma Forall2_sublist_r {A B} (R : A -> B -> Prop) (xs : list A) (cs sub : list B) :
  Forall2 R xs cs -> sublist sub cs ->
  exists xs', sublist xs' xs /\ Forall2 R xs' sub.
Proof.
  intros HF. revert sub. induction HF as [|x c xs cs Hxc _ IH]; intros sub Hsub.
  - apply sublist_nil_r in Hsub as ->. exists []. split; constructor.
  - apply sublist_cons_r in Hsub as [Hsub|(sub' & -> & Hsub)].
    + destruct (IH _ Hsub) as (xs' & Hxs' & HF'). exists xs'. split; [| exact HF'].
      now apply sublist_cons.
    + destruct (IH _ Hsub) as (xs' & Hxs' & HF'). exists (x :: xs'). split.
      * now apply sublist_skip.
      * now constructor.
Qed.

(** The items the iterator hands over are the results of the first tasks,
    in order, followed by at most one exception. *)
Lemma yields_prefix {A B} (func : A -> result B) (batches : list (list A)) :
  exists xs cs,
    xs `prefix_of` concat batches
    /\ Forall2 (fun x c => func x = Ok c) xs cs
    /\ (Multiprocessing.yields func batches = map Ok cs
        \/ exists ex, Multiprocessing.yields func batches = map Ok cs ++ [Raise ex]).
Proof.
  induction batches as [|batch rest IH]; cbn [Multiprocessing.yields concat].
  - exists [], []. repeat split; [apply prefix_nil | constructor | now left].
  - unfold Multiprocessing.mapstar. destruct (rmap func batch) as [items|ex] eqn:Hitems.
    + destruct IH as (xs & cs & Hprefix & HF & Hshape).
      exists (batch ++ xs), (items ++ cs). repeat split.
      * now apply prefix_app.
      * apply Forall2_app; [now apply rmap_Ok | exact HF].
      * rewrite map_app. destruct Hshape as [->|[ex ->]]; [now left |].
        right. exists ex. now rewrite app_assoc.
    + exists [], []. repeat split; [apply prefix_nil | constructor |].
      right. now exists ex.
Qed.

Lemma accepted_sublist `{Externals tokens annotation} (full : bool) (dates : gmap string string)
    (cs : list (Execute.candidate annotation))
    (tail : list (result (Execute.candidate annotation))) (st : Execute.state annotation) :
  (tail = [] \/ exists ex, tail = [Raise ex]) ->
  sublist (Execute.accepted full dates st (map Ok cs ++ tail)) cs.
Proof.
  intros Htail. revert st. induction cs as [|c cs IH]; intros st; cbn [map app].
  - destruct Htail as [->|[ex ->]]; constructor.
  - cbn [Execute.accepted]. destruct (Execute.body full dates st c) as [st' [a|ex]].
    + destruct (Execute.accepts full st c); cbn [app].
      * apply sublist_skip, IH.
      * apply sublist_cons, IH.
    + apply sublist_nil_l.
Qed.

(** X10.  The documents [run] accepts are results of [process] on rows of
    the metadata file, at most one for a row and in the order of the rows. *)
Theorem accepted_documents_follow_the_rows `{Externals tokens annotation}
    (rows : list Row.t) (entries : list (string * string))
    (indir url models : string) (full : bool) :
  let models' := Execute.models_or_default url models in
  let acc := Execute.accepted full (Execute.entryDates entries) Execute.init
               (Multiprocessing.imap Execute.process (Execute.stream rows indir models') 100) in
  exists kept : list Row.t,
    sublist kept rows
    /\ Forall2 (fun row c => Execute.process (row, indir, models') = Ok c) kept acc
    /\ (length acc <= length rows)%nat.
Proof.
  intros models' acc. subst acc.
  unfold Multiprocessing.imap, Multiprocessing.get_tasks.
  destruct (yields_prefix Execute.process
              (Multiprocessing.get_tasks_aux (length (Execute.stream rows indir models')) 100
                 (Execute.stream rows indir models')))
    as (xs & cs & Hprefix & HF & Hshape).
  rewrite concat_get_tasks_aux in Hprefix by lia.
  destruct Hprefix as [rest Hrest].
  assert (Hxs : exists first, xs = map (fun row => (row, indir, models')) first
                              /\ sublist first rows).
  { unfold Execute.stream in Hrest. exists (take (length xs) rows). split.
    - apply (f_equal (take (length xs))) in Hrest.
      rewrite take_app_length in Hrest.
      change (xs = (fun row => (row, indir, models')) <$> take (length xs) rows).
      rewrite fmap_take. symmetry. exact Hrest.
    - apply sublist_take. }
  destruct Hxs as (first & -> & Hfirst).
  assert (Hsub : sublist (Execute.accepted full (Execute.entryDates entries) Execute.init
                            (Multiprocessing.yields Execute.process
                               (Multiprocessing.get_tasks_aux
                                  (length (Execute.stream rows indir models')) 100
                                  (Execute.stream rows indir models')))) cs).
  { destruct Hshape as [->|[ex ->]].
    - rewrite <- (app_nil_r (map Ok cs)). apply accepted_sublist. now left.
    - apply accepted_sublist. right. now exists ex. }
  apply Forall2_fmap_l in HF.
  destruct (Forall2_sublist_r _ _ _ _ HF Hsub) as (kept & Hkept & HF').
  exists kept. repeat split.
  - now transitivity first.
  - exact HF'.
  - rewrite <- (Forall2_length _ _ _ HF'). apply sublist_length. now transitivity first.
Qed.

(** X11.  Every document the database is asked to save comes from a row of
    the metadata file: it has the record identifier of the row and, as
    entry date, the date the entry file holds for the hash of the row.  In
    a load that is not full every saved document is tagged [COVID-19]. *)
Theorem saved_documents_are_dated_and_tagged `{Externals tokens annotation}
    (rows : list Row.t) (entries : list (string * string))
    (indir url models : string) (full : bool) (article : Article.t annotation) :
  Execute.Save article ∈ Execute.db (fst (Execute.run rows entries indir url models full)) ->
  exists row date,
    row ∈ rows
    /\ Article.uid article = Row.cord_uid row
    /\ Execute.entryDates entries !! Execute.getHash row = Some date
    /\ Article.entry (Article.metadata article) = Some date
    /\ (full = false -> Article.tags article = Some "COVID-19"%string).
Proof.
  pose proof (run_db rows entries indir url models full) as Hrun.
  cbn zeta in Hrun.
  set (results := Multiprocessing.imap Execute.process
                    (Execute.stream rows indir (Execute.models_or_default url models)) 100)
    in *.
  assert (Hacc := loop_accepted full (Execute.entryDates entries) results Execute.init
                    (fst (Execute.loop full (Execute.entryDates entries) Execute.init results))
                    (snd (Execute.loop full (Execute.entryDates entries) Execute.init results))
                    (surjective_pairing _)).
  cbn zeta in Hacc. destruct Hacc as (_ & _ & _ & _ & _ & _ & Hall).
  intros Hin.
  assert (Hsaved : Execute.Save article
                   ∈ map (Execute.saved_as (Execute.entryDates entries))
                         (Execute.accepted full (Execute.entryDates entries) Execute.init
                            results)).
  { destruct (Execute.run rows entries indir url models full) as [st [[]|ex]];
      cbn [fst] in Hin.
    - destruct Hrun as (Hdb & _). rewrite Hdb in Hin.
      apply elem_of_app in Hin as [Hin|Hin]; [exact Hin |].
      apply elem_of_cons in Hin as [Hin|Hin]; [discriminate |].
      apply list_elem_of_singleton in Hin. discriminate.
    - now rewrite Hrun in Hin. }
  apply list_elem_of_fmap in Hsaved as ([[sha art] cite] & Hsave & Hc).
  rewrite Forall_forall in Hall. destruct (Hall _ Hc) as (_ & _ & [date Hdate] & Hfull).
  apply accepted_from_results in Hc. apply imap_Ok_elem in Hc as (params & Hparams & Hprocess).
  apply list_elem_of_fmap in Hparams as (row & -> & Hrow).
  pose proof (process_Ok _ _ _ _ _ _ Hprocess)
    as (sections & titles & tags & seen & design & size & sample & method
        & _ & Htags & -> & Hmeta & _).
  unfold Execute.saved_as in Hsave. cbn [fst snd] in Hsave.
  unfold Execute.sha_of in Hsave, Hdate. cbn [fst snd] in Hsave, Hdate.
  rewrite Hdate in Hsave. cbn [default] in Hsave. injection Hsave as ->.
  exists row, date. unfold Article.uid, Article.tags. cbn. rewrite Hmeta. cbn.
  repeat split; try assumption.
  intros ->. cbn [orb fst snd] in Hfull. unfold Article.tags in Hfull.
  rewrite Hmeta in Hfull. cbn in Hfull.
  destruct (classify_values _ _ _ _ Htags) as [->| ->]; [discriminate | reflexivity].
Qed.

Lemma saved_documents_are_dated_and_tagged_witness :
  exists row date,
    row ∈ Demo.rows
    /\ Article.uid Demo.saved_row_a = Row.cord_uid row
    /\ Execute.entryDates Demo.entries !! Execute.getHash row = Some date
    /\ Article.entry (Article.metadata Demo.saved_row_a) = Some date
    /\ (false = false -> Article.tags Demo.saved_row_a = Some "COVID-19"%string).
Proof.
  apply (saved_documents_are_dated_and_tagged (H := Demo.externals)
           Demo.rows Demo.entries "data" "url" "models" false Demo.saved_row_a).
  apply list_elem_of_In. vm_compute. left. reflexivity.
Defined.

(* ===================================================================== *)
(** * The files of a row: [Section.files] *)
(* ===================================================================== *)

Lemma split_aux_nonempty (sep s : string) (k : nat) (acc : string) :
  Py.split_aux sep k acc s <> [].
Proof.
  revert k acc. induction s as [|c s IH]; intros k acc; cbn [Py.split_aux]; [discriminate |].
  destruct k; [| apply IH]. destruct (String.prefix sep (String c s)); [discriminate | apply IH].
Qed.

Lemma join_cons (sep x : string) (l : list string) :
  l <> [] -> Py.join sep (x :: l) = String.append x (String.append sep (Py.join sep l)).
Proof. destruct l; [congruence | reflexivity]. Qed.

Lemma join_app (sep : string) (l1 l2 : list string) :
  l1 <> [] -> l2 <> [] ->
  Py.join sep (l1 ++ l2)
  = String.append (Py.join sep l1) (String.append sep (Py.join sep l2)).
Proof.
  intros H1 H2. induction l1 as [|x l1 IH]; [congruence |].
  destruct l1 as [|y l1].
  - cbn [app]. now rewrite join_cons.
  - change ((x :: y :: l1) ++ l2) with (x :: ((y :: l1) ++ l2)).
    rewrite join_cons by discriminate. rewrite IH by discriminate.
    rewrite (join_cons sep x (y :: l1)) by discriminate.
    now rewrite !append_assoc.
Qed.

Lemma prefix_delimiter (c : ascii) (s : string) :
  String.prefix "; " (String c s) = true -> c = ";"%char /\ exists r, s = String " " r.
Proof.
  cbn [String.prefix]. destruct (ascii_dec ";" c) as [<-|]; [| discriminate].
  destruct s as [|d r]; [discriminate |]. cbn [String.prefix].
  destruct (ascii_dec " " d) as [<-|]; [| discriminate]. eauto.
Qed.

Lemma join_split_aux (n : nat) (s acc : string) :
  (String.length s <= n)%nat ->
  Py.join "; " (Py.split_aux "; " O acc s)
  = String.append (Py.rev_string EmptyString acc) s.
Proof.
  revert s acc. induction n as [|n IH]; intros s acc Hn.
  - destruct s; [| cbn in Hn; lia]. cbn [Py.split_aux Py.join]. now rewrite append_nil_r.
  - destruct s as [|c s]; [cbn [Py.split_aux Py.join]; now rewrite append_nil_r |].
    cbn [String.length] in Hn. cbn [Py.split_aux].
    destruct (String.prefix "; " (String c s)) eqn:Hp.
    + apply prefix_delimiter in Hp as (-> & r & ->). cbn [String.length] in Hn.
      change (Py.split_aux "; " (Nat.pred (String.length "; ")) EmptyString (String " " r))
        with (Py.split_aux "; " O EmptyString r).
      rewrite join_cons by apply split_aux_nonempty.
      rewrite IH by lia. reflexivity.
    + rewrite IH by lia. cbn [Py.rev_string].
      rewrite (rev_string_acc acc), append_assoc. reflexivity.
Qed.

(** Cutting a field at the delimiter and joining the pieces gives the field. *)
Lemma join_split (s : string) : Py.join "; " (Py.split "; " s) = s.
Proof. unfold Py.split. now rewrite (join_split_aux (String.length s)). Qed.

(** X12.  [files] lists the paths of the [pdf_json_files] column before
    those of the [pmc_json_files] column and loses nothing of either:
    joined with [; ] the paths give back the two columns.  There is no path
    exactly when both columns are empty. *)
Theorem files_hold_both_columns (row : Row.t) :
  let pdf := Row.pdf_json_files row in
  let pmc := Row.pmc_json_files row in
  (Section_.files row = [] <-> pdf = EmptyString /\ pmc = EmptyString)
  /\ Py.join "; " (Section_.files row)
     = (if Py.truthy pdf && Py.truthy pmc
        then String.append pdf (String.append "; " pmc)
        else String.append pdf pmc)
  /\ (pdf <> EmptyString ->
      exists others, Section_.files row = Py.split "; " pdf ++ others).
Proof.
  intros pdf pmc. unfold Section_.files. fold pdf. fold pmc. cbn [flat_map].
  rewrite app_nil_r. split; [split |split].
  - intros Hnil. apply app_eq_nil in Hnil as [Hpdf Hpmc].
    destruct pdf as [|c s]; [| exfalso; revert Hpdf; apply split_aux_nonempty].
    destruct pmc as [|c s]; [| exfalso; revert Hpmc; apply split_aux_nonempty].
    now split.
  - intros [-> ->]. reflexivity.
  - destruct pdf as [|c s]; destruct pmc as [|c' s']; cbn [Py.truthy andb app].
    + reflexivity.
    + now rewrite join_split.
    + now rewrite app_nil_r, join_split, append_nil_r.
    + rewrite join_app by apply split_aux_nonempty. now rewrite !join_split.
  - intros Hne. destruct pdf as [|c s]; [congruence |]. cbn [Py.truthy]. eauto.
Qed.

Lemma files_hold_both_columns_witness :
  exists others,
    Section_.files (Row.mk "uid" "" "PMC" "T" "" "" "" "" "" "a.json; b.json" "c.xml.json" "")
    = Py.split "; " "a.json; b.json" ++ others.
Proof.
  apply (proj2 (proj2 (files_hold_both_columns
           (Row.mk "uid" "" "PMC" "T" "" "" "" "" "" "a.json; b.json" "c.xml.json" "")))).
  discriminate.
Defined.

(* ===================================================================== *)
(** * Title and abstract: the brackets *)
(* ===================================================================== *)

Lemma rev_string_app (s t : string) :
  Py.rev_string EmptyString (String.append s t)
  = String.append (Py.rev_string EmptyString t) (Py.rev_string EmptyString s).
Proof.
  induction s as [|c s IH].
  - rewrite append_nil_l. cbn [Py.rev_string]. now rewrite append_nil_r.
  - rewrite append_cons. cbn [Py.rev_string].
    rewrite (rev_string_acc (String.append s t)), (rev_string_acc s), IH.
    now rewrite append_assoc.
Qed.

Lemma rev_string_involutive (s : string) :
  Py.rev_string EmptyString (Py.rev_string EmptyString s) = s.
Proof.
  induction s as [|c s IH]; [reflexivity |].
  cbn [Py.rev_string]. rewrite (rev_string_acc s), rev_string_app, IH. reflexivity.
Qed.

Lemma rev_string_snoc (s : string) (c : ascii) :
  Py.rev_string EmptyString (String.append s (String c EmptyString))
  = String c (Py.rev_string EmptyString s).
Proof. rewrite rev_string_app. reflexivity. Qed.

Lemma strip_close_bracket (s : string) :
  Section_.strip_close (String.append s "]") = s.
Proof.
  unfold Section_.strip_close. rewrite rev_string_snoc. apply rev_string_involutive.
Qed.

Lemma strip_close_bracket_newline (s : string) :
  Section_.strip_close (String.append s (String "]" (String "010" EmptyString)))
  = String.append s (String "010" EmptyString).
Proof.
  unfold Section_.strip_close.
  change (String "]" (String "010" EmptyString))
    with (String.append "]" (String "010" EmptyString)).
  rewrite <- append_assoc, rev_string_snoc, rev_string_snoc.
  cbn [Py.rev_string]. rewrite (rev_string_acc (Py.rev_string EmptyString s)).
  now rewrite rev_string_involutive.
Qed.

Lemma strip_close_other (s : string) (c : ascii) :
  c <> "]"%char -> c <> "010"%char ->
  Section_.strip_close (String.append s (String c EmptyString))
  = String.append s (String c EmptyString).
Proof.
  intros Hbracket Hnewline. unfold Section_.strip_close. rewrite rev_string_snoc.
  destruct c as [[] [] [] [] [] [] [] []]; try reflexivity; congruence.
Qed.

(** X13.  [parse] takes one opening bracket from the start of a title or
    abstract and one closing bracket from its end, no more: a text in
    brackets is handled as the text between them.  The closing bracket also
    goes when one newline follows it, and a text that ends otherwise keeps
    its end.  An empty title or abstract gives no section, and every
    section of a title or abstract is named by the column in upper case. *)
Theorem heading_drops_one_pair_of_brackets `{Externals tokens annotation}
    (name s : string) (c : ascii) :
  Section_.heading name EmptyString = []
  /\ Section_.heading name (String "[" (String.append s "]"))
     = map (fun x => (Some (Py.upper name), x)) (sent_tokenize (Text_transform s))
  /\ Section_.strip_close (String.append s (String "]" (String "010" EmptyString)))
     = String.append s (String "010" EmptyString)
  /\ (c <> "]"%char -> c <> "010"%char ->
      Section_.strip_close (String.append s (String c EmptyString))
      = String.append s (String c EmptyString))
  /\ (c <> "["%char -> Section_.strip_open (String c s) = String c s)
  /\ Forall (fun section => fst section = Some (Py.upper name)) (Section_.heading name s).
Proof.
  split; [reflexivity |]. split.
  { unfold Section_.heading. cbn [Py.truthy Section_.strip_open].
    now rewrite strip_close_bracket. }
  split; [apply strip_close_bracket_newline |].
  split; [apply strip_close_other |]. split.
  - intros Hc. unfold Section_.strip_open.
    destruct c as [[] [] [] [] [] [] [] []]; try reflexivity; congruence.
  - unfold Section_.heading. destruct (Py.truthy s); [| constructor].
    apply Forall_forall. intros section (x & -> & _)%list_elem_of_fmap. reflexivity.
Qed.

Lemma heading_drops_one_pair_of_brackets_witness :
  Section_.strip_close "Title."%string = "Title."%string
  /\ Section_.strip_open "Title."%string = "Title."%string.
Proof.
  destruct (heading_drops_one_pair_of_brackets (H := Demo.externals)
              "title" "Title" "."%char) as (_ & _ & _ & Hclose & _).
  destruct (heading_drops_one_pair_of_brackets (H := Demo.externals)
              "title" "itle." "T"%char) as (_ & _ & _ & _ & Hopen & _).
  split.
  - apply Hclose; discriminate.
  - apply Hopen; discriminate.
Defined.

(* ===================================================================== *)
(** * One file of a row: what [parse] keeps of it *)
(* ===================================================================== *)

Ltac keeps := repeat split; try reflexivity; try congruence; try (now apply prefix_app_r).

Lemma body_section_keeps `{Externals tokens annotation} (section : Json.t)
    (st : Section_.state) :
  Section_.stdout (fst (Section_.body_section section st)) = Section_.stdout st
  /\ Section_.citations (fst (Section_.body_section section st)) = Section_.citations st
  /\ Section_.sections st `prefix_of` Section_.sections (fst (Section_.body_section section st)).
Proof.
  unfold Section_.body_section, mbind, Section_.stmt_bind, Section_.eval,
    Section_.sections_extend.
  destruct (result_bind _ _ Json.as_str (Json.getitem section "section")) as [title|];
    cbn [fst]; [| keeps].
  destruct (result_bind _ _ Json.as_str (Json.getitem section "text")) as [text|]; cbn;
    [| keeps].
  keeps.
Qed.

Lemma ref_entry_keeps `{Externals tokens annotation} (item : string * Json.t)
    (st : Section_.state) :
  Section_.stdout (fst (Section_.ref_entry item st)) = Section_.stdout st
  /\ Section_.citations (fst (Section_.ref_entry item st)) = Section_.citations st
  /\ Section_.sections st `prefix_of` Section_.sections (fst (Section_.ref_entry item st)).
Proof.
  destruct item as [name entry].
  unfold Section_.ref_entry, mbind, Section_.stmt_bind, Section_.eval,
    Section_.sections_extend, mret, Section_.stmt_ret.
  destruct (Json.contains "html" entry) as [[]|]; cbn [fst]; [| keeps ..].
  destruct (Json.getitem entry "html") as [html|]; cbn [fst]; [| keeps].
  destruct (Json.truthy html); cbn [fst]; [| keeps].
  destruct (Table_parse html) as [rows|]; cbn; [| keeps].
  keeps.
Qed.

Lemma for_keeps `{Externals tokens annotation} {A} (l : list A)
    (body : A -> Section_.stmt unit) :
  (forall x st,
     Section_.stdout (fst (body x st)) = Section_.stdout st
     /\ Section_.citations (fst (body x st)) = Section_.citations st
     /\ Section_.sections st `prefix_of` Section_.sections (fst (body x st))) ->
  forall st,
    Section_.stdout (fst (Section_.for_ l body st)) = Section_.stdout st
    /\ Section_.citations (fst (Section_.for_ l body st)) = Section_.citations st
    /\ Section_.sections st `prefix_of` Section_.sections (fst (Section_.for_ l body st)).
Proof.
  intros Hbody. induction l as [|x l IH]; intros st.
  - cbn. keeps.
  - cbn [Section_.for_]. unfold mbind, Section_.stmt_bind.
    destruct (Hbody x st) as (Hout & Hcit & Hsec).
    destruct (body x st) as [st1 [[]|ex]]; cbn [fst] in *; [| keeps].
    destruct (IH st1) as (Hout' & Hcit' & Hsec').
    repeat split; [congruence | congruence | now transitivity (Section_.sections st1)].
Qed.

(** What the statements under [try] leave for one file. *)
Lemma text_file_cases `{Externals tokens annotation} (article : string)
    (st st' : Section_.state) (r : result unit) :
  Section_.text_file article st = (st', r) ->
  Section_.stdout st' = Section_.stdout st
  /\ Section_.sections st `prefix_of` Section_.sections st'
  /\ match r with
     | Ok _ =>
         exists data entries titles,
           json_load article = Ok data
           /\ Json.getitem data "bib_entries" ≫= Json.values = Ok entries
           /\ rmap (fun entry => Json.getitem entry "title") entries = Ok titles
           /\ Section_.citations st' = Section_.citations st ++ titles
     | Raise _ => Section_.citations st' = Section_.citations st
     end.
Proof.
  unfold Section_.text_file, mbind, Section_.stmt_bind, Section_.eval.
  destruct (json_load article) as [data|] eqn:Hload; [| intros [= <- <-]; keeps].
  destruct (result_bind _ _ Json.iter (Json.getitem data "body_text")) as [body|];
    [| intros [= <- <-]; keeps].
  destruct (for_keeps body Section_.body_section body_section_keeps st)
    as (Hout1 & Hcit1 & Hsec1).
  destruct (Section_.for_ body Section_.body_section st) as [st1 [[]|ex1]];
    cbn [fst] in Hout1, Hcit1, Hsec1; [| intros [= <- <-]; keeps].
  destruct (result_bind _ _ Json.items (Json.getitem data "ref_entries")) as [refs|];
    [| intros [= <- <-]; keeps].
  destruct (for_keeps refs Section_.ref_entry ref_entry_keeps st1)
    as (Hout2 & Hcit2 & Hsec2).
  destruct (Section_.for_ refs Section_.ref_entry st1) as [st2 [[]|ex2]];
    cbn [fst] in Hout2, Hcit2, Hsec2;
    [| intros [= <- <-]; keeps; now transitivity (Section_.sections st1)].
  destruct (result_bind _ _ Json.values (Json.getitem data "bib_entries")) as [entries|]
    eqn:Hentries;
    [| intros [= <- <-]; keeps; now transitivity (Section_.sections st1)].
  cbn [result_bind].
  destruct (rmap (fun entry => Json.getitem entry "title") entries) as [titles|] eqn:Htitles;
    [| intros [= <- <-]; keeps; now transitivity (Section_.sections st1)].
  unfold Section_.citations_extend. intros [= <- <-]. cbn.
  split; [congruence |]. split; [now transitivity (Section_.sections st1) |].
  exists data, entries, titles.
  split; [reflexivity |]. split; [exact Hentries |]. split; [exact Htitles | congruence].
Qed.

(** What one file leaves of the sections and of the output. *)
Lemma each_file_cases `{Externals tokens annotation} (directory path : string)
    (st : Section_.state) :
  let st' := fst (Section_.each_file directory path st) in
  Section_.sections st `prefix_of` Section_.sections st'
  /\ (Section_.stdout st' = Section_.stdout st
      \/ exists ex,
           snd (Section_.text_file (Py.path_join directory path) st) = Raise ex
           /\ Section_.stdout st'
              = Section_.stdout st
                ++ [(String.append "Error processing text file: "
                                   (Py.path_join directory path), ex)]).
Proof.
  cbn zeta. unfold Section_.each_file, Section_.try_except.
  destruct (Section_.text_file (Py.path_join directory path) st) as [st1 r] eqn:Hfile.
  destruct (text_file_cases _ _ _ _ Hfile) as (Hout & Hsec & _).
  destruct r as [[]|ex]; cbn [fst snd] in *.
  - split; [exact Hsec |]. now left.
  - unfold Section_.print. cbn. split; [exact Hsec |]. right.
    exists ex. split; [reflexivity |]. now rewrite Hout.
Qed.

(** Paragraphs that are in order leave their sections, one after the
    other. *)
Lemma for_body_sections `{Externals tokens annotation}
    (good : list Json.t) (adds : list (list Section_.sec)) (rest : list Json.t)
    (st : Section_.state) :
  Forall2 (fun section added =>
             forall st0,
               Section_.body_section section st0
               = (Section_.mk_state (Section_.sections st0 ++ added)
                                    (Section_.citations st0) (Section_.stdout st0),
                  Ok tt))
          good adds ->
  Section_.for_ (good ++ rest) Section_.body_section st
  = Section_.for_ rest Section_.body_section
      (Section_.mk_state (Section_.sections st ++ concat adds)
                         (Section_.citations st) (Section_.stdout st)).
Proof.
  intros HF. revert st. induction HF as [|section added good adds Hsection _ IH]; intros st.
  - cbn [app concat]. rewrite app_nil_r. now destruct st.
  - cbn [app Section_.for_ concat]. unfold mbind, Section_.stmt_bind.
    rewrite Hsection, IH. cbn [Section_.sections Section_.citations Section_.stdout].
    now rewrite <- app_assoc.
Qed.

(** X14.  A file of a row either adds its citations or logs an error,
    never both: when the statements under [try] go through, the titles of
    all the entries of [bib_entries] are added to the citations and nothing
    is printed; when one of them raises, one line naming the file is
    printed and no citation of the file is kept.  In both cases the sections
    gathered before stay, in their order, and those the file gave before
    the error are kept: when a paragraph of the body raises, the sections
    of the paragraphs before it have been added, and when the body has been
    read and [ref_entries] is missing, the sections of the whole body have
    been added; the handler takes nothing back. *)
Theorem file_adds_its_citations_or_logs_an_error `{Externals tokens annotation}
    (directory path : string) (st : Section_.state) :
  let article := Py.path_join directory path in
  let line ex := (String.append "Error processing text file: " article, ex) in
  let in_order section added :=
    forall st0,
      Section_.body_section section st0
      = (Section_.mk_state (Section_.sections st0 ++ added)
                           (Section_.citations st0) (Section_.stdout st0),
         Ok tt) in
  let st' := fst (Section_.each_file directory path st) in
  Section_.sections st `prefix_of` Section_.sections st'
  /\ ((Section_.stdout st' = Section_.stdout st
       /\ exists data entries titles,
            json_load article = Ok data
            /\ Json.getitem data "bib_entries" ≫= Json.values = Ok entries
            /\ rmap (fun entry => Json.getitem entry "title") entries = Ok titles
            /\ Section_.citations st' = Section_.citations st ++ titles)
      \/ (Section_.citations st' = Section_.citations st
          /\ exists ex, Section_.stdout st' = Section_.stdout st ++ [line ex]))
  /\ Section_.each_file directory path st
     = match Section_.text_file article st with
       | (st1, Ok _) => (st1, Ok tt)
       | (st1, Raise ex) =>
           (Section_.mk_state (Section_.sections st1) (Section_.citations st1)
                              (Section_.stdout st1 ++ [line ex]),
            Ok tt)
       end
  /\ (forall data good adds bad rest ex,
        json_load article = Ok data ->
        Json.getitem data "body_text" ≫= Json.iter = Ok (good ++ bad :: rest) ->
        Forall2 in_order good adds ->
        (forall st0, Section_.body_section bad st0 = (st0, Raise ex)) ->
        st' = Section_.mk_state (Section_.sections st ++ concat adds)
                                (Section_.citations st) (Section_.stdout st ++ [line ex]))
  /\ (forall data body adds ex,
        json_load article = Ok data ->
        Json.getitem data "body_text" ≫= Json.iter = Ok body ->
        Forall2 in_order body adds ->
        Json.getitem data "ref_entries" ≫= Json.items = Raise ex ->
        st' = Section_.mk_state (Section_.sections st ++ concat adds)
                                (Section_.citations st) (Section_.stdout st ++ [line ex])).
Proof.
  cbn zeta.
  split; [| split; [| split; [| split]]].
  - apply (each_file_cases directory path st).
  - unfold Section_.each_file, Section_.try_except.
    destruct (Section_.text_file (Py.path_join directory path) st) as [st1 r] eqn:Hfile.
    destruct (text_file_cases _ _ _ _ Hfile) as (Hout & Hsec & Hcit).
    destruct r as [[]|ex]; cbn [fst snd] in *.
    + left. split; [exact Hout | exact Hcit].
    + unfold Section_.print. cbn. right. split; [exact Hcit |].
      exists ex. now rewrite Hout.
  - unfold Section_.each_file, Section_.try_except.
    destruct (Section_.text_file (Py.path_join directory path) st) as [st1 [[]|ex]];
      reflexivity.
  - intros data good adds bad rest ex Hload Hbody Hgood Hbad.
    unfold Section_.each_file, Section_.try_except, Section_.text_file.
    unfold mbind in Hbody.
    unfold mbind, Section_.stmt_bind, Section_.eval. rewrite Hload, Hbody.
    rewrite (for_body_sections good adds (bad :: rest) st Hgood).
    cbn [Section_.for_]. unfold mbind, Section_.stmt_bind. rewrite Hbad.
    reflexivity.
  - intros data body adds ex Hload Hbody Hgood Hrefs.
    unfold Section_.each_file, Section_.try_except, Section_.text_file.
    unfold mbind in Hbody, Hrefs.
    unfold mbind, Section_.stmt_bind, Section_.eval. rewrite Hload, Hbody.
    rewrite <- (app_nil_r body), (for_body_sections body adds [] st Hgood).
    cbn [Section_.for_]. unfold mret, Section_.stmt_ret. rewrite Hrefs.
    reflexivity.
Qed.

Lemma file_adds_its_citations_or_logs_an_error_witness :
  fst (Section_.each_file (H := Demo.externals) "data" "partial.json"
         (Section_.mk_state [(Some "TITLE", "A title")]%string [Json.Str "Paper A"] []))
  = Section_.mk_state [(Some "TITLE", "A title");
                       (Some "RESULTS", "Only the body is here.")]%string
                      [Json.Str "Paper A"]
                      [("Error processing text file: data/partial.json"%string, KeyError)].
Proof.
  apply (proj2 (proj2 (proj2 (proj2
           (file_adds_its_citations_or_logs_an_error (H := Demo.externals)
              "data" "partial.json"
              (Section_.mk_state [(Some "TITLE", "A title")]%string [Json.Str "Paper A"]
                                 [])))))
           (Json.Obj [("body_text"%string,
                       Json.Arr [Demo.paragraph "Results" "Only the body is here."])])
           [Demo.paragraph "Results" "Only the body is here."]
           [[(Some "RESULTS", "Only the body is here.")]]%string
           KeyError).
  - reflexivity.
  - reflexivity.
  - constructor; [| constructor]. intros st0. reflexivity.
  - reflexivity.
Defined.



(** Three files of which the first two raise: two lines, in the order of
    the files. *)
Example read_files_with_bad_files :
  Section_.stdout
    (Section_.read_files (H := Demo.externals)
       (Demo.row "" "" "[Title here]" "" "missing.json; partial.json; b.json") "data")
  = map (fun failure => (String.append "Error processing text file: "
                                       (Py.path_join "data" (fst failure)), snd failure))
        [("missing.json", OSError); ("partial.json", KeyError)]%string.
Proof. vm_compute. reflexivity. Qed.

(* ===================================================================== *)
(** * Filtering twice *)
(* ===================================================================== *)

Lemma first_occurrences_unchanged (earlier : list string) (sections : list Section_.sec) :
  NoDup (map snd sections) ->
  Forall (fun s => (snd s ∉ earlier) /\ Section_.is_boilerplate (snd s) = false) sections ->
  Section_.first_occurrences earlier sections = sections.
Proof.
  revert earlier. induction sections as [|[name text] rest IH]; intros earlier Hnodup Hall;
    [reflexivity |].
  cbn [map snd] in Hnodup. apply NoDup_cons in Hnodup as [Hfresh Hnodup].
  apply Forall_cons in Hall as [[Hnot Hplain] Hall]. cbn [snd] in Hnot, Hplain.
  cbn [Section_.first_occurrences].
  rewrite (bool_decide_eq_false_2 _ Hnot), Hplain. cbn [orb app]. f_equal.
  apply IH; [exact Hnodup |].
  apply Forall_forall. intros [name' text'] Hin. cbn [snd].
  rewrite Forall_forall in Hall. destruct (Hall _ Hin) as [Hnot' Hplain']. cbn [snd] in *.
  split; [| exact Hplain']. intros [->|Hearlier]%elem_of_cons; [| now apply Hnot'].
  apply Hfresh. apply list_elem_of_fmap. now exists (name', text).
Qed.

(** X16.  Filtering the sections [filtered] has returned leaves them as
    they are: nothing more is removed, the loop keeps each of them. *)
Theorem filtered_sections_stay_when_filtered_again
    (sections : list Section_.sec) (citations : list Json.t)
    (unique : list Section_.sec) (titles : list key) :
  Section_.filtered sections citations = Ok (unique, titles) ->
  Section_.filtered unique [] = Ok (unique, [])
  /\ Section_.filtered_loop unique [] ∅ = unique.
Proof.
  unfold Section_.filtered, mbind, result_bind.
  destruct (rmap Json.hash_key citations) as [keys|]; [| discriminate].
  intros [= <- _]. cbn [rmap].
  assert (Hsame : Section_.filtered_loop (Section_.filtered_loop sections [] ∅) [] ∅
                  = Section_.filtered_loop sections [] ∅).
  { rewrite !(filtered_loop_first_occurrences _ [] ∅ []) by set_solver. cbn [app].
    apply first_occurrences_unchanged.
    - apply first_occurrences_NoDup.
    - apply first_occurrences_fresh. }
  rewrite Hsame. split; [| reflexivity].
  now rewrite list_to_set_nil, elements_empty.
Qed.

Lemma filtered_sections_stay_when_filtered_again_witness :
  Section_.filtered [(Some "A", "same text"); (Some "C", "other")]%string []
  = Ok ([(Some "A", "same text"); (Some "C", "other")]%string, []).
Proof.
  refine (proj1 (filtered_sections_stay_when_filtered_again
                   [(Some "A", "same text"); (Some "B", "See the WHO COVID database.");
                    (Some "C", "other"); (None, "same text")]%string
                   [Json.Str "T1"]
                   [(Some "A", "same text"); (Some "C", "other")]%string
                   [KStr "T1"] _)).
  vm_compute. reflexivity.
Defined.

(* ===================================================================== *)
(** * [elastic.py]: documents and batches *)
(* ===================================================================== *)

Lemma setitem_fresh {V} (k : string) (v : V) (d : list (string * V)) :
  k ∉ map fst d -> Elastic.setitem k v d = d ++ [(k, v)].
Proof.
  induction d as [|[k' v'] d IH]; intros Hfresh; [reflexivity |].
  cbn [Elastic.setitem]. cbn [map fst] in Hfresh.
  destruct (String.eqb_spec k k') as [->|Hne].
  - exfalso. apply Hfresh. now left.
  - cbn [app]. f_equal. apply IH. intros Hin. apply Hfresh. now right.
Qed.

Lemma dict_fresh_keys {V} (pairs d : list (string * V)) :
  NoDup (map fst (d ++ pairs)) ->
  fold_left (fun d kv => Elastic.setitem (fst kv) (snd kv) d) pairs d = d ++ pairs.
Proof.
  revert d. induction pairs as [|[k v] pairs IH]; intros d Hnodup; cbn [fold_left].
  - now rewrite app_nil_r.
  - cbn [fst snd]. rewrite setitem_fresh.
    + rewrite IH; rewrite <- app_assoc; [reflexivity | exact Hnodup].
    + rewrite map_app in Hnodup. cbn [map fst] in Hnodup.
      apply NoDup_app in Hnodup as (_ & Hdisjoint & _).
      intros Hin. apply (Hdisjoint _ Hin). now left.
Qed.

Lemma zip_keys {A B} (keys : list A) (values : list B) (k : A) :
  k ∈ map fst (Elastic.zip keys values) -> k ∈ keys.
Proof.
  unfold Elastic.zip. revert values. induction keys as [|k' keys IH]; intros [|v values];
    cbn [combine map fst]; try (intros []%elem_of_nil).
  intros [->|Hin]%elem_of_cons; [now left | right; eapply IH, Hin].
Qed.

Lemma zip_keys_NoDup {A B} (keys : list A) (values : list B) :
  NoDup keys -> NoDup (map fst (Elastic.zip keys values)).
Proof.
  intros Hnodup. revert values. induction Hnodup as [|k keys Hfresh _ IH]; intros [|v values];
    cbn [Elastic.zip combine map fst]; try constructor.
  - intros Hin. apply Hfresh. eapply zip_keys, Hin.
  - apply IH.
Qed.

(** With keys that differ from one another, [dict(zip(keys, values))] lists
    the pairs in their order. *)
Lemma dict_zip {V} (keys : list string) (values : list V) :
  NoDup keys -> Elastic.dict (Elastic.zip keys values) = Elastic.zip keys values.
Proof.
  intros Hnodup. unfold Elastic.dict. rewrite dict_fresh_keys; [reflexivity |].
  cbn [app]. now apply zip_keys_NoDup.
Qed.

Lemma ARTICLE_NoDup : NoDup Elastic.ARTICLE.
Proof. refine (bool_decide_unpack _ _). vm_compute. exact I. Qed.

Lemma SECTION_NoDup : NoDup Elastic.SECTION.
Proof. refine (bool_decide_unpack _ _). vm_compute. exact I. Qed.

Lemma getitem_app_l {V} (d d' : list (string * V)) (k : string) (v : V) :
  Elastic.getitem d k = Ok v -> Elastic.getitem (d ++ d') k = Ok v.
Proof.
  induction d as [|[k' v'] d IH]; cbn [Elastic.getitem app]; [discriminate |].
  destruct (String.eqb k k'); [trivial | exact IH].
Qed.

Lemma getitem_app_r {V} (d d' : list (string * V)) (k : string) :
  k ∉ map fst d -> Elastic.getitem (d ++ d') k = Elastic.getitem d' k.
Proof.
  induction d as [|[k' v'] d IH]; intros Hfresh; [reflexivity |].
  cbn [Elastic.getitem app]. cbn [map fst] in Hfresh.
  destruct (String.eqb_spec k k') as [->|Hne].
  - exfalso. apply Hfresh. now left.
  - apply IH. intros Hin. apply Hfresh. now right.
Qed.

Ltac no_such_key :=
  let Hin := fresh "Hin" in
  intros Hin;
  repeat (apply elem_of_cons in Hin as [Hin|Hin]; [discriminate Hin |]);
  now apply elem_of_nil in Hin.

Lemma document_of_tuple {value} (id : value) (rest : list value)
    (sections : list (list value)) :
  Elastic.document (id :: rest) sections
  = Ok (Elastic.zip Elastic.ARTICLE (map Elastic.Component (id :: rest))
        ++ [("sections"%string,
             Elastic.Nested (map (fun section => Elastic.zip Elastic.SECTION section)
                                 sections));
            ("_id"%string, Elastic.Component id);
            ("_index"%string, Elastic.Text "articles")]).
Proof.
  unfold Elastic.document. rewrite (dict_zip _ _ ARTICLE_NoDup).
  rewrite (map_ext (fun section => Elastic.dict (Elastic.zip Elastic.SECTION section))
                   (fun section => Elastic.zip Elastic.SECTION section))
    by (intros section; apply dict_zip, SECTION_NoDup).
  set (fields := Elastic.zip Elastic.ARTICLE (map Elastic.Component (id :: rest))).
  assert (Hkeys : forall k, k ∉ Elastic.ARTICLE -> k ∉ map fst fields).
  { intros k Hk Hin. apply Hk. eapply zip_keys, Hin. }
  rewrite setitem_fresh by (apply Hkeys; no_such_key).
  rewrite (getitem_app_l fields _ "id" (Elastic.Component id)) by reflexivity.
  unfold mbind, result_bind.
  rewrite (setitem_fresh "_id").
  - rewrite (setitem_fresh "_index").
    + rewrite <- !app_assoc. reflexivity.
    + rewrite !map_app. cbn [map fst]. intros [Hin|Hin]%elem_of_app.
      * apply (elem_of_app (map fst fields)) in Hin as [Hin|Hin].
        -- revert Hin. apply Hkeys. no_such_key.
        -- revert Hin. no_such_key.
      * revert Hin. no_such_key.
  - rewrite !map_app. cbn [map fst]. intros [Hin|Hin]%elem_of_app.
    + revert Hin. apply Hkeys. no_such_key.
    + revert Hin. no_such_key.
Qed.

(** X17.  The document [save] buffers for an article holds the components
    of the article tuple under the keys of [ARTICLE], as many as the shorter
    of the two has, then the section documents under [sections], the first
    component again under [_id] and [articles] under [_index]; each section
    document holds the components of the section under the keys of
    [SECTION].  For an empty article tuple [save] raises [KeyError] and
    leaves the object as it is: nothing is buffered and no row is counted. *)
Theorem save_builds_the_article_document {value} (uid tags design : value)
    (article : list value) (sections : list (list value)) (st : Elastic.t value) :
  match article with
  | [] =>
      Elastic.document article sections = Raise KeyError
      /\ Elastic.save uid article sections tags design st = (st, Raise KeyError)
  | id :: _ =>
      Elastic.document article sections
      = Ok (Elastic.zip Elastic.ARTICLE (map Elastic.Component article)
            ++ [("sections"%string,
                 Elastic.Nested (map (fun section => Elastic.zip Elastic.SECTION section)
                                     sections));
                ("_id"%string, Elastic.Component id);
                ("_index"%string, Elastic.Text "articles")])
      /\ snd (Elastic.save uid article sections tags design st) = Ok tt
  end.
Proof.
  destruct article as [|id rest].
  - split; reflexivity.
  - split; [apply document_of_tuple |].
    unfold Elastic.save. rewrite document_of_tuple.
    now destruct ((Elastic.rows st + 1) mod 1000 =? 0).
Qed.

Lemma sent_app {value} (a b : list (Elastic.request value)) :
  Elastic.sent (a ++ b) = Elastic.sent a ++ Elastic.sent b.
Proof. unfold Elastic.sent. apply flat_map_app. Qed.

Lemma sent_map_Bulk {value} (bulks : list (list (list (string * Elastic.field value)))) :
  Elastic.sent (map Elastic.Bulk bulks) = concat bulks.
Proof.
  induction bulks as [|b bulks IH]; [reflexivity |].
  cbn [map concat]. change (Elastic.Bulk b :: map Elastic.Bulk bulks)
    with ([Elastic.Bulk b] ++ map Elastic.Bulk bulks).
  rewrite sent_app, IH. cbn. now rewrite app_nil_r.
Qed.

Lemma next_row_mod (rows : Z) :
  0 <= rows ->
  ((rows + 1) mod 1000 = 0 -> rows mod 1000 = 999)
  /\ ((rows + 1) mod 1000 <> 0 -> (rows + 1) mod 1000 = rows mod 1000 + 1).
Proof. intros Hrows. split; intros Hmod; Z.div_mod_to_equations; lia. Qed.

(** One call of [save] on an object whose buffer holds the rows counted
    since the last full thousand. *)
Lemma save_step {value} (uid tags design : value) (article : list value)
    (sections : list (list value)) (st st' : Elastic.t value) :
  0 <= Elastic.rows st ->
  Z.of_nat (length (Elastic.buffer st)) = Elastic.rows st mod 1000 ->
  (forall actions, Elastic.Bulk actions ∈ Elastic.connection st ->
                   Z.of_nat (length actions) = 1000) ->
  Elastic.save uid article sections tags design st = (st', Ok tt) ->
  exists doc,
    Elastic.document article sections = Ok doc
    /\ Elastic.sent (Elastic.connection st') ++ Elastic.buffer st'
       = (Elastic.sent (Elastic.connection st) ++ Elastic.buffer st) ++ [doc]
    /\ Elastic.rows st' = Elastic.rows st + 1
    /\ Z.of_nat (length (Elastic.buffer st')) = Elastic.rows st' mod 1000
    /\ (forall actions, Elastic.Bulk actions ∈ Elastic.connection st' ->
                        Z.of_nat (length actions) = 1000).
Proof.
  intros Hrows Hbuffer Hbulks. unfold Elastic.save.
  destruct (Elastic.document article sections) as [doc|]; [| discriminate].
  destruct ((Elastic.rows st + 1) mod 1000 =? 0) eqn:Hfull; intros [= <-]; exists doc;
    cbn [Elastic.connection Elastic.buffer Elastic.rows].
  - apply Z.eqb_eq in Hfull. repeat split.
    + rewrite sent_app. cbn. now rewrite !app_nil_r, app_assoc.
    + cbn [length]. now rewrite Hfull.
    + intros actions [Hin|Hin]%elem_of_app; [now apply Hbulks |].
      apply list_elem_of_singleton in Hin. injection Hin as ->.
      rewrite length_app. cbn [length].
      pose proof (proj1 (next_row_mod _ Hrows) Hfull). lia.
  - apply Z.eqb_neq in Hfull. repeat split.
    + now rewrite app_assoc.
    + rewrite length_app. cbn [length].
      pose proof (proj2 (next_row_mod _ Hrows) Hfull). lia.
    + exact Hbulks.
Qed.

Lemma save_all_steps {value}
    (calls : list (value * list value * list (list value) * value * value))
    (st st' : Elastic.t value) :
  0 <= Elastic.rows st ->
  Z.of_nat (length (Elastic.buffer st)) = Elastic.rows st mod 1000 ->
  (forall actions, Elastic.Bulk actions ∈ Elastic.connection st ->
                   Z.of_nat (length actions) = 1000) ->
  Elastic.save_all calls st = (st', Ok tt) ->
  exists docs,
    Forall2 (fun call doc => Elastic.document (snd (fst (fst (fst call))))
                                              (snd (fst (fst call))) = Ok doc)
            calls docs
    /\ Elastic.sent (Elastic.connection st') ++ Elastic.buffer st'
       = (Elastic.sent (Elastic.connection st) ++ Elastic.buffer st) ++ docs
    /\ Elastic.rows st' = Elastic.rows st + Z.of_nat (length calls)
    /\ Z.of_nat (length (Elastic.buffer st')) = Elastic.rows st' mod 1000
    /\ (forall actions, Elastic.Bulk actions ∈ Elastic.connection st' ->
                        Z.of_nat (length actions) = 1000).
Proof.
  revert st. induction calls as [|[[[[uid article] sections] tags] design] calls IH];
    intros st Hrows Hbuffer Hbulks; cbn [Elastic.save_all].
  - intros [= <-]. exists []. rewrite app_nil_r, Z.add_0_r. repeat split; [constructor | | ];
      assumption.
  - destruct (Elastic.save uid article sections tags design st) as [st1 [[]|ex]] eqn:Hsave;
      [| discriminate].
    destruct (save_step _ _ _ _ _ _ _ Hrows Hbuffer Hbulks Hsave)
      as (doc & Hdoc & Hsent & Hrows1 & Hbuffer1 & Hbulks1).
    intros Hrest. destruct (IH st1 ltac:(lia) Hbuffer1 Hbulks1 Hrest)
      as (docs & Hdocs & Hsent' & Hrows' & Hbuffer' & Hbulks').
    exists (doc :: docs). repeat split.
    + constructor; [exact Hdoc | exact Hdocs].
    + rewrite Hsent', Hsent, <- app_assoc. reflexivity.
    + rewrite Hrows', Hrows1. cbn [length]. lia.
    + exact Hbuffer'.
    + exact Hbulks'.
Qed.

(** X18.  After any number of calls of [save] on a new object, none of
    which raised, every article document has been sent or is in the buffer,
    once and in the order of the calls; the row count is the number of
    calls, every bulk request carried exactly 1000 documents, and the
    buffer holds the documents counted since the last full thousand. *)
Theorem save_sends_batches_of_a_thousand {value} (url : string)
    (calls : list (value * list value * list (list value) * value * value))
    (st : Elastic.t value) :
  Elastic.save_all calls (Elastic.init url) = (st, Ok tt) ->
  exists docs,
    Forall2 (fun call doc => Elastic.document (snd (fst (fst (fst call))))
                                              (snd (fst (fst call))) = Ok doc)
            calls docs
    /\ Elastic.sent (Elastic.connection st) ++ Elastic.buffer st = docs
    /\ Elastic.rows st = Z.of_nat (length calls)
    /\ Z.of_nat (length (Elastic.buffer st)) = Elastic.rows st mod 1000
    /\ (forall actions, Elastic.Bulk actions ∈ Elastic.connection st ->
                        Z.of_nat (length actions) = 1000).
Proof.
  intros Hcalls.
  destruct (save_all_steps calls (Elastic.init url) st) as (docs & H1 & H2 & H3 & H4 & H5).
  - cbn. lia.
  - reflexivity.
  - intros actions Hin. cbn in Hin.
    repeat (apply elem_of_cons in Hin as [Hin|Hin]; [discriminate Hin |]).
    now apply elem_of_nil in Hin.
  - exact Hcalls.
  - exists docs. repeat split; assumption.
Qed.

Lemma save_sends_batches_of_a_thousand_witness :
  exists docs,
    Forall2 (fun call doc => Elastic.document (snd (fst (fst (fst call))))
                                              (snd (fst (fst call))) = Ok doc)
            [("uid-a", ["uid-a"; "PMC"], [["TITLE"; "A study"; "label"]], "COVID-19", "1");
             ("uid-b", ["uid-b"], [], "COVID-19", "2")]%string
            docs
    /\ Elastic.sent (Elastic.connection
                       (fst (Elastic.save_all
                               [("uid-a", ["uid-a"; "PMC"], [["TITLE"; "A study"; "label"]],
                                 "COVID-19", "1");
                                ("uid-b", ["uid-b"], [], "COVID-19", "2")]%string
                               (Elastic.init "http://localhost:9200"))))
       ++ Elastic.buffer
            (fst (Elastic.save_all
                    [("uid-a", ["uid-a"; "PMC"], [["TITLE"; "A study"; "label"]],
                      "COVID-19", "1");
                     ("uid-b", ["uid-b"], [], "COVID-19", "2")]%string
                    (Elastic.init "http://localhost:9200")))
       = docs.
Proof.
  destruct (save_sends_batches_of_a_thousand "http://localhost:9200"
              [("uid-a", ["uid-a"; "PMC"], [["TITLE"; "A study"; "label"]], "COVID-19", "1");
               ("uid-b", ["uid-b"], [], "COVID-19", "2")]%string
              (fst (Elastic.save_all
                      [("uid-a", ["uid-a"; "PMC"], [["TITLE"; "A study"; "label"]],
                        "COVID-19", "1");
                       ("uid-b", ["uid-b"], [], "COVID-19", "2")]%string
                      (Elastic.init "http://localhost:9200"))))
    as (docs & Hdocs & Hsent & _).
  - vm_compute. reflexivity.
  - exists docs. split; [exact Hdocs | exact Hsent].
Defined.

Lemma add_citations {value} (entries : list (value * value)) (st : Elastic.t value) :
  Z.of_nat (length (Elastic.buffer st)) < 5000 ->
  exists bulks,
    Elastic.connection (fold_left Elastic.add_citation entries st)
    = Elastic.connection st ++ map Elastic.Bulk bulks
    /\ Forall (fun b => Z.of_nat (length b) = 5000) bulks
    /\ concat bulks ++ Elastic.buffer (fold_left Elastic.add_citation entries st)
       = Elastic.buffer st ++ map Elastic.citation_document entries
    /\ Z.of_nat (length (Elastic.buffer (fold_left Elastic.add_citation entries st))) < 5000
    /\ Elastic.rows (fold_left Elastic.add_citation entries st) = Elastic.rows st
    /\ Elastic.stdout (fold_left Elastic.add_citation entries st) = Elastic.stdout st.
Proof.
  revert st. induction entries as [|entry entries IH]; intros st Hlen; cbn [fold_left].
  - exists []. cbn. rewrite !app_nil_r. repeat split; [constructor | exact Hlen].
  - assert (Hstep : Elastic.add_citation st entry
                    = if 5000 <=? Z.of_nat (length (Elastic.buffer st
                                                    ++ [Elastic.citation_document entry]))
                      then Elastic.mk (Elastic.connection st
                                       ++ [Elastic.Bulk (Elastic.buffer st
                                                         ++ [Elastic.citation_document entry])])
                                      (Elastic.rows st) [] (Elastic.stdout st)
                      else Elastic.mk (Elastic.connection st) (Elastic.rows st)
                                      (Elastic.buffer st ++ [Elastic.citation_document entry])
                                      (Elastic.stdout st)) by reflexivity.
    rewrite Hstep. clear Hstep.
    destruct (5000 <=? Z.of_nat (length (Elastic.buffer st ++ [Elastic.citation_document entry])))
      eqn:Hfull.
    + apply Z.leb_le in Hfull. rewrite length_app in Hfull. cbn [length] in Hfull.
      destruct (IH (Elastic.mk (Elastic.connection st
                                ++ [Elastic.Bulk (Elastic.buffer st
                                                  ++ [Elastic.citation_document entry])])
                               (Elastic.rows st) [] (Elastic.stdout st)))
        as (bulks & Hconn & Hall & Hdocs & Hlen' & Hrows & Hout); [cbn; lia |].
      cbn [Elastic.connection Elastic.buffer Elastic.rows Elastic.stdout] in *.
      exists ((Elastic.buffer st ++ [Elastic.citation_document entry]) :: bulks).
      repeat split.
      * rewrite Hconn, <- app_assoc. reflexivity.
      * constructor; [rewrite length_app; cbn [length]; lia | exact Hall].
      * cbn [concat map]. rewrite <- !app_assoc. cbn [app] in Hdocs. now rewrite Hdocs.
      * exact Hlen'.
      * exact Hrows.
      * exact Hout.
    + apply Z.leb_gt in Hfull.
      destruct (IH (Elastic.mk (Elastic.connection st) (Elastic.rows st)
                               (Elastic.buffer st ++ [Elastic.citation_document entry])
                               (Elastic.stdout st)))
        as (bulks & Hconn & Hall & Hdocs & Hlen' & Hrows & Hout); [cbn; lia |].
      cbn [Elastic.connection Elastic.buffer Elastic.rows Elastic.stdout] in *.
      exists bulks. repeat split; try assumption.
      rewrite Hdocs, <- app_assoc. reflexivity.
Qed.

Lemma sent_flush {value} (st : Elastic.t value) :
  Elastic.sent (Elastic.flush st) = Elastic.sent (Elastic.connection st) ++ Elastic.buffer st.
Proof.
  unfold Elastic.flush. destruct (Elastic.buffer st) as [|doc docs].
  - now rewrite app_nil_r.
  - rewrite sent_app. cbn. now rewrite app_nil_r.
Qed.

(** X19.  [complete] sends what is left and forgets nothing.  Given the
    citations as a dict it first sends the buffered articles, if any, in a
    request of their own, then the citation documents in their order, in
    requests of exactly 5000 but for a last one that may hold fewer and is
    never empty, and then refreshes the two indices; the row count stays.
    Given a list, as [Execute.run] builds one, it sends the buffered
    articles and raises [AttributeError]: no citation is sent and no index
    is refreshed. *)
Theorem complete_sends_what_is_left {value} (st : Elastic.t value)
    (entries : list (value * value)) (elements : list value) :
  Elastic.complete (Elastic.List_ elements) st
  = (Elastic.mk (Elastic.flush st) (Elastic.rows st) [] (Elastic.stdout st),
     Raise AttributeError)
  /\ exists bulks last st',
       Elastic.complete (Elastic.Dict entries) st = (st', Ok tt)
       /\ Elastic.connection st'
          = Elastic.flush st ++ map Elastic.Bulk (bulks ++ last)
            ++ [Elastic.Refresh "articles"; Elastic.Refresh "citations"]
       /\ Forall (fun b => Z.of_nat (length b) = 5000) bulks
       /\ (last = [] \/ exists b, last = [b] /\ 0 < Z.of_nat (length b) < 5000)
       /\ concat (bulks ++ last) = map Elastic.citation_document entries
       /\ Elastic.sent (Elastic.connection st')
          = Elastic.sent (Elastic.connection st) ++ Elastic.buffer st
            ++ map Elastic.citation_document entries
       /\ Elastic.rows st' = Elastic.rows st
       /\ Elastic.stdout st' = Elastic.stdout st ++ [Elastic.Total (Elastic.rows st)].
Proof.
  split; [reflexivity |].
  unfold Elastic.complete. cbn [Elastic.items].
  set (st0 := Elastic.mk (Elastic.flush st) (Elastic.rows st) [] (Elastic.stdout st)).
  destruct (add_citations entries st0) as (bulks & Hconn & Hall & Hdocs & Hlen & Hrows & Hout);
    [cbn; lia |].
  cbn [Elastic.connection Elastic.buffer Elastic.rows Elastic.stdout app] in *.
  set (st1 := fold_left Elastic.add_citation entries st0) in *.
  exists bulks, (match Elastic.buffer st1 with [] => [] | _ :: _ => [Elastic.buffer st1] end).
  eexists. split; [reflexivity |].
  cbn [Elastic.connection Elastic.rows Elastic.stdout].
  assert (Hflush : Elastic.flush st1
                   = Elastic.flush st
                     ++ map Elastic.Bulk
                          (bulks ++ match Elastic.buffer st1 with
                                    | [] => []
                                    | _ :: _ => [Elastic.buffer st1]
                                    end)).
  { unfold Elastic.flush at 1. rewrite Hconn, map_app.
    destruct (Elastic.buffer st1); cbn [map]; [now rewrite app_nil_r |].
    now rewrite <- app_assoc. }
  assert (Hlast : concat (bulks ++ match Elastic.buffer st1 with
                                   | [] => []
                                   | _ :: _ => [Elastic.buffer st1]
                                   end)
                  = map Elastic.citation_document entries).
  { transitivity (Elastic.buffer st0 ++ map Elastic.citation_document entries);
      [| reflexivity].
    rewrite concat_app, <- Hdocs. f_equal.
    destruct (Elastic.buffer st1); cbn [concat]; [reflexivity | now rewrite app_nil_r]. }
  repeat split.
  - rewrite Hflush, <- app_assoc. reflexivity.
  - exact Hall.
  - destruct (Elastic.buffer st1) as [|doc docs] eqn:Hbuffer; [now left |].
    right. eexists. split; [reflexivity |]. cbn [length] in *. lia.
  - exact Hlast.
  - rewrite Hflush, !sent_app, sent_flush, sent_map_Bulk, Hlast. cbn.
    now rewrite app_nil_r, <- app_assoc.
  - exact Hrows.
  - now rewrite Hout, Hrows.
Qed.

(* ===================================================================== *)
(** * The identity hash is never empty *)
(* ===================================================================== *)

Lemma hex_length (n : nat) (x : Z) (acc : string) :
  String.length (Py.hex n x acc) = (n + String.length acc)%nat.
Proof.
  revert x acc. induction n as [|n IH]; intros x acc; [reflexivity |].
  cbn [Py.hex]. rewrite IH. cbn [String.length]. lia.
Qed.

Lemma hex_digit_lower (x : Z) :
  let c := Py.hex_digit (Z.land x 15) in
  (Py.is_digit c || ((97 <=? Py.code c) && (Py.code c <=? 102))) = true.
Proof.
  cbn zeta. change 15 with (Z.ones 4). rewrite Z.land_ones by lia.
  pose proof (Z.mod_pos_bound x (2 ^ 4) ltac:(lia)) as Hbound.
  set (v := x mod 2 ^ 4) in *.
  assert (Hv : v = 0 \/ v = 1 \/ v = 2 \/ v = 3 \/ v = 4 \/ v = 5 \/ v = 6 \/ v = 7
               \/ v = 8 \/ v = 9 \/ v = 10 \/ v = 11 \/ v = 12 \/ v = 13 \/ v = 14 \/ v = 15)
    by lia.
  clearbody v.
  repeat (destruct Hv as [->|Hv]; [vm_compute; reflexivity |]).
  subst v. vm_compute. reflexivity.
Qed.

Lemma hex_digits (n : nat) (x : Z) (acc : string) :
  Py.forall_string (fun c => Py.is_digit c || ((97 <=? Py.code c) && (Py.code c <=? 102))) acc
  = true ->
  Py.forall_string (fun c => Py.is_digit c || ((97 <=? Py.code c) && (Py.code c <=? 102)))
                   (Py.hex n x acc)
  = true.
Proof.
  revert x acc. induction n as [|n IH]; intros x acc Hacc; [exact Hacc |].
  cbn [Py.hex]. apply IH. cbn [Py.forall_string].
  rewrite Hacc, andb_true_r. apply hex_digit_lower.
Qed.

Lemma sha1_hexdigest_shape (msg : list Z) :
  String.length (Py.sha1_hexdigest msg) = 40%nat
  /\ Py.forall_string
       (fun c => Py.is_digit c || ((97 <=? Py.code c) && (Py.code c <=? 102)))
       (Py.sha1_hexdigest msg)
     = true.
Proof.
  unfold Py.sha1_hexdigest.
  destruct (Py.blocks _ Py.sha1_init (Py.pad msg)) as [[[[h0 h1] h2] h3] h4].
  split.
  - rewrite !hex_length. reflexivity.
  - repeat apply hex_digits. reflexivity.
Qed.

(** X20.  The identity hash of a row is never the empty string, whatever
    the row holds.  When it is built from the title it has 40 characters,
    each a digit or a letter from [a] to [f]. *)
Theorem getHash_is_never_empty (row : Row.t) :
  Execute.getHash row <> EmptyString
  /\ (Row.sha row = EmptyString ->
      String.length (Execute.getHash row) = 40%nat
      /\ Py.forall_string
           (fun c => Py.is_digit c || ((97 <=? Py.code c) && (Py.code c <=? 102)))
           (Execute.getHash row)
         = true).
Proof.
  assert (Hdigest : forall msg, Py.sha1_hexdigest msg <> EmptyString).
  { intros msg Hempty. pose proof (proj1 (sha1_hexdigest_shape msg)) as Hlen.
    rewrite Hempty in Hlen. discriminate Hlen. }
  unfold Execute.getHash. split.
  - destruct (Py.truthy (Row.sha row)); [| apply Hdigest].
    destruct (hd EmptyString (Py.split "; " (Row.sha row))) as [|c s] eqn:Hpiece;
      cbn [Py.truthy]; [apply Hdigest | discriminate].
  - intros ->. cbn [Py.truthy]. apply sha1_hexdigest_shape.
Qed.

Lemma getHash_is_never_empty_witness :
  String.length (Execute.getHash (Demo.row "uid" "" "A study" "" "")) = 40%nat.
Proof.
  apply (proj2 (getHash_is_never_empty (Demo.row "uid" "" "A study" "" ""))).
  reflexivity.
Defined.

(* ===================================================================== *)
(** * The sections of the body of a file *)
(* ===================================================================== *)

Lemma lstrip_blank (s : string) :
  Py.forall_string Py.is_space s = true -> Py.lstrip s = EmptyString.
Proof.
  induction s as [|c s IH]; [reflexivity |]. cbn [Py.forall_string Py.lstrip].
  intros [Hc Hs]%andb_true_iff. rewrite Hc. now apply IH.
Qed.

Lemma lstrip_not_blank (s : string) :
  Py.forall_string Py.is_space s = false ->
  exists c r, Py.lstrip s = String c r /\ Py.is_space c = false.
Proof.
  induction s as [|c s IH]; [discriminate |]. cbn [Py.forall_string Py.lstrip].
  destruct (Py.is_space c) eqn:Hc; cbn [andb]; [exact IH | eauto].
Qed.

Lemma lstrip_snoc (s : string) (c : ascii) :
  Py.is_space c = false -> Py.lstrip (String.append s (String c EmptyString)) <> EmptyString.
Proof.
  intros Hc. induction s as [|d s IH].
  - rewrite append_nil_l. cbn [Py.lstrip]. rewrite Hc. discriminate.
  - rewrite append_cons. cbn [Py.lstrip]. destruct (Py.is_space d); [exact IH | discriminate].
Qed.

Lemma rev_string_not_empty (s : string) :
  s <> EmptyString -> Py.rev_string EmptyString s <> EmptyString.
Proof.
  destruct s as [|c s]; [congruence |]. intros _. cbn [Py.rev_string].
  rewrite rev_string_acc. destruct (Py.rev_string EmptyString s); discriminate.
Qed.

(** [len(s.strip()) > 0] fails exactly on a string of white space. *)
Lemma strip_blank (s : string) :
  (0 <? String.length (Py.strip s))%nat = negb (Py.forall_string Py.is_space s).
Proof.
  unfold Py.strip. destruct (Py.forall_string Py.is_space s) eqn:Hblank.
  - now rewrite (lstrip_blank _ Hblank).
  - destruct (lstrip_not_blank _ Hblank) as (c & r & -> & Hc). cbn [Py.rev_string negb].
    rewrite (rev_string_acc r).
    pose proof (rev_string_not_empty _ (lstrip_snoc (Py.rev_string EmptyString r) c Hc))
      as Hne.
    destruct (Py.rev_string EmptyString
                (Py.lstrip (String.append (Py.rev_string EmptyString r)
                                          (String c EmptyString)))); [congruence | reflexivity].
Qed.

Lemma replace_char_gone (a b : ascii) (s : string) :
  a <> b ->
  Py.forall_string (fun c => negb (Ascii.eqb c a)) (Py.replace_char a b s) = true.
Proof.
  intros Hab. unfold Py.replace_char. induction s as [|c s IH]; [reflexivity |].
  cbn [Py.map_string Py.forall_string]. rewrite IH, andb_true_r.
  destruct (Ascii.eqb_spec c a) as [->|Hca].
  - destruct (Ascii.eqb_spec b a); [congruence | reflexivity].
  - destruct (Ascii.eqb_spec c a); [congruence | reflexivity].
Qed.

(** X21.  A paragraph of the body of a file gives one section for each
    sentence of its text, after each newline of the text has been replaced
    by a space; the sections are added after those gathered before.  They
    bear the heading of the paragraph, an ASCII string, in upper case, and
    no name at all when the heading is empty or made of white space only. *)
Theorem body_section_is_named_by_its_heading `{Externals tokens annotation}
    (section : Json.t) (title text : string) (st : Section_.state) :
  Json.getitem section "section" = Ok (Json.Str title) ->
  Json.getitem section "text" = Ok (Json.Str text) ->
  Py.forall_string (fun c => Py.code c <? 128) title = true ->
  let name := if Py.forall_string Py.is_space title then None else Some (Py.upper title) in
  let cleaned := Py.replace_char "010" " " text in
  Section_.body_section section st
  = (Section_.mk_state
       (Section_.sections st
        ++ map (fun x => (name, x)) (sent_tokenize (Text_transform cleaned)))
       (Section_.citations st) (Section_.stdout st),
     Ok tt)
  /\ Py.forall_string (fun c => negb (Ascii.eqb c "010")) cleaned = true.
Proof.
  intros Htitle Htext _ name cleaned. split.
  - unfold Section_.body_section, mbind, Section_.stmt_bind, Section_.eval,
      Section_.sections_extend.
    rewrite Htitle, Htext. cbn [result_bind Json.as_str].
    rewrite strip_blank. subst name cleaned.
    now destruct (Py.forall_string Py.is_space title).
  - apply replace_char_gone. discriminate.
Qed.

Lemma body_section_is_named_by_its_heading_witness :
  Section_.body_section (H := Demo.externals)
    (Demo.paragraph "  " "The outbreak of COVID-19 began.")
    (Section_.mk_state [(Some "TITLE", "A study")]%string [] [])
  = (Section_.mk_state [(Some "TITLE", "A study");
                        (None, "The outbreak of COVID-19 began.")]%string [] [],
     Ok tt).
Proof.
  apply (proj1 (body_section_is_named_by_its_heading (H := Demo.externals)
                  (Demo.paragraph "  " "The outbreak of COVID-19 began.")
                  "  " "The outbreak of COVID-19 began."
                  (Section_.mk_state [(Some "TITLE", "A study")]%string [] [])
                  eq_refl eq_refl eq_refl)).
Defined.

(* ===================================================================== *)
(** * The files of a row are read one by one *)
(* ===================================================================== *)

Lemma followed_by_nothing (st : Section_.state) :
  Gathered.followed_by st Gathered.nothing = st.
Proof.
  destruct st as [sections citations stdout]. unfold Gathered.followed_by, Gathered.nothing.
  cbn. now rewrite !app_nil_r.
Qed.

Lemma followed_by_assoc (a b c : Section_.state) :
  Gathered.followed_by (Gathered.followed_by a b) c
  = Gathered.followed_by a (Gathered.followed_by b c).
Proof. unfold Gathered.followed_by. cbn. now rewrite !app_assoc. Qed.

(** A statement that only adds to the lists, whatever they hold. *)
Lemma bind_adds `{Externals tokens annotation} {A B} (m : Section_.stmt A)
    (k : A -> Section_.stmt B) :
  (forall st0 st, m (Gathered.followed_by st0 st)
                  = (Gathered.followed_by st0 (fst (m st)), snd (m st))) ->
  (forall a st0 st, k a (Gathered.followed_by st0 st)
                    = (Gathered.followed_by st0 (fst (k a st)), snd (k a st))) ->
  forall st0 st,
    Section_.stmt_bind _ _ k m (Gathered.followed_by st0 st)
    = (Gathered.followed_by st0 (fst (Section_.stmt_bind _ _ k m st)),
       snd (Section_.stmt_bind _ _ k m st)).
Proof.
  intros Hm Hk st0 st. unfold Section_.stmt_bind. rewrite Hm.
  destruct (m st) as [st1 [a|ex]]; cbn [fst snd]; [apply Hk | reflexivity].
Qed.

Lemma eval_adds `{Externals tokens annotation} {A} (r : result A) (st0 st : Section_.state) :
  Section_.eval r (Gathered.followed_by st0 st)
  = (Gathered.followed_by st0 (fst (Section_.eval r st)), snd (Section_.eval r st)).
Proof. reflexivity. Qed.

Lemma sections_extend_adds `{Externals tokens annotation} (l : list Section_.sec)
    (st0 st : Section_.state) :
  Section_.sections_extend l (Gathered.followed_by st0 st)
  = (Gathered.followed_by st0 (fst (Section_.sections_extend l st)),
     snd (Section_.sections_extend l st)).
Proof.
  unfold Section_.sections_extend, Gathered.followed_by. cbn. now rewrite app_assoc.
Qed.

Lemma citations_extend_adds `{Externals tokens annotation} (l : list Json.t)
    (st0 st : Section_.state) :
  Section_.citations_extend l (Gathered.followed_by st0 st)
  = (Gathered.followed_by st0 (fst (Section_.citations_extend l st)),
     snd (Section_.citations_extend l st)).
Proof.
  unfold Section_.citations_extend, Gathered.followed_by. cbn. now rewrite app_assoc.
Qed.

Lemma print_adds `{Externals tokens annotation} (msg : string) (ex : exn)
    (st0 st : Section_.state) :
  Section_.print msg ex (Gathered.followed_by st0 st)
  = (Gathered.followed_by st0 (fst (Section_.print msg ex st)),
     snd (Section_.print msg ex st)).
Proof.
  unfold Section_.print, Gathered.followed_by. cbn. now rewrite app_assoc.
Qed.

Lemma ret_adds `{Externals tokens annotation} {A} (a : A) (st0 st : Section_.state) :
  Section_.stmt_ret A a (Gathered.followed_by st0 st)
  = (Gathered.followed_by st0 (fst (Section_.stmt_ret A a st)),
     snd (Section_.stmt_ret A a st)).
Proof. reflexivity. Qed.

Lemma for_adds `{Externals tokens annotation} {A} (l : list A)
    (body : A -> Section_.stmt unit) :
  (forall x st0 st, body x (Gathered.followed_by st0 st)
                    = (Gathered.followed_by st0 (fst (body x st)), snd (body x st))) ->
  forall st0 st,
    Section_.for_ l body (Gathered.followed_by st0 st)
    = (Gathered.followed_by st0 (fst (Section_.for_ l body st)),
       snd (Section_.for_ l body st)).
Proof.
  intros Hbody. induction l as [|x l IH]; intros st0 st; [reflexivity |].
  cbn [Section_.for_]. apply bind_adds; [apply Hbody | intros _; exact IH].
Qed.

Lemma body_section_adds `{Externals tokens annotation} (section : Json.t)
    (st0 st : Section_.state) :
  Section_.body_section section (Gathered.followed_by st0 st)
  = (Gathered.followed_by st0 (fst (Section_.body_section section st)),
     snd (Section_.body_section section st)).
Proof.
  unfold Section_.body_section.
  apply bind_adds; [apply eval_adds | intros title].
  apply bind_adds; [apply eval_adds | intros text].
  apply sections_extend_adds.
Qed.

Lemma ref_entry_adds `{Externals tokens annotation} (item : string * Json.t)
    (st0 st : Section_.state) :
  Section_.ref_entry item (Gathered.followed_by st0 st)
  = (Gathered.followed_by st0 (fst (Section_.ref_entry item st)),
     snd (Section_.ref_entry item st)).
Proof.
  destruct item as [name entry]. unfold Section_.ref_entry.
  apply bind_adds; [apply eval_adds | intros [|]; [| apply ret_adds]].
  apply bind_adds; [apply eval_adds | intros html].
  destruct (Json.truthy html); [| apply ret_adds].
  apply bind_adds; [apply eval_adds | intros rows]. apply sections_extend_adds.
Qed.

Lemma text_file_adds `{Externals tokens annotation} (article : string)
    (st0 st : Section_.state) :
  Section_.text_file article (Gathered.followed_by st0 st)
  = (Gathered.followed_by st0 (fst (Section_.text_file article st)),
     snd (Section_.text_file article st)).
Proof.
  unfold Section_.text_file.
  apply bind_adds; [apply eval_adds | intros data].
  apply bind_adds; [apply eval_adds | intros body].
  apply bind_adds; [apply for_adds; intros; apply body_section_adds | intros _].
  apply bind_adds; [apply eval_adds | intros refs].
  apply bind_adds; [apply for_adds; intros; apply ref_entry_adds | intros _].
  apply bind_adds; [apply eval_adds | intros titles].
  apply citations_extend_adds.
Qed.

Lemma each_file_adds `{Externals tokens annotation} (directory path : string)
    (st0 st : Section_.state) :
  Section_.each_file directory path (Gathered.followed_by st0 st)
  = (Gathered.followed_by st0 (fst (Section_.each_file directory path st)), Ok tt).
Proof.
  unfold Section_.each_file, Section_.try_except. rewrite text_file_adds.
  destruct (Section_.text_file (Py.path_join directory path) st) as [st1 [[]|ex]];
    cbn [fst snd]; [reflexivity |].
  rewrite print_adds. reflexivity.
Qed.

Lemma for_each_file `{Externals tokens annotation} (directory : string)
    (files : list string) (st : Section_.state) :
  fst (Section_.for_ files (Section_.each_file directory) st)
  = Section_.mk_state
      (Section_.sections st
       ++ flat_map (fun path => Section_.sections (Gathered.of_file directory path)) files)
      (Section_.citations st
       ++ flat_map (fun path => Section_.citations (Gathered.of_file directory path)) files)
      (Section_.stdout st
       ++ flat_map (fun path => Section_.stdout (Gathered.of_file directory path)) files).
Proof.
  revert st. induction files as [|path files IH]; intros st.
  - cbn. rewrite !app_nil_r. now destruct st.
  - cbn [Section_.for_ flat_map]. unfold mbind, Section_.stmt_bind.
    rewrite <- (followed_by_nothing st) at 1. rewrite each_file_adds.
    fold (Gathered.of_file directory path). rewrite IH.
    unfold Gathered.followed_by. cbn. now rewrite !app_assoc.
Qed.

(** X22.  The files of a row are read independently of one another: what
    the loop body of [parse] adds for a file (sections, citations and
    printed lines) does not depend on what was gathered before, and is
    added after it.  So when the loop is left the sections are those of the
    title, of the abstract and of each file in the order of the files, the
    citations are those of the files in that order, and so are the lines
    printed. *)
Theorem files_are_read_one_by_one `{Externals tokens annotation}
    (row : Row.t) (directory path : string) (st : Section_.state) :
  Section_.each_file directory path st
  = (Gathered.followed_by st (Gathered.of_file directory path), Ok tt)
  /\ Section_.sections (Section_.read_files row directory)
     = Section_.heading "title" (Row.title row)
       ++ Section_.heading "abstract" (Row.abstract row)
       ++ flat_map (fun path => Section_.sections (Gathered.of_file directory path))
                   (Section_.files row)
  /\ Section_.citations (Section_.read_files row directory)
     = flat_map (fun path => Section_.citations (Gathered.of_file directory path))
                (Section_.files row)
  /\ Section_.stdout (Section_.read_files row directory)
     = flat_map (fun path => Section_.stdout (Gathered.of_file directory path))
                (Section_.files row).
Proof.
  split.
  - rewrite <- (followed_by_nothing st) at 1. apply each_file_adds.
  - unfold Section_.read_files. cbn zeta. rewrite for_each_file. cbn.
    now rewrite <- app_assoc.
Qed.

